(** * Habit-Tracker: the prediction and model-evaluation subsystem

    A shallow embedding of [src/lib/ml-features.ts], [src/lib/ml-models.ts],
    [src/lib/prediction-engine.ts], the model evaluator and the habit
    statistics helper, followed by the properties of these functions.

    Conventions of the embedding.
    - A JavaScript [number] is a value of [JS.num]: a real number, one of the
      two infinities, or NaN.  Arithmetic on finite values is exact (no
      rounding) and the sign of zero is not tracked; everything else
      (NaN propagation, division by zero, comparisons with NaN, truthiness)
      follows ECMAScript.
    - [undefined] read from an array out of range is NaN wherever the source
      uses the value in arithmetic or in a comparison.
    - A [Date] is its [getTime()] value, an integer number of milliseconds;
      a log's ["YYYY-MM-DD"] date is the number of the day since the epoch.
    - The wall clock ([Date.now()], [new Date()]) and the local time zone are
      read from an explicit environment. *)

From Stdlib Require Import Reals Lra Lia ZArith String Ascii Bool Arith.
From Stdlib Require Import DecimalString List Permutation Sorted.
Import ListNotations.

(* ================================================================= *)
(** ** JavaScript numbers *)

Module JS.

Inductive num : Type :=
| NaN
| PInf
| NInf
| Fin (r : R).

Definition Rltb (a b : R) : bool := if Rlt_dec a b then true else false.
Definition Rleb (a b : R) : bool := if Rle_dec a b then true else false.
Definition Reqb (a b : R) : bool := if Req_dec_T a b then true else false.

Definition of_nat (n : nat) : num := Fin (INR n).
Definition of_Z (z : Z) : num := Fin (IZR z).
Definition of_bool (b : bool) : num := if b then Fin 1 else Fin 0.

(** Unary minus. *)
Definition neg (x : num) : num :=
  match x with
  | NaN => NaN
  | PInf => NInf
  | NInf => PInf
  | Fin a => Fin (- a)
  end.

(** [x + y] *)
Definition add (x y : num) : num :=
  match x, y with
  | NaN, _ | _, NaN => NaN
  | PInf, NInf | NInf, PInf => NaN
  | PInf, _ | _, PInf => PInf
  | NInf, _ | _, NInf => NInf
  | Fin a, Fin b => Fin (a + b)
  end.

(** [x - y] *)
Definition sub (x y : num) : num := add x (neg y).

(** An infinity [i] times the finite value [a]. *)
Definition inf_times (i : num) (a : R) : num :=
  if Reqb a 0 then NaN else if Rltb 0 a then i else neg i.

(** [x * y] *)
Definition mul (x y : num) : num :=
  match x, y with
  | NaN, _ | _, NaN => NaN
  | Fin a, Fin b => Fin (a * b)
  | Fin a, i => inf_times i a
  | i, Fin b => inf_times i b
  | PInf, PInf | NInf, NInf => PInf
  | PInf, NInf | NInf, PInf => NInf
  end.

(** [x / y]; a zero divisor is taken as [+0]. *)
Definition div (x y : num) : num :=
  match x, y with
  | NaN, _ | _, NaN => NaN
  | Fin a, Fin b =>
      if Reqb b 0
      then (if Reqb a 0 then NaN else if Rltb 0 a then PInf else NInf)
      else Fin (a / b)
  | Fin _, _ => Fin 0
  | i, Fin b => if Rltb b 0 then neg i else i
  | _, _ => NaN
  end.

(** [x < y], [x <= y], [x > y], [x >= y]: false as soon as one side is NaN. *)
Definition ltb (x y : num) : bool :=
  match x, y with
  | NaN, _ | _, NaN => false
  | _, NInf => false
  | NInf, _ => true
  | PInf, _ => false
  | Fin _, PInf => true
  | Fin a, Fin b => Rltb a b
  end.

Definition leb (x y : num) : bool :=
  match x, y with
  | NaN, _ | _, NaN => false
  | NInf, _ => true
  | _, PInf => true
  | PInf, _ => false
  | Fin _, NInf => false
  | Fin a, Fin b => Rleb a b
  end.

Definition gtb (x y : num) : bool := ltb y x.
Definition geb (x y : num) : bool := leb y x.

(** [x === y] on numbers. *)
Definition eqb (x y : num) : bool :=
  match x, y with
  | PInf, PInf | NInf, NInf => true
  | Fin a, Fin b => Reqb a b
  | _, _ => false
  end.

(** [x !== y] *)
Definition neqb (x y : num) : bool := negb (eqb x y).

(** Truthiness of a number: [0] and NaN are falsy. *)
Definition truthy (x : num) : bool :=
  match x with
  | NaN => false
  | Fin a => negb (Reqb a 0)
  | _ => true
  end.

(** [x || d] *)
Definition or_else (x d : num) : num := if truthy x then x else d.

(** [Math.min(x, y)] and [Math.max(x, y)]. *)
Definition min (x y : num) : num :=
  match x, y with
  | NaN, _ | _, NaN => NaN
  | _, _ => if ltb y x then y else x
  end.

Definition max (x y : num) : num :=
  match x, y with
  | NaN, _ | _, NaN => NaN
  | _, _ => if ltb x y then y else x
  end.

(** [Math.abs], [Math.exp], [Math.log1p], [Math.sqrt]. *)
Definition abs (x : num) : num :=
  match x with
  | NaN => NaN
  | PInf | NInf => PInf
  | Fin a => Fin (Rabs a)
  end.

Definition exp (x : num) : num :=
  match x with
  | NaN => NaN
  | PInf => PInf
  | NInf => Fin 0
  | Fin a => Fin (Rtrigo_def.exp a)
  end.

Definition log1p (x : num) : num :=
  match x with
  | NaN | NInf => NaN
  | PInf => PInf
  | Fin a =>
      if Rltb a (-1) then NaN
      else if Reqb a (-1) then NInf
      else Fin (ln (1 + a))
  end.

Definition sqrt (x : num) : num :=
  match x with
  | NaN | NInf => NaN
  | PInf => PInf
  | Fin a => if Rltb a 0 then NaN else Fin (R_sqrt.sqrt a)
  end.

(** Same value (the equality of [Set] members and of object keys made from
    numbers): Leibniz equality of [num], decidable. *)
Definition num_eq_dec (x y : num) : {x = y} + {x <> y}.
Proof.
  destruct x as [| | |a], y as [| | |b];
    try (left; reflexivity); try (right; discriminate).
  destruct (Req_dec_T a b) as [e|n].
  - left; now subst.
  - right; intros H; now inversion H.
Defined.

Definition same (x y : num) : bool := if num_eq_dec x y then true else false.

End JS.

Declare Scope num_scope.
Delimit Scope num_scope with num.
Bind Scope num_scope with JS.num.
Infix "+" := JS.add : num_scope.
Infix "-" := JS.sub : num_scope.
Infix "*" := JS.mul : num_scope.
Infix "/" := JS.div : num_scope.
Infix "<?" := JS.ltb : num_scope.
Infix "<=?" := JS.leb : num_scope.
Infix ">?" := JS.gtb : num_scope.
Infix ">=?" := JS.geb : num_scope.
Infix "===" := JS.eqb (at level 70) : num_scope.
Infix "||" := JS.or_else : num_scope.
Notation "# r" := (JS.Fin r%R) (at level 1, format "# r") : num_scope.

(* ================================================================= *)
(** ** Data model ([types/habit]) *)

Inductive TimeOfDay := morning | afternoon | evening | anytime.
Inductive Mood := great | good | okay | poor.
Inductive Weather := sunny | cloudy | rainy | snowy.

Record Habit := mkHabit {
  id : string;
  name : string;
  category : string;
  preferredTime : TimeOfDay;
  createdAt : Z;                (* Date: milliseconds since the epoch *)
  isActive : bool
}.

Record HabitLog := mkLog {
  log_id : string;
  habitId : string;
  date : Z;                     (* "YYYY-MM-DD": day number since the epoch *)
  completed : bool;
  mood : option Mood;
  sleepHours : option JS.num;
  energyLevel : option JS.num;
  stressLevel : option JS.num;
  weather : option Weather;
  loggedAt : Z
}.

Record HabitStats := mkStats {
  s_habitId : string;
  totalLogs : nat;
  completedLogs : nat;
  successRate : JS.num;
  currentStreak : nat;
  longestStreak : nat;
  daysSinceLastLog : Z
}.

Record MLFeatures := mkFeatures {
  f_habitId : string;
  f_dayOfWeek : Z;
  f_timeOfDay : TimeOfDay;
  f_mood : option Mood;
  f_sleepHours : option JS.num;
  f_energyLevel : option JS.num;
  f_stressLevel : option JS.num;
  f_weather : option Weather;
  f_streak : nat;
  f_daysSinceLastLog : Z;
  f_successRate : JS.num;
  f_category : string;
  f_daysSinceCreated : Z;
  f_isWeekend : bool
}.

Inductive Confidence := high | medium | low.

Record Prediction := mkPrediction {
  p_habitId : string;
  p_habitName : string;
  p_category : string;
  probability : JS.num;
  confidence : Confidence;
  explanation : string;
  p_streak : nat;
  p_successRate : JS.num
}.

(** What the functions read from their surroundings: the clock and the
    offset of local time from UTC, both in milliseconds. *)
Record Env := mkEnv {
  clock : Z;
  utcOffset : Z
}.

Definition msPerDay : Z := 1000 * 60 * 60 * 24.

(** [new Date(s).getTime()] for a date-only string [s]: midnight UTC. *)
Definition Date_getTime (day : Z) : Z := (day * msPerDay)%Z.

(** [d.getDay()]: the local day of the week, 0 = Sunday; the epoch was a
    Thursday. *)
Definition getDay (env : Env) (t : Z) : Z :=
  (((t + utcOffset env) / msPerDay + 4) mod 7)%Z.

(* ================================================================= *)
(** ** Arrays *)

(** [Array.prototype.sort(cmp)], a stable sort.  [gt0 a b] says that
    [cmp(a, b) > 0], that is, that [a] has to come after [b]. *)
Section Sort.
Context {A : Type} (gt0 : A -> A -> bool).

Fixpoint insert (x : A) (l : list A) : list A :=
  match l with
  | [] => [x]
  | y :: l' => if gt0 x y then y :: insert x l' else x :: l
  end.

Definition Array_sort (l : list A) : list A := fold_right insert [] l.
End Sort.

(** [l[i]] on an array of numbers; out of range is [undefined]. *)
Definition at_ (l : list JS.num) (i : nat) : JS.num := nth i l JS.NaN.

(** [l.reduce((sum, v) => sum + v, 0)] *)
Definition sum (l : list JS.num) : JS.num :=
  fold_left JS.add l (JS.Fin 0).

(** [l.filter(p).length] *)
Definition count {A} (p : A -> bool) (l : list A) : nat :=
  length (filter p l).

(* ================================================================= *)
(** ** Habit statistics ([lib/habit-utils], [calculateHabitStats]) *)

(** The [for ... of] loop of the current streak: it stops at the first log
    that is not completed. *)
Fixpoint currentStreak_loop (sortedLogs : list HabitLog) : nat :=
  match sortedLogs with
  | [] => 0
  | log :: rest => if completed log then S (currentStreak_loop rest) else 0
  end.

(** One round of the longest-streak loop on [(tempStreak, longestStreak)]. *)
Definition longestStreak_step (st : nat * nat) (log : HabitLog) : nat * nat :=
  let '(tempStreak, longestStreak) := st in
  if completed log
  then (S tempStreak, Nat.max longestStreak (S tempStreak))
  else (0, longestStreak).

Definition calculateHabitStats (env : Env) (habit : Habit)
  (logs : list HabitLog) : HabitStats :=
  let habitLogs := filter (fun log => String.eqb (habitId log) (id habit)) logs in
  let completedLogs := filter completed habitLogs in
  let totalLogs := length habitLogs in
  let completedCount := length completedLogs in
  let successRate :=
    if (0 <? totalLogs)%nat
    then (JS.of_nat completedCount / JS.of_nat totalLogs)%num
    else JS.Fin 0 in
  (* newest first *)
  let sortedLogs :=
    Array_sort
      (fun a b => (Date_getTime (date b) - Date_getTime (date a) >? 0)%Z)
      habitLogs in
  let currentStreak := currentStreak_loop sortedLogs in
  (* [sortedLogs.reverse()] reverses the array in place: from here on
     [sortedLogs] is the reversed array, oldest first *)
  let sortedLogs := rev sortedLogs in
  let longestStreak := snd (fold_left longestStreak_step sortedLogs (0, 0)) in
  let lastLog := hd_error sortedLogs in
  let daysSinceLastLog :=
    match lastLog with
    | Some lastLog => ((clock env - Date_getTime (date lastLog)) / msPerDay)%Z
    | None => 999%Z
    end in
  {| s_habitId := id habit;
     totalLogs := totalLogs;
     completedLogs := completedCount;
     successRate := successRate;
     currentStreak := currentStreak;
     longestStreak := longestStreak;
     daysSinceLastLog := daysSinceLastLog |}.

(* ================================================================= *)
(** ** Feature engineering ([lib/ml-features.ts]) *)

(** The most recent log on or before the target date: the first element of
    the filtered array sorted newest first, [undefined] if there is none. *)
Definition recentLogOf (habitLogs : list HabitLog) (targetDateObj : Z)
  : option HabitLog :=
  hd_error
    (Array_sort
       (fun a b => (Date_getTime (date b) - Date_getTime (date a) >? 0)%Z)
       (filter (fun log => (Date_getTime (date log) <=? targetDateObj)%Z)
               habitLogs)).

Definition extractFeatures (env : Env) (habit : Habit) (logs : list HabitLog)
  (targetDate : option Z) : MLFeatures :=
  let targetDateObj :=
    match targetDate with Some t => t | None => clock env end in
  let stats := calculateHabitStats env habit logs in
  let habitLogs := filter (fun log => String.eqb (habitId log) (id habit)) logs in
  let recentLog := recentLogOf habitLogs targetDateObj in
  let daysSinceCreated := ((targetDateObj - createdAt habit) / msPerDay)%Z in
  let isWeekend :=
    (getDay env targetDateObj =? 0)%Z || (getDay env targetDateObj =? 6)%Z in
  {| f_habitId := id habit;
     f_dayOfWeek := getDay env targetDateObj;
     f_timeOfDay := preferredTime habit;
     f_mood := match recentLog with Some l => mood l | None => None end;
     f_sleepHours :=
       match recentLog with Some l => sleepHours l | None => None end;
     f_energyLevel :=
       match recentLog with Some l => energyLevel l | None => None end;
     f_stressLevel :=
       match recentLog with Some l => stressLevel l | None => None end;
     f_weather := match recentLog with Some l => weather l | None => None end;
     f_streak := currentStreak stats;
     f_daysSinceLastLog := daysSinceLastLog stats;
     f_successRate := successRate stats;
     f_category := category habit;
     f_daysSinceCreated := daysSinceCreated;
     f_isWeekend := isWeekend |}.

(** [v ? f(v) : d] on an optional number: absent, [0] and NaN take [d]. *)
Definition if_truthy (v : option JS.num) (f : JS.num -> JS.num) (d : JS.num)
  : JS.num :=
  match v with
  | Some x => if JS.truthy x then f x else d
  | None => d
  end.

(** The hash of the category: over the UTF-16 code units of the string
    (here its bytes), [((hash << 5) - hash + code) & 0xffff] from 0. *)
Definition categoryHash (s : string) : Z :=
  fold_left
    (fun hash char =>
       Z.land (Z.shiftl hash 5 - hash + Z.of_nat (nat_of_ascii char)) 65535)
    (list_ascii_of_string s) 0%Z.

Definition timeEncoding (t : TimeOfDay) : list JS.num :=
  match t with
  | morning => [#1; #0; #0; #0]
  | afternoon => [#0; #1; #0; #0]
  | evening => [#0; #0; #1; #0]
  | anytime => [#0; #0; #0; #1]
  end%num.

Definition weatherEncoding (w : option Weather) : list JS.num :=
  match w with
  | Some sunny => [#1; #0; #0; #0]
  | Some cloudy => [#0; #1; #0; #0]
  | Some rainy => [#0; #0; #1; #0]
  | Some snowy => [#0; #0; #0; #1]
  | None => [#0; #0; #0; #0]
  end%num.

Definition moodValue (m : option Mood) : JS.num :=
  match m with
  | Some poor => #0
  | Some okay => #0.33
  | Some good => #0.67
  | Some great => #1
  | None => #0.5
  end%num.

Definition encodeFeatures (features : MLFeatures) : list JS.num :=
  (* day of week *)
  [ (JS.of_Z (f_dayOfWeek features) / #6)%num ]
  (* time of day, one-hot *)
  ++ timeEncoding (f_timeOfDay features)
  ++ [ (* mood *)
       moodValue (f_mood features);
       (* sleep hours *)
       if_truthy (f_sleepHours features)
                 (fun h => JS.min (h / #10) #1)%num (#0.75)%num;
       (* energy level *)
       if_truthy (f_energyLevel features)
                 (fun e => (e - #1) / #4)%num (#0.5)%num;
       (* stress level, inverted *)
       if_truthy (f_stressLevel features)
                 (fun s => #1 - ((s - #1) / #4))%num (#0.5)%num ]
  (* weather, one-hot *)
  ++ weatherEncoding (f_weather features)
  ++ [ (* streak *)
       JS.min (JS.log1p (JS.of_nat (f_streak features)) / JS.log1p #30)%num
              (#1)%num;
       (* days since last log *)
       JS.min (JS.of_Z (f_daysSinceLastLog features) / #30)%num (#1)%num;
       (* success rate *)
       f_successRate features;
       (* category *)
       (JS.of_Z (categoryHash (f_category features) mod 100) / #100)%num;
       (* days since created *)
       JS.min (JS.log1p (JS.of_Z (f_daysSinceCreated features))
               / JS.log1p #365)%num (#1)%num;
       (* is weekend *)
       JS.of_bool (f_isWeekend features) ].

Record TrainingData := mkTrainingData {
  td_features : list (list JS.num);
  td_labels : list JS.num;
  td_metadata : list (string * Z)
}.

(** One round of the inner loop of [createTrainingData]: the three values
    pushed for the log [log] of [habit]. *)
Definition trainingSample (env : Env) (habit : Habit) (logs : list HabitLog)
  (log : HabitLog) : list JS.num * JS.num * (string * Z) :=
  let logDate := Date_getTime (date log) in
  let features := extractFeatures env habit logs (Some logDate) in
  let encoded := encodeFeatures features in
  (encoded, JS.of_bool (completed log), (id habit, date log)).

Definition trainingSamples (env : Env) (habits : list Habit)
  (logs : list HabitLog) : list (list JS.num * JS.num * (string * Z)) :=
  flat_map
    (fun habit =>
       let habitLogs :=
         filter (fun log => String.eqb (habitId log) (id habit)) logs in
       map (trainingSample env habit logs) habitLogs)
    habits.

Definition createTrainingData (env : Env) (habits : list Habit)
  (logs : list HabitLog) : TrainingData :=
  let samples := trainingSamples env habits logs in
  {| td_features := map (fun s => fst (fst s)) samples;
     td_labels := map (fun s => snd (fst s)) samples;
     td_metadata := map snd samples |}.

(** One round of the loop of [calculateCorrelation] on
    [(numerator, denomX, denomY)]. *)
Definition correlation_step (x y : list JS.num) (meanX meanY : JS.num)
  (acc : JS.num * JS.num * JS.num) (i : nat) : JS.num * JS.num * JS.num :=
  let '(numerator, denomX, denomY) := acc in
  let dx := (at_ x i - meanX)%num in
  let dy := (at_ y i - meanY)%num in
  ((numerator + dx * dy)%num, (denomX + dx * dx)%num, (denomY + dy * dy)%num).

Definition calculateCorrelation (x y : list JS.num) : JS.num :=
  let n := length x in
  if (n =? 0)%nat then (#0)%num else
  let meanX := (sum x / JS.of_nat n)%num in
  let meanY := (sum y / JS.of_nat n)%num in
  let '(numerator, denomX, denomY) :=
    fold_left (correlation_step x y meanX meanY) (seq 0 n)
              (#0, #0, #0)%num in
  let denominator := JS.sqrt (denomX * denomY)%num in
  if (denominator === #0)%num then (#0)%num
  else (numerator / denominator)%num.

Definition featureNames : list string :=
  [ "dayOfWeek"; "timeOfDay_morning"; "timeOfDay_afternoon";
    "timeOfDay_evening"; "timeOfDay_anytime";
    "mood"; "sleepHours"; "energyLevel"; "stressLevel";
    "weather_sunny"; "weather_cloudy"; "weather_rainy"; "weather_snowy";
    "streak"; "daysSinceLastLog"; "successRate"; "category";
    "daysSinceCreated"; "isWeekend" ]%string.

Definition calculateFeatureImportance (features : list (list JS.num))
  (labels : list JS.num) : list (string * JS.num) :=
  map
    (fun i =>
       let featureValues := map (fun f => at_ f i) features in
       let correlation := calculateCorrelation featureValues labels in
       (nth i featureNames EmptyString, JS.abs correlation))
    (seq 0 (length featureNames)).

(* ================================================================= *)
(** ** Logistic regression ([lib/ml-models.ts]) *)

Record LogisticRegression := mkLR {
  weights : list JS.num;
  bias : JS.num;
  learningRate : JS.num;
  iterations : nat
}.

(** [new LogisticRegression(learningRate, iterations)] *)
Definition LR_new (learningRate : JS.num) (iterations : nat)
  : LogisticRegression :=
  {| weights := []; bias := (#0)%num;
     learningRate := learningRate; iterations := iterations |}.

Definition LR_default : LogisticRegression := LR_new (#0.01)%num 1000.

Definition sigmoid (z : JS.num) : JS.num :=
  (#1 / (#1 + JS.exp (JS.neg (JS.max (#(-500)) (JS.min #500 z)))))%num.

(** [features.reduce((sum, feature, i) => sum + feature * weights[i], bias)],
    from the index [i] on. *)
Fixpoint dot_from (weights : list JS.num) (acc : JS.num) (i : nat)
  (features : list JS.num) : JS.num :=
  match features with
  | [] => acc
  | feature :: rest =>
      dot_from weights (acc + feature * at_ weights i)%num (S i) rest
  end.

Definition LR_predict (lr : LogisticRegression) (features : list JS.num)
  : JS.num :=
  let z := dot_from (weights lr) (bias lr) 0 features in
  sigmoid z.

(** The gradient loop of one iteration, on [(weightGradients, biasGradient)]. *)
Definition LR_gradient_step (features : list (list JS.num))
  (labels predictions : list JS.num) (numFeatures : nat)
  (acc : list JS.num * JS.num) (i : nat) : list JS.num * JS.num :=
  let '(weightGradients, biasGradient) := acc in
  let error := (at_ predictions i - at_ labels i)%num in
  (map (fun j => (at_ weightGradients j
                  + error * at_ (nth i features []) j)%num)
       (seq 0 numFeatures),
   (biasGradient + error)%num).

(** One iteration of the training loop. *)
Definition LR_iteration (features : list (list JS.num)) (labels : list JS.num)
  (numFeatures : nat) (lr : LogisticRegression) : LogisticRegression :=
  let predictions := map (LR_predict lr) features in
  let '(weightGradients, biasGradient) :=
    fold_left (LR_gradient_step features labels predictions numFeatures)
              (seq 0 (length features))
              (repeat (#0)%num numFeatures, (#0)%num) in
  let n := JS.of_nat (length features) in
  {| weights :=
       map (fun j => (at_ (weights lr) j
                      - (learningRate lr * at_ weightGradients j) / n)%num)
           (seq 0 numFeatures);
     bias := (bias lr - (learningRate lr * biasGradient) / n)%num;
     learningRate := learningRate lr;
     iterations := iterations lr |}.

Definition LR_train (lr : LogisticRegression) (features : list (list JS.num))
  (labels : list JS.num) : LogisticRegression :=
  match features with
  | [] => lr
  | first :: _ =>
      let numFeatures := length first in
      let lr0 :=
        {| weights := repeat (#0)%num numFeatures; bias := (#0)%num;
           learningRate := learningRate lr; iterations := iterations lr |} in
      Nat.iter (iterations lr) (LR_iteration features labels numFeatures) lr0
  end.

(* ================================================================= *)
(** ** Decision tree ([lib/ml-models.ts]) *)

(** The two shapes of node that [buildTree] makes. *)
Inductive TreeNode :=
| Leaf (prediction : JS.num)
| Split (featureIndex : nat) (threshold : JS.num) (left right : TreeNode).

Record DecisionTree := mkDT {
  root : option TreeNode;
  maxDepth : nat;
  minSamples : nat
}.

(** [new DecisionTree(maxDepth, minSamples)] *)
Definition DT_new (maxDepth minSamples : nat) : DecisionTree :=
  {| root := None; maxDepth := maxDepth; minSamples := minSamples |}.

Definition DT_default : DecisionTree := DT_new 5 2.

(** [acc[label] = (acc[label] || 0) + 1] on the counts, kept in the order in
    which the labels are first met. *)
Fixpoint bump (label : JS.num) (counts : list (JS.num * nat))
  : list (JS.num * nat) :=
  match counts with
  | [] => [(label, 1)]
  | (k, c) :: rest =>
      if JS.same k label then (k, S c) :: rest else (k, c) :: bump label rest
  end.

Definition calculateGini (labels : list JS.num) : JS.num :=
  if (length labels =? 0)%nat then (#0)%num else
  let counts := fold_left (fun acc label => bump label acc) labels [] in
  let total := JS.of_nat (length labels) in
  fold_left
    (fun gini kc =>
       let probability := (JS.of_nat (snd kc) / total)%num in
       (gini - probability * probability)%num)
    counts (#1)%num.

(** The indices pushed to [leftIndices] and to [rightIndices]. *)
Definition splitIndices (features : list (list JS.num)) (featureIndex : nat)
  (threshold : JS.num) : list nat * list nat :=
  partition
    (fun index => (at_ (nth index features []) featureIndex <=? threshold)%num)
    (seq 0 (length features)).

Record BestSplit := mkBest {
  bestGini : JS.num;
  bestFeatureIndex : Z;
  bestThreshold : JS.num
}.

(** The body of the inner loop of [findBestSplit], for the candidate
    threshold between [values[i]] and [values[i + 1]]. *)
Definition findBestSplit_step (features : list (list JS.num))
  (labels : list JS.num) (featureIndex : nat) (values : list JS.num)
  (best : BestSplit) (i : nat) : BestSplit :=
  let threshold := ((at_ values i + at_ values (i + 1)) / #2)%num in
  let '(leftIndices, rightIndices) :=
    splitIndices features featureIndex threshold in
  if (length leftIndices =? 0)%nat || (length rightIndices =? 0)%nat
  then best
  else
    let leftLabels := map (at_ labels) leftIndices in
    let rightLabels := map (at_ labels) rightIndices in
    let leftGini := calculateGini leftLabels in
    let rightGini := calculateGini rightLabels in
    let weightedGini :=
      ((JS.of_nat (length leftLabels) * leftGini
        + JS.of_nat (length rightLabels) * rightGini)
       / JS.of_nat (length labels))%num in
    if (weightedGini <? bestGini best)%num
    then {| bestGini := weightedGini;
            bestFeatureIndex := Z.of_nat featureIndex;
            bestThreshold := threshold |}
    else best.

Definition findBestSplit (features : list (list JS.num))
  (labels : list JS.num) : option (nat * JS.num * JS.num) :=
  let numFeatures := match features with f :: _ => length f | [] => 0 end in
  let best :=
    fold_left
      (fun best featureIndex =>
         let values :=
           Array_sort (fun a b => (a - b >? #0)%num)
                      (map (fun f => at_ f featureIndex) features) in
         fold_left (findBestSplit_step features labels featureIndex values)
                   (seq 0 (length values - 1)) best)
      (seq 0 numFeatures)
      {| bestGini := JS.PInf; bestFeatureIndex := (-1)%Z;
         bestThreshold := (#0)%num |} in
  if (bestFeatureIndex best >=? 0)%Z
  then Some (Z.to_nat (bestFeatureIndex best), bestThreshold best,
             bestGini best)
  else None.

(** [new Set(labels).size] *)
Definition distinct (labels : list JS.num) : nat :=
  length (nodup JS.num_eq_dec labels).

(** [buildTree], by recursion on the number of levels left below
    [maxDepth]. *)
Fixpoint buildTree_levels (levels minSamples : nat)
  (features : list (list JS.num)) (labels : list JS.num) : TreeNode :=
  let leaf := Leaf (sum labels / JS.of_nat (length labels))%num in
  match levels with
  | O => leaf
  | S levels' =>
      if (length labels <? minSamples)%nat || (distinct labels =? 1)%nat
      then leaf
      else
        match findBestSplit features labels with
        | None => leaf
        | Some (featureIndex, threshold, _) =>
            let '(leftIndices, rightIndices) :=
              splitIndices features featureIndex threshold in
            let leftFeatures := map (fun i => nth i features []) leftIndices in
            let leftLabels := map (at_ labels) leftIndices in
            let rightFeatures :=
              map (fun i => nth i features []) rightIndices in
            let rightLabels := map (at_ labels) rightIndices in
            Split featureIndex threshold
              (buildTree_levels levels' minSamples leftFeatures leftLabels)
              (buildTree_levels levels' minSamples rightFeatures rightLabels)
        end
  end.

Definition buildTree (dt : DecisionTree) (features : list (list JS.num))
  (labels : list JS.num) (depth : nat) : TreeNode :=
  buildTree_levels (maxDepth dt - depth) (minSamples dt) features labels.

Definition DT_train (dt : DecisionTree) (features : list (list JS.num))
  (labels : list JS.num) : DecisionTree :=
  if (length features =? 0)%nat then dt
  else {| root := Some (buildTree dt features labels 0);
          maxDepth := maxDepth dt; minSamples := minSamples dt |}.

(** The [while] loop of [predict]: the prediction stored in the leaf that
    the walk from [node] reaches. *)
Fixpoint reach (node : TreeNode) (features : list JS.num) : JS.num :=
  match node with
  | Leaf prediction => prediction
  | Split featureIndex threshold l r =>
      if (at_ features featureIndex <=? threshold)%num
      then reach l features
      else reach r features
  end.

Definition DT_predict (dt : DecisionTree) (features : list JS.num) : JS.num :=
  match root dt with
  | None => (#0.5)%num
  | Some node => (reach node features || #0.5)%num
  end.

(* ================================================================= *)
(** ** Model evaluation ([lib/model-evaluation], [ModelEvaluator]) *)

Record ConfusionMatrix := mkCM {
  truePositive : nat;
  trueNegative : nat;
  falsePositive : nat;
  falseNegative : nat
}.

Record ClassScores := mkClassScores {
  c_precision : JS.num;
  c_recall : JS.num;
  c_f1Score : JS.num;
  support : nat
}.

Record AverageScores := mkAverageScores {
  a_precision : JS.num;
  a_recall : JS.num;
  a_f1Score : JS.num
}.

Record ClassificationReport := mkReport {
  positive : ClassScores;
  negative : ClassScores;
  macro : AverageScores;
  weighted : AverageScores
}.

Record ModelMetrics := mkMetrics {
  accuracy : JS.num;
  precision : JS.num;
  recall : JS.num;
  f1Score : JS.num;
  confusionMatrix : ConfusionMatrix;
  rocAuc : option JS.num;
  classificationReport : ClassificationReport
}.

Record DataQuality := mkDataQuality {
  dq_totalSamples : nat;
  classBalance : nat * nat;          (* positive, negative *)
  missingValueRate : JS.num;
  outlierRate : JS.num
}.

Record LearningPoint := mkLearningPoint {
  trainSize : nat;
  trainScore : JS.num;
  valScore : JS.num
}.

Record ModelPerformanceReport := mkPerformance {
  r_logisticRegression : ModelMetrics;
  r_decisionTree : ModelMetrics;
  r_ensemble : ModelMetrics;
  crossValidationScores : list JS.num;
  learningCurve : list LearningPoint;
  r_featureImportance : list (string * JS.num);
  dataQuality : DataQuality
}.

(** [predictions.reduce((sum, pred, i) =>
       sum + (pred === p && actuals[i] === a ? 1 : 0), 0)] *)
Definition countPairs (p a : JS.num) (predictions actuals : list JS.num)
  : nat :=
  count (fun i => (at_ predictions i === p)%num && (at_ actuals i === a)%num)
        (seq 0 (length predictions)).

(** [arr.slice(from, to)] for [0 <= from], [0 <= to]. *)
Definition slice {A} (from to : nat) (l : list A) : list A :=
  firstn (to - from) (skipn from l).

(** State of the loop of [calculateROCAUC]. *)
Record ROCState := mkROC {
  roc_tpr : JS.num;
  roc_fpr : JS.num;
  roc_auc : JS.num;
  roc_tp : nat;
  roc_fp : nat
}.

(** The loop of [calculateROCAUC] over [sorted], a list of
    [(actual, prob)]. *)
Fixpoint roc_loop (positives negatives : nat) (sorted : list (JS.num * JS.num))
  (st : ROCState) : ROCState :=
  match sorted with
  | [] => st
  | (actual, prob) :: rest =>
      let tp := if (actual === #1)%num then S (roc_tp st) else roc_tp st in
      let fp := if (actual === #1)%num then roc_fp st else S (roc_fp st) in
      let newThreshold :=
        match rest with
        | [] => true
        | (_, prob') :: _ => JS.neqb prob prob'
        end in
      let st' :=
        if newThreshold then
          let newTPR := (JS.of_nat tp / JS.of_nat positives)%num in
          let newFPR := (JS.of_nat fp / JS.of_nat negatives)%num in
          {| roc_tpr := newTPR; roc_fpr := newFPR;
             roc_auc := (roc_auc st
                         + (newFPR - roc_fpr st) * (roc_tpr st + newTPR) / #2
                        )%num;
             roc_tp := tp; roc_fp := fp |}
        else
          {| roc_tpr := roc_tpr st; roc_fpr := roc_fpr st;
             roc_auc := roc_auc st; roc_tp := tp; roc_fp := fp |} in
      roc_loop positives negatives rest st'
  end.

(** [calculateROCAUC].  [probabilities] is read at the indices of
    [actuals]; [calculateMetrics] calls it with arrays of one length. *)
Definition calculateROCAUC (actuals probabilities : list JS.num) : JS.num :=
  (* sorted by probability, descending *)
  let sorted :=
    Array_sort (fun a b => (snd b - snd a >? #0)%num)
      (map (fun i => (at_ actuals i, at_ probabilities i))
           (seq 0 (length actuals))) in
  let positives := count (fun a => (a === #1)%num) actuals in
  let negatives := (length actuals - positives)%nat in
  if (positives =? 0)%nat || (negatives =? 0)%nat then (#0.5)%num
  else
    roc_auc
      (roc_loop positives negatives sorted
         {| roc_tpr := (#0)%num; roc_fpr := (#0)%num; roc_auc := (#0)%num;
            roc_tp := 0; roc_fp := 0 |}).

Definition calculateMetrics (predictions actuals probabilities : list JS.num)
  : ModelMetrics :=
  let tp := countPairs (#1) (#1) predictions actuals in
  let tn := countPairs (#0) (#0) predictions actuals in
  let fp := countPairs (#1) (#0) predictions actuals in
  let fn := countPairs (#0) (#1) predictions actuals in
  let n := JS.of_nat in
  let accuracy := (n (tp + tn)%nat / n (tp + tn + fp + fn)%nat)%num in
  let precision := (n tp / n (tp + fp)%nat || #0)%num in
  let recall := (n tp / n (tp + fn)%nat || #0)%num in
  let f1Score :=
    (#2 * (precision * recall) / (precision + recall) || #0)%num in
  (* the same for the negative class *)
  let negativePrecision := (n tn / n (tn + fn)%nat || #0)%num in
  let negativeRecall := (n tn / n (tn + fp)%nat || #0)%num in
  let negativeF1 :=
    (#2 * (negativePrecision * negativeRecall)
     / (negativePrecision + negativeRecall) || #0)%num in
  (* support *)
  let positiveSupport := count (fun a => (a === #1)%num) actuals in
  let negativeSupport := count (fun a => (a === #0)%num) actuals in
  (* macro averages *)
  let macroPrecision := ((precision + negativePrecision) / #2)%num in
  let macroRecall := ((recall + negativeRecall) / #2)%num in
  let macroF1 := ((f1Score + negativeF1) / #2)%num in
  (* weighted averages *)
  let total := n (positiveSupport + negativeSupport)%nat in
  let weightedPrecision :=
    ((precision * n positiveSupport + negativePrecision * n negativeSupport)
     / total)%num in
  let weightedRecall :=
    ((recall * n positiveSupport + negativeRecall * n negativeSupport)
     / total)%num in
  let weightedF1 :=
    ((f1Score * n positiveSupport + negativeF1 * n negativeSupport)
     / total)%num in
  let rocAuc :=
    if (length probabilities =? length actuals)%nat
    then Some (calculateROCAUC actuals probabilities)
    else None in
  {| accuracy := accuracy;
     precision := precision;
     recall := recall;
     f1Score := f1Score;
     confusionMatrix :=
       {| truePositive := tp; trueNegative := tn;
          falsePositive := fp; falseNegative := fn |};
     rocAuc := rocAuc;
     classificationReport :=
       {| positive := {| c_precision := precision; c_recall := recall;
                         c_f1Score := f1Score; support := positiveSupport |};
          negative := {| c_precision := negativePrecision;
                         c_recall := negativeRecall;
                         c_f1Score := negativeF1;
                         support := negativeSupport |};
          macro := {| a_precision := macroPrecision; a_recall := macroRecall;
                      a_f1Score := macroF1 |};
          weighted := {| a_precision := weightedPrecision;
                         a_recall := weightedRecall;
                         a_f1Score := weightedF1 |} |} |}.

(** [p > 0.5 ? 1 : 0] *)
Definition hardLabel (p : JS.num) : JS.num :=
  if (p >? #0.5)%num then (#1)%num else (#0)%num.

(** The number of indices [i] at which the label made from
    [prob(features[i])] is [labels[i]]. *)
Definition countCorrect (prob : list JS.num -> JS.num)
  (features : list (list JS.num)) (labels : list JS.num) : nat :=
  count (fun i => (hardLabel (prob (nth i features [])) === at_ labels i)%num)
        (seq 0 (length features)).

Record CVScores := mkCV {
  cv_logistic : list JS.num;
  cv_tree : list JS.num;
  cv_ensemble : list JS.num
}.

(** One fold of [performCrossValidation]: the three accuracies pushed. *)
Definition crossValidationFold (features : list (list JS.num))
  (labels : list JS.num) (folds foldSize fold : nat)
  : JS.num * JS.num * JS.num :=
  let testStart := fold * foldSize in
  let testEnd :=
    if (fold =? folds - 1)%nat then length features
    else testStart + foldSize in
  let testFeatures := slice testStart testEnd features in
  let testLabels := slice testStart testEnd labels in
  let trainFeatures :=
    slice 0 testStart features ++ skipn testEnd features in
  let trainLabels := slice 0 testStart labels ++ skipn testEnd labels in
  let lr := LR_train (LR_new (#0.01)%num 300) trainFeatures trainLabels in
  let dt := DT_train (DT_new 4 3) trainFeatures trainLabels in
  let lrCorrect := countCorrect (LR_predict lr) testFeatures testLabels in
  let dtCorrect := countCorrect (DT_predict dt) testFeatures testLabels in
  let ensembleCorrect :=
    countCorrect (fun f => ((LR_predict lr f + DT_predict dt f) / #2)%num)
                 testFeatures testLabels in
  let n := JS.of_nat (length testFeatures) in
  ((JS.of_nat lrCorrect / n)%num, (JS.of_nat dtCorrect / n)%num,
   (JS.of_nat ensembleCorrect / n)%num).

Definition performCrossValidation (features : list (list JS.num))
  (labels : list JS.num) (folds : nat) : CVScores :=
  let foldSize := (length features / folds)%nat in
  let scores :=
    map (crossValidationFold features labels folds foldSize) (seq 0 folds) in
  {| cv_logistic := map (fun s => fst (fst s)) scores;
     cv_tree := map (fun s => snd (fst s)) scores;
     cv_ensemble := map snd scores |}.

(** [Math.floor(n * q)] for the decimal fraction [q = a / b]. *)
Definition floorTimes (n : nat) (q : nat * nat) : nat :=
  (n * fst q / snd q)%nat.

(** The default [trainSizes]: 0.1, 0.2, 0.4, 0.6, 0.8, 1.0. *)
Definition defaultTrainSizes : list (nat * nat) :=
  [(1, 10); (2, 10); (4, 10); (6, 10); (8, 10); (10, 10)].

(** One round of the loop of [generateLearningCurve]: the point pushed for
    [size], if any. *)
Definition learningCurvePoint (features : list (list JS.num))
  (labels : list JS.num) (size : nat * nat) : option LearningPoint :=
  let sampleSize := floorTimes (length features) size in
  if (sampleSize <? 10)%nat then None else
  let sampleFeatures := slice 0 sampleSize features in
  let sampleLabels := slice 0 sampleSize labels in
  let splitIndex := floorTimes sampleSize (8, 10) in
  let trainFeatures := slice 0 splitIndex sampleFeatures in
  let trainLabels := slice 0 splitIndex sampleLabels in
  let valFeatures := skipn splitIndex sampleFeatures in
  let valLabels := skipn splitIndex sampleLabels in
  if (length trainFeatures =? 0)%nat || (length valFeatures =? 0)%nat
  then None else
  let lr := LR_train (LR_new (#0.01)%num 300) trainFeatures trainLabels in
  let dt := DT_train (DT_new 4 3) trainFeatures trainLabels in
  let ensemble f := ((LR_predict lr f + DT_predict dt f) / #2)%num in
  let trainCorrect := countCorrect ensemble trainFeatures trainLabels in
  let valCorrect := countCorrect ensemble valFeatures valLabels in
  Some {| trainSize := sampleSize;
          trainScore :=
            (JS.of_nat trainCorrect / JS.of_nat (length trainFeatures))%num;
          valScore :=
            (JS.of_nat valCorrect / JS.of_nat (length valFeatures))%num |}.

Definition generateLearningCurve (features : list (list JS.num))
  (labels : list JS.num) (trainSizes : list (nat * nat))
  : list LearningPoint :=
  flat_map
    (fun size =>
       match learningCurvePoint features labels size with
       | Some p => [p]
       | None => []
       end)
    trainSizes.

(** The outlier rate of [assessDataQuality] on the column [column], which
    the source sorts in place before it takes the quartiles. *)
Definition iqrOutlierRate (column : list JS.num) : JS.num :=
  let successRates := Array_sort (fun a b => (a - b >? #0)%num) column in
  let q1 := at_ successRates (floorTimes (length successRates) (25, 100)) in
  let q3 := at_ successRates (floorTimes (length successRates) (75, 100)) in
  let iqr := (q3 - q1)%num in
  let lowerBound := (q1 - #1.5 * iqr)%num in
  let upperBound := (q3 + #1.5 * iqr)%num in
  let outliers :=
    count (fun sr => (sr <? lowerBound)%num || (sr >? upperBound)%num)
          successRates in
  (JS.of_nat outliers / JS.of_nat (length successRates))%num.

Definition assessDataQuality (env : Env) (habits : list Habit)
  (logs : list HabitLog) : DataQuality :=
  let td := createTrainingData env habits logs in
  let features := td_features td in
  let labels := td_labels td in
  if (length features =? 0)%nat then
    {| dq_totalSamples := 0; classBalance := (0, 0);
       missingValueRate := (#0)%num; outlierRate := (#0)%num |}
  else
    let positive := count (fun l => (l === #1)%num) labels in
    let negative := (length labels - positive)%nat in
    (* the slots 5 to 12 that hold 0.5 *)
    let missingCount :=
      list_sum
        (map (fun feature =>
                count (fun i => (at_ feature i === #0.5)%num) (seq 5 8))
             features) in
    let totalFeatures := (length features * 8)%nat in
    let missingValueRate :=
      if (0 <? totalFeatures)%nat
      then (JS.of_nat missingCount / JS.of_nat totalFeatures)%num
      else (#0)%num in
    (* [f[f.length - 6]] of every sample *)
    let successRates := map (fun f => at_ f (length f - 6)) features in
    {| dq_totalSamples := length features;
       classBalance := (positive, negative);
       missingValueRate := missingValueRate;
       outlierRate := iqrOutlierRate successRates |}.

(* ================================================================= *)
(** ** Exceptions and object state *)

Inductive outcome (A : Type) : Type :=
| Returned (a : A)
| Thrown (error : string).
Arguments Returned {A} a.
Arguments Thrown {A} error.

(** A method body: a computation on the fields [S] of [this] that returns or
    throws.  What was assigned before a throw stays assigned. *)
Definition M (S A : Type) : Type := S -> S * outcome A.

Definition ret {S A} (a : A) : M S A := fun s => (s, Returned a).

Definition bind {S A B} (m : M S A) (f : A -> M S B) : M S B :=
  fun s =>
    let (s', o) := m s in
    match o with
    | Returned a => f a s'
    | Thrown e => (s', Thrown e)
    end.

Definition get {S} : M S S := fun s => (s, Returned s).
Definition modify {S} (f : S -> S) : M S unit := fun s => (f s, Returned tt).
Definition call {S A} (o : outcome A) : M S A := fun s => (s, o).

(** [try { body } catch (error) { handler }] *)
Definition try_catch {S A} (body : M S A) (handler : string -> M S A)
  : M S A :=
  fun s =>
    let (s', o) := body s in
    match o with
    | Returned a => (s', Returned a)
    | Thrown e => handler e s'
    end.

Notation "x <- m ;; k" := (bind m (fun x => k))
  (at level 61, m at next level, right associativity).
Notation "m ;;; k" := (bind m (fun _ => k))
  (at level 61, right associativity).

Fixpoint mapM {S A B} (f : A -> M S B) (l : list A) : M S (list B) :=
  match l with
  | [] => ret []
  | a :: rest => b <- f a ;; bs <- mapM f rest ;; ret (b :: bs)
  end.

(** The methods and functions that [PredictionEngine.train] calls inside its
    [try] block, each of which returns or throws. *)
Class Callees := {
  lr_train : LogisticRegression -> list (list JS.num) -> list JS.num ->
             outcome LogisticRegression;
  lr_predict : LogisticRegression -> list JS.num -> outcome JS.num;
  dt_train : DecisionTree -> list (list JS.num) -> list JS.num ->
             outcome DecisionTree;
  dt_predict : DecisionTree -> list JS.num -> outcome JS.num;
  ev_calculateMetrics : list JS.num -> list JS.num -> list JS.num ->
                        outcome ModelMetrics;
  ev_performCrossValidation : list (list JS.num) -> list JS.num ->
                              outcome CVScores;
  ev_generateLearningCurve : list (list JS.num) -> list JS.num ->
                             outcome (list LearningPoint);
  fe_calculateFeatureImportance : list (list JS.num) -> list JS.num ->
                                  outcome (list (string * JS.num));
  ev_assessDataQuality : Env -> list Habit -> list HabitLog ->
                         outcome DataQuality
}.

(** The callees of the source: none of them throws. *)
#[export] Instance source_callees : Callees := {
  lr_train lr f l := Returned (LR_train lr f l);
  lr_predict lr x := Returned (LR_predict lr x);
  dt_train dt f l := Returned (DT_train dt f l);
  dt_predict dt x := Returned (DT_predict dt x);
  ev_calculateMetrics p a q := Returned (calculateMetrics p a q);
  ev_performCrossValidation f l := Returned (performCrossValidation f l 5);
  ev_generateLearningCurve f l :=
    Returned (generateLearningCurve f l defaultTrainSizes);
  fe_calculateFeatureImportance f l :=
    Returned (calculateFeatureImportance f l);
  ev_assessDataQuality env h l := Returned (assessDataQuality env h l)
}.

(* ================================================================= *)
(** ** The prediction engine ([lib/prediction-engine.ts]) *)

Record MLModelState := mkModelState {
  isTrained : bool;
  trainingDate : option Z;
  totalSamples : nat;
  ms_accuracy : option JS.num;
  ms_featureImportance : option (list (string * JS.num))
}.

(** [{ isTrained: false, totalSamples }] *)
Definition untrained (totalSamples : nat) : MLModelState :=
  {| isTrained := false; trainingDate := None; totalSamples := totalSamples;
     ms_accuracy := None; ms_featureImportance := None |}.

Record PredictionEngine := mkEngine {
  logisticRegression : LogisticRegression;
  decisionTree : DecisionTree;
  modelState : MLModelState;
  minLogsForML : nat;
  featureImportance : list (string * JS.num);
  performanceReport : option ModelPerformanceReport
}.

(** [new PredictionEngine()] *)
Definition PredictionEngine_new : PredictionEngine :=
  {| logisticRegression := LR_new (#0.01)%num 500;
     decisionTree := DT_new 4 3;
     modelState := untrained 0;
     minLogsForML := 10;
     featureImportance := [];
     performanceReport := None |}.

Definition set_logisticRegression (v : LogisticRegression)
  (e : PredictionEngine) : PredictionEngine :=
  {| logisticRegression := v; decisionTree := decisionTree e;
     modelState := modelState e; minLogsForML := minLogsForML e;
     featureImportance := featureImportance e;
     performanceReport := performanceReport e |}.

Definition set_decisionTree (v : DecisionTree) (e : PredictionEngine)
  : PredictionEngine :=
  {| logisticRegression := logisticRegression e; decisionTree := v;
     modelState := modelState e; minLogsForML := minLogsForML e;
     featureImportance := featureImportance e;
     performanceReport := performanceReport e |}.

Definition set_modelState (v : MLModelState) (e : PredictionEngine)
  : PredictionEngine :=
  {| logisticRegression := logisticRegression e;
     decisionTree := decisionTree e;
     modelState := v; minLogsForML := minLogsForML e;
     featureImportance := featureImportance e;
     performanceReport := performanceReport e |}.

Definition set_featureImportance (v : list (string * JS.num))
  (e : PredictionEngine) : PredictionEngine :=
  {| logisticRegression := logisticRegression e;
     decisionTree := decisionTree e;
     modelState := modelState e; minLogsForML := minLogsForML e;
     featureImportance := v;
     performanceReport := performanceReport e |}.

Definition set_performanceReport (v : option ModelPerformanceReport)
  (e : PredictionEngine) : PredictionEngine :=
  {| logisticRegression := logisticRegression e;
     decisionTree := decisionTree e;
     modelState := modelState e; minLogsForML := minLogsForML e;
     featureImportance := featureImportance e;
     performanceReport := v |}.

Section Train.
Context {callees : Callees}.

(** The body of the [try] block of [train]. *)
Definition train_try (env : Env) (habits : list Habit)
  (logs : list HabitLog) (features : list (list JS.num))
  (labels : list JS.num) : M PredictionEngine unit :=
  (* split for training and validation *)
  let splitIndex := floorTimes (length features) (8, 10) in
  let trainFeatures := slice 0 splitIndex features in
  let trainLabels := slice 0 splitIndex labels in
  let testFeatures := skipn splitIndex features in
  let testLabels := skipn splitIndex labels in
  (* train the models *)
  this <- get ;;
  lr <- call (lr_train (logisticRegression this) trainFeatures trainLabels) ;;
  modify (set_logisticRegression lr) ;;;
  dt <- call (dt_train (decisionTree this) trainFeatures trainLabels) ;;
  modify (set_decisionTree dt) ;;;
  (* the probabilities of the three models on the test slice *)
  probs <- mapM (fun x =>
                   lrProb <- call (lr_predict lr x) ;;
                   dtProb <- call (dt_predict dt x) ;;
                   ret (lrProb, dtProb, ((lrProb + dtProb) / #2)%num))
                testFeatures ;;
  let logisticProbabilities := map (fun p => fst (fst p)) probs in
  let treeProbabilities := map (fun p => snd (fst p)) probs in
  let ensembleProbabilities := map snd probs in
  let logisticPredictions := map hardLabel logisticProbabilities in
  let treePredictions := map hardLabel treeProbabilities in
  let ensemblePredictions := map hardLabel ensembleProbabilities in
  logisticMetrics <- call (ev_calculateMetrics logisticPredictions testLabels
                             logisticProbabilities) ;;
  treeMetrics <- call (ev_calculateMetrics treePredictions testLabels
                         treeProbabilities) ;;
  ensembleMetrics <- call (ev_calculateMetrics ensemblePredictions
                             testLabels ensembleProbabilities) ;;
  cvScores <- call (ev_performCrossValidation features labels) ;;
  learningCurve <- call (ev_generateLearningCurve features labels) ;;
  importance <- call (fe_calculateFeatureImportance features labels) ;;
  modify (set_featureImportance importance) ;;;
  dataQuality <- call (ev_assessDataQuality env habits logs) ;;
  modify (set_performanceReport
            (Some {| r_logisticRegression := logisticMetrics;
                     r_decisionTree := treeMetrics;
                     r_ensemble := ensembleMetrics;
                     crossValidationScores := cv_ensemble cvScores;
                     learningCurve := learningCurve;
                     r_featureImportance := importance;
                     dataQuality := dataQuality |})) ;;;
  modify (set_modelState
            {| isTrained := true;
               trainingDate := Some (clock env);
               totalSamples := length features;
               ms_accuracy := Some (accuracy ensembleMetrics);
               ms_featureImportance := Some importance |}).

(** [createTrainingData] is called before the [try] block. *)
Definition train (env : Env) (habits : list Habit) (logs : list HabitLog)
  : M PredictionEngine MLModelState :=
  this <- get ;;
  if (length logs <? minLogsForML this)%nat then
    modify (set_modelState (untrained (length logs))) ;;;
    this <- get ;; ret (modelState this)
  else
    let td := createTrainingData env habits logs in
    let features := td_features td in
    let labels := td_labels td in
    if (length features =? 0)%nat then
      modify (set_modelState (untrained 0)) ;;;
      this <- get ;; ret (modelState this)
    else
      try_catch
        (train_try env habits logs features labels)
        (fun error =>
           modify (set_modelState (untrained (length features)))) ;;;
      this <- get ;; ret (modelState this).
End Train.

(** The comparator [(a, b) => b.probability - a.probability] is positive. *)
Definition byProbabilityDesc (a b : Prediction) : bool :=
  (probability b - probability a >? #0)%num.

Definition generateHeuristicPrediction (env : Env) (habit : Habit)
  (logs : list HabitLog) : Prediction :=
  let stats := calculateHabitStats env habit logs in
  (* base probability *)
  let probability := (#0.5)%num in
  (* success rate *)
  let probability := (probability + (successRate stats - #0.5) * #0.4)%num in
  (* current streak *)
  let streakBonus :=
    (JS.min (JS.of_nat (currentStreak stats) / #7) #1 * #0.3)%num in
  let probability := (probability + streakBonus)%num in
  (* recency *)
  let recencyPenalty :=
    (JS.min (JS.of_Z (daysSinceLastLog stats) / #7) #1 * #0.3)%num in
  let probability := (probability - recencyPenalty)%num in
  (* bounds *)
  let probability := JS.max (#0)%num (JS.min (#1)%num probability) in
  let confidence :=
    if (probability >? #0.7)%num then high
    else if (probability >? #0.4)%num then medium else low in
  let explanation := "Heuristic prediction: "%string in
  let explanation :=
    if (successRate stats >? #0.7)%num
    then (explanation ++ "Good track record. ")%string else explanation in
  let explanation :=
    if (3 <? currentStreak stats)%nat
    then (explanation ++ "Strong current streak. ")%string
    else explanation in
  let explanation :=
    if (daysSinceLastLog stats >? 3)%Z
    then (explanation ++ "Haven't logged recently. ")%string
    else explanation in
  {| p_habitId := id habit;
     p_habitName := name habit;
     p_category := category habit;
     probability := probability;
     confidence := confidence;
     explanation := explanation;
     p_streak := currentStreak stats;
     p_successRate := successRate stats |}.

Definition predictForDate (env : Env) (habits : list Habit)
  (logs : list HabitLog) (targetDate : Z) : list Prediction :=
  Array_sort byProbabilityDesc
    (map (fun habit => generateHeuristicPrediction env habit logs)
         (filter isActive habits)).

(** [getTopPredictions]; the day after is taken to be 24 hours later. *)
Definition getTopPredictions (env : Env) (habits : list Habit)
  (logs : list HabitLog) (count : nat) : list Prediction * list Prediction :=
  let today := clock env in
  let tomorrow := (today + msPerDay)%Z in
  (slice 0 count (predictForDate env habits logs today),
   slice 0 count (predictForDate env habits logs tomorrow)).

(* ================================================================= *)
(** ** The earlier prediction engine (the second [PredictionEngine] of the
       repository, with the model-based prediction) *)

(** Numbers in template strings. *)
Definition string_of_nat (n : nat) : string :=
  NilZero.string_of_uint (Nat.to_uint n).

Definition string_of_Z (z : Z) : string :=
  NilZero.string_of_int (Z.to_int z).

(** [`${Math.round(x)}`] *)
Definition string_of_round (x : JS.num) : string :=
  match x with
  | JS.NaN => "NaN"
  | JS.PInf => "Infinity"
  | JS.NInf => "-Infinity"
  | JS.Fin a => string_of_Z (Int_part (a + 0.5))
  end%string.

(** [d.toLocaleDateString("en-US", { weekday: "long" })] *)
Definition weekdayName (env : Env) (t : Z) : string :=
  match getDay env t with
  | 0 => "Sunday"
  | 1 => "Monday"
  | 2 => "Tuesday"
  | 3 => "Wednesday"
  | 4 => "Thursday"
  | 5 => "Friday"
  | _ => "Saturday"
  end%Z%string.

Definition timeOfDayName (t : TimeOfDay) : string :=
  match t with
  | morning => "morning"
  | afternoon => "afternoon"
  | evening => "evening"
  | anytime => "anytime"
  end%string.

Module Simple.

Record PredictionEngine := mkEngine {
  logisticRegression : LogisticRegression;
  decisionTree : DecisionTree;
  isTrained : bool;
  minLogsForML : nat
}.

(** [new PredictionEngine()] *)
Definition PredictionEngine_new : PredictionEngine :=
  {| logisticRegression := LR_new (#0.01)%num 500;
     decisionTree := DT_new 4 3;
     isTrained := false;
     minLogsForML := 8 |}.

Definition set_isTrained (v : bool) (e : PredictionEngine)
  : PredictionEngine :=
  {| logisticRegression := logisticRegression e;
     decisionTree := decisionTree e;
     isTrained := v; minLogsForML := minLogsForML e |}.

Definition set_logisticRegression (v : LogisticRegression)
  (e : PredictionEngine) : PredictionEngine :=
  {| logisticRegression := v; decisionTree := decisionTree e;
     isTrained := isTrained e; minLogsForML := minLogsForML e |}.

Definition set_decisionTree (v : DecisionTree) (e : PredictionEngine)
  : PredictionEngine :=
  {| logisticRegression := logisticRegression e; decisionTree := v;
     isTrained := isTrained e; minLogsForML := minLogsForML e |}.

Section Train.
Context {callees : Callees}.

Definition train (env : Env) (habits : list Habit) (logs : list HabitLog)
  : M PredictionEngine unit :=
  this <- get ;;
  if (length logs <? minLogsForML this)%nat then
    modify (set_isTrained false)
  else
    let td := createTrainingData env habits logs in
    let features := td_features td in
    let labels := td_labels td in
    if (length features =? 0)%nat then
      modify (set_isTrained false)
    else
      try_catch
        (lr <- call (lr_train (logisticRegression this) features labels) ;;
         modify (set_logisticRegression lr) ;;;
         dt <- call (dt_train (decisionTree this) features labels) ;;
         modify (set_decisionTree dt) ;;;
         modify (set_isTrained true))
        (fun error => modify (set_isTrained false)).
End Train.

Definition generateHeuristicPrediction (env : Env) (habit : Habit)
  (logs : list HabitLog) : Prediction :=
  let stats := calculateHabitStats env habit logs in
  let probability := (#0.5)%num in
  let probability :=
    (probability + (successRate stats - #0.5) * #0.4)%num in
  let streakBonus :=
    (JS.min (JS.of_nat (currentStreak stats) / #7) #1 * #0.3)%num in
  let probability := (probability + streakBonus)%num in
  let recencyPenalty :=
    (JS.min (JS.of_Z (daysSinceLastLog stats) / #7) #1 * #0.3)%num in
  let probability := (probability - recencyPenalty)%num in
  (* clamp between 0.1 and 0.9 *)
  let probability := JS.max (#0.1)%num (JS.min (#0.9)%num probability) in
  let confidence := if (3 <? totalLogs stats)%nat then medium else low in
  let percent :=
    (string_of_round (successRate stats * #100)%num ++ "%)")%string in
  let factors : list string :=
    (if (successRate stats >? #0.7)%num
     then [("high success rate (" ++ percent)%string]
     else if (successRate stats <? #0.3)%num
     then [("low success rate (" ++ percent)%string]
     else [])
    ++ (if (2 <? currentStreak stats)%nat
        then [(string_of_nat (currentStreak stats) ++ "-day streak")%string]
        else [])
    ++ (if (daysSinceLastLog stats >? 3)%Z
        then [(string_of_Z (daysSinceLastLog stats)
               ++ " days since last completion")%string]
        else []) in
  let explanation :=
    ("Based on your habit history: "
     ++ (if (length factors =? 0)%nat then "limited data available"
         else String.concat ", " factors))%string in
  {| p_habitId := id habit;
     p_habitName := name habit;
     p_category := category habit;
     probability := probability;
     confidence := confidence;
     explanation := explanation;
     p_streak := currentStreak stats;
     p_successRate := successRate stats |}.

Definition generateMLPrediction (this : PredictionEngine) (env : Env)
  (habit : Habit) (logs : list HabitLog) (targetDate : Z) : Prediction :=
  let features := extractFeatures env habit logs (Some targetDate) in
  let encodedFeatures := encodeFeatures features in
  let lrPrediction := LR_predict (logisticRegression this) encodedFeatures in
  let dtPrediction := DT_predict (decisionTree this) encodedFeatures in
  (* weighted average of the two models *)
  let probability := (lrPrediction * #0.6 + dtPrediction * #0.4)%num in
  let stats := calculateHabitStats env habit logs in
  let confidence :=
    if (20 <? length logs)%nat then high
    else if (10 <? length logs)%nat then medium else low in
  let factors : list string :=
    (if (successRate stats >? #0.7)%num
     then [("strong track record ("
            ++ string_of_round (successRate stats * #100)%num
            ++ "%)")%string]
     else [])
    ++ (if (0 <? currentStreak stats)%nat
        then [("current " ++ string_of_nat (currentStreak stats)
               ++ "-day streak")%string]
        else [])
    ++ [(weekdayName env targetDate ++ " patterns")%string]
    ++ (match preferredTime habit with
        | anytime => []
        | t => [(timeOfDayName t ++ " timing")%string]
        end) in
  let explanation :=
    ("AI prediction based on: " ++ String.concat ", " factors)%string in
  {| p_habitId := id habit;
     p_habitName := name habit;
     p_category := category habit;
     probability := probability;
     confidence := confidence;
     explanation := explanation;
     p_streak := currentStreak stats;
     p_successRate := successRate stats |}.

(** The prediction pushed for one active habit. *)
Definition predictOne (this : PredictionEngine) (env : Env)
  (logs : list HabitLog) (targetDate : Z) (habit : Habit) : Prediction :=
  let habitLogs :=
    filter (fun log => String.eqb (habitId log) (id habit)) logs in
  if isTrained this && (minLogsForML this <=? length habitLogs)%nat
  then generateMLPrediction this env habit logs targetDate
  else generateHeuristicPrediction env habit logs.

Definition predictForDate (this : PredictionEngine) (env : Env)
  (habits : list Habit) (logs : list HabitLog) (targetDate : Z)
  : list Prediction :=
  let predictions :=
    flat_map
      (fun habit =>
         if negb (isActive habit) then []
         else [predictOne this env logs targetDate habit])
      habits in
  Array_sort byProbabilityDesc predictions.

End Simple.

(* ================================================================= *)
(** ** Dates and lookups ([lib/habit-utils]) *)

(** [formatDate(d)], the date part of [d.toISOString()]: the number of the
    UTC day that the instant [t] falls on. *)
Definition formatDate (t : Z) : Z := (t / msPerDay)%Z.

Definition getTodayString (env : Env) : Z := formatDate (clock env).

(** [getTomorrowString]; the day after is taken to be 24 hours later. *)
Definition getTomorrowString (env : Env) : Z :=
  formatDate (clock env + msPerDay).

(** [logs.find(log => log.habitId === habitId && log.date === date)] *)
Definition getHabitLogForDate (hid : string) (day : Z) (logs : list HabitLog)
  : option HabitLog :=
  find (fun log => String.eqb (habitId log) hid && (date log =? day)%Z) logs.

Definition isHabitLoggedToday (env : Env) (hid : string)
  (logs : list HabitLog) : bool :=
  let today := getTodayString env in
  existsb (fun log => String.eqb (habitId log) hid && (date log =? today)%Z)
          logs.

(* ================================================================= *)
(** ** The application data and its updates ([hooks/use-habit-data.ts]) *)

Record AppData := mkAppData {
  d_habits : list Habit;
  d_logs : list HabitLog;
  hasCompletedOnboarding : bool;
  lastTrainingDate : option Z;
  mlModelState : option MLModelState
}.

(** The optional [contextData] argument of [logHabit]. *)
Record ContextData := mkContext {
  c_mood : option Mood;
  c_sleepHours : option JS.num;
  c_energyLevel : option JS.num;
  c_stressLevel : option JS.num;
  c_weather : option Weather
}.

(** [contextData?.field] *)
Definition contextField {A} (contextData : option ContextData)
  (field : ContextData -> option A) : option A :=
  match contextData with
  | Some c => field c
  | None => None
  end.

(** [l.findIndex(p)], with [None] for [-1]. *)
Fixpoint findIndex {A} (p : A -> bool) (l : list A) : option nat :=
  match l with
  | [] => None
  | a :: rest => if p a then Some 0%nat else option_map S (findIndex p rest)
  end.

(** [l[i] = v] on a copy of [l], for an index within the array. *)
Fixpoint setAt {A} (i : nat) (v : A) (l : list A) : list A :=
  match l, i with
  | [], _ => []
  | _ :: rest, O => v :: rest
  | a :: rest, S i' => a :: setAt i' v rest
  end.

(** [addHabit]: the data handed to [updateData], and the habit returned.
    [newId] is what [generateId()] returns. *)
Definition addHabit (env : Env) (newId : string) (data : AppData)
  (habitName habitCategory : string) (time : TimeOfDay) : AppData * Habit :=
  let newHabit :=
    {| id := newId; name := habitName; category := habitCategory;
       preferredTime := time; createdAt := clock env; isActive := true |} in
  ({| d_habits := d_habits data ++ [newHabit];
      d_logs := d_logs data;
      hasCompletedOnboarding := hasCompletedOnboarding data;
      lastTrainingDate := lastTrainingDate data;
      mlModelState := mlModelState data |},
   newHabit).

(** [logHabit]: the data handed to [updateData]. *)
Definition logHabit (env : Env) (newId : string) (data : AppData)
  (hid : string) (done : bool) (contextData : option ContextData) : AppData :=
  let today := getTodayString env in
  let existingLogIndex :=
    findIndex
      (fun log => String.eqb (habitId log) hid && (date log =? today)%Z)
      (d_logs data) in
  let newLogs :=
    match existingLogIndex with
    | Some index =>
        (* update the existing log *)
        match nth_error (d_logs data) index with
        | Some old =>
            setAt index
              {| log_id := log_id old; habitId := habitId old;
                 date := date old; completed := done;
                 mood := contextField contextData c_mood;
                 sleepHours := contextField contextData c_sleepHours;
                 energyLevel := contextField contextData c_energyLevel;
                 stressLevel := contextField contextData c_stressLevel;
                 weather := contextField contextData c_weather;
                 loggedAt := clock env |}
              (d_logs data)
        | None => d_logs data
        end
    | None =>
        (* create a new log *)
        d_logs data
        ++ [ {| log_id := newId; habitId := hid; date := today;
                completed := done;
                mood := contextField contextData c_mood;
                sleepHours := contextField contextData c_sleepHours;
                energyLevel := contextField contextData c_energyLevel;
                stressLevel := contextField contextData c_stressLevel;
                weather := contextField contextData c_weather;
                loggedAt := clock env |} ]
    end in
  {| d_habits := d_habits data;
     d_logs := newLogs;
     hasCompletedOnboarding := hasCompletedOnboarding data;
     lastTrainingDate := lastTrainingDate data;
     mlModelState := mlModelState data |}.

Definition completeOnboarding (data : AppData) : AppData :=
  {| d_habits := d_habits data;
     d_logs := d_logs data;
     hasCompletedOnboarding := true;
     lastTrainingDate := lastTrainingDate data;
     mlModelState := mlModelState data |}.

(** [clearAllData]: only the onboarding status is kept. *)
Definition clearAllData (data : AppData) : AppData :=
  {| d_habits := [];
     d_logs := [];
     hasCompletedOnboarding := hasCompletedOnboarding data;
     lastTrainingDate := None;
     mlModelState := None |}.

(* ================================================================= *)
(** ** Performance summaries ([lib/performance-utils]) *)

(** The [date] of a [PerformanceData]: a day, or a text such as
    ["Week 1"]. *)
Inductive PeriodLabel :=
| DayLabel (day : Z)
| TextLabel (text : string).

Record PerformanceData := mkPerformanceData {
  pd_date : PeriodLabel;
  pd_completed : nat;
  pd_total : nat;
  pd_successRate : JS.num
}.

(** One round of the loop of [calculateWeeklyPerformance], for the day
    [i] days ago; as in [getTomorrowString], a day back is taken to be 24
    hours back. *)
Definition weeklyEntry (env : Env) (habitLogs : list HabitLog) (i : Z)
  : PerformanceData :=
  let dateString := formatDate (clock env - i * msPerDay) in
  let dayLogs := filter (fun log => (date log =? dateString)%Z) habitLogs in
  let completedCount := length (filter completed dayLogs) in
  (* at least 1, to avoid a division by zero *)
  let total := Nat.max (length dayLogs) 1 in
  {| pd_date := DayLabel dateString;
     pd_completed := completedCount;
     pd_total := total;
     pd_successRate := (JS.of_nat completedCount / JS.of_nat total)%num |}.

Definition calculateWeeklyPerformance (env : Env) (habit : Habit)
  (logs : list HabitLog) : list PerformanceData :=
  let habitLogs := filter (fun log => String.eqb (habitId log) (id habit)) logs in
  (* the last 7 days *)
  map (weeklyEntry env habitLogs) [6; 5; 4; 3; 2; 1; 0]%Z.

(** One round of the loop of [calculateMonthlyPerformance], for the week
    that ended [week] weeks ago; [new Date(log.date)] is the midnight, in
    UTC, that starts the day of the log. *)
Definition monthlyEntry (env : Env) (habitLogs : list HabitLog) (week : Z)
  : PerformanceData :=
  let startDate := (clock env - (week + 1) * 7 * msPerDay)%Z in
  let endDate := (clock env - week * 7 * msPerDay)%Z in
  let weekLogs :=
    filter (fun log =>
              let logDate := Date_getTime (date log) in
              (startDate <=? logDate)%Z && (logDate <? endDate)%Z)
           habitLogs in
  let completedCount := length (filter completed weekLogs) in
  let total := Nat.max (length weekLogs) 1 in
  {| pd_date := TextLabel ("Week " ++ string_of_Z (4 - week))%string;
     pd_completed := completedCount;
     pd_total := total;
     pd_successRate := (JS.of_nat completedCount / JS.of_nat total)%num |}.

Definition calculateMonthlyPerformance (env : Env) (habit : Habit)
  (logs : list HabitLog) : list PerformanceData :=
  let habitLogs := filter (fun log => String.eqb (habitId log) (id habit)) logs in
  (* the last 4 weeks, oldest first *)
  map (monthlyEntry env habitLogs) [3; 2; 1; 0]%Z.

Record HabitPerformance := mkHabitPerformance {
  hp_stats : HabitStats;
  hp_habit : Habit;
  weeklyData : list PerformanceData;
  monthlyData : list PerformanceData;
  recentLogs : list HabitLog
}.

Definition getHabitPerformance (env : Env) (habit : Habit)
  (logs : list HabitLog) : HabitPerformance :=
  let stats := calculateHabitStats env habit logs in
  let habitLogs := filter (fun log => String.eqb (habitId log) (id habit)) logs in
  let recentLogs :=
    slice 0 10
      (Array_sort
         (fun a b => (Date_getTime (date b) - Date_getTime (date a) >? 0)%Z)
         habitLogs) in
  {| hp_stats := stats;
     hp_habit := habit;
     weeklyData := calculateWeeklyPerformance env habit logs;
     monthlyData := calculateMonthlyPerformance env habit logs;
     recentLogs := recentLogs |}.

Record OverallPerformance := mkOverall {
  o_totalHabits : nat;
  o_averageSuccessRate : JS.num;
  o_totalLogs : nat;
  o_completedLogs : nat;
  o_activeStreaks : nat;
  o_longestStreak : nat
}.

Definition getOverallPerformance (env : Env) (habits : list Habit)
  (logs : list HabitLog) : OverallPerformance :=
  let activeHabits := filter isActive habits in
  let totalHabits := length activeHabits in
  if (totalHabits =? 0)%nat then
    {| o_totalHabits := 0; o_averageSuccessRate := (#0)%num;
       o_totalLogs := 0; o_completedLogs := 0; o_activeStreaks := 0;
       o_longestStreak := 0 |}
  else
    let habitStats :=
      map (fun habit => calculateHabitStats env habit logs) activeHabits in
    let averageSuccessRate :=
      (fold_left (fun sum stats => (sum + successRate stats)%num) habitStats
                 (#0)%num
       / JS.of_nat totalHabits)%num in
    let totalLogs :=
      fold_left (fun sum stats => (sum + totalLogs stats)%nat) habitStats
                0%nat in
    let completedLogs :=
      fold_left (fun sum stats => (sum + completedLogs stats)%nat) habitStats
                0%nat in
    let activeStreaks :=
      length (filter (fun stats => (0 <? currentStreak stats)%nat)
                     habitStats) in
    (* [Math.max(...streaks, 0)] *)
    let longestStreak :=
      fold_right Nat.max 0%nat (map longestStreak habitStats) in
    {| o_totalHabits := totalHabits;
       o_averageSuccessRate := averageSuccessRate;
       o_totalLogs := totalLogs;
       o_completedLogs := completedLogs;
       o_activeStreaks := activeStreaks;
       o_longestStreak := longestStreak |}.

(* ================================================================= *)
(** ** Vocabulary of the properties and the inputs of their examples *)

(** A number that is neither NaN nor an infinity. *)
Definition finite (x : JS.num) : Prop := exists r, x = JS.Fin r.

(** A number in the interval [[0, 1]]. *)
Definition in_unit (x : JS.num) : Prop :=
  exists r, x = JS.Fin r /\ (0 <= r <= 1)%R.

(** A class label: [0] or [1]. *)
Definition binary (x : JS.num) : Prop := x = (#0)%num \/ x = (#1)%num.

(** A log of the habit [hid] on the day [day] with no contextual field. *)
Definition logOn (hid : string) (day : Z) (done : bool) : HabitLog :=
  {| log_id := EmptyString; habitId := hid; date := day; completed := done;
     mood := None; sleepHours := None; energyLevel := None;
     stressLevel := None; weather := None; loggedAt := Date_getTime day |}.

(** The habit "Exercise", completed on the days 1 to 8 and logged as not
    completed on the days 9 and 10. *)
Definition exercise : Habit :=
  {| id := "exercise"; name := "Exercise"; category := "Health";
     preferredTime := morning; createdAt := 0; isActive := true |}.

Definition exerciseLogs : list HabitLog :=
  map (fun day => logOn "exercise" day true) [1; 2; 3; 4; 5; 6; 7; 8]%Z
  ++ [logOn "exercise" 9 false; logOn "exercise" 10 false].

(** A habit with a failed log on day 1 and a completed log on day 5. *)
Definition reading : Habit :=
  {| id := "reading"; name := "Read"; category := "Learning";
     preferredTime := evening; createdAt := 0; isActive := true |}.

Definition readingLogs : list HabitLog :=
  [logOn "reading" 1 false; logOn "reading" 5 true].

(** Two habits: one completed on the days 1 to 3 and failed on day 4, the
    other with a single failed log. *)
Definition walking : Habit :=
  {| id := "walking"; name := "Walk"; category := "Health";
     preferredTime := morning; createdAt := 0; isActive := true |}.

Definition stretching : Habit :=
  {| id := "stretching"; name := "Stretch"; category := "Health";
     preferredTime := evening; createdAt := 0; isActive := true |}.

Definition qualityLogs : list HabitLog :=
  [logOn "walking" 1 true; logOn "walking" 2 true; logOn "walking" 3 true;
   logOn "walking" 4 false; logOn "stretching" 1 false].


(** The value of a finite number. *)
Definition val (x : JS.num) : R :=
  match x with JS.Fin r => r | _ => 0%R end.

(** Sorted by non-increasing probability: every prediction is [>=] each of
    those after it. *)
Definition nonIncreasing (l : list Prediction) : Prop :=
  StronglySorted
    (fun a b => (probability a >=? probability b)%num = true) l.

(** The predictions of [l] whose probability is [=== q], in their order. *)
Definition withProbability (q : JS.num) (l : list Prediction)
  : list Prediction :=
  filter (fun p => (probability p === q)%num) l.

(** A habit created at noon of day 1 and logged as completed on the days
    1 to 8, and a second active habit with no log yet; the clock is at the
    start of day 9. *)
Definition noonOfDay1 : Z := (Date_getTime 1 + 12 * 60 * 60 * 1000)%Z.

Definition meditation : Habit :=
  {| id := "meditation"; name := "Meditate"; category := "Wellness";
     preferredTime := morning; createdAt := noonOfDay1; isActive := true |}.

Definition journal : Habit :=
  {| id := "journal"; name := "Journal"; category := "Wellness";
     preferredTime := evening; createdAt := noonOfDay1; isActive := true |}.

Definition meditationLogs : list HabitLog :=
  map (fun day => logOn "meditation" day true) [1; 2; 3; 4; 5; 6; 7; 8]%Z.

Definition day9 : Env := {| clock := Date_getTime 9; utcOffset := 0 |}.


(** The logs of a habit, as the functions select them. *)
Definition logsOf (habit : Habit) (logs : list HabitLog) : list HabitLog :=
  filter (fun log => String.eqb (habitId log) (id habit)) logs.

(** The number of levels below the root of a tree. *)
Fixpoint treeDepth (node : TreeNode) : nat :=
  match node with
  | Leaf _ => 0
  | Split _ _ l r => S (Nat.max (treeDepth l) (treeDepth r))
  end.

(** What identifies a log for the user: the habit and the day. *)
Definition logKey (log : HabitLog) : string * Z := (habitId log, date log).

(** The log that [logHabit] writes for the habit [hid] today. *)
Definition entryOf (env : Env) (entryId hid : string) (done : bool)
  (contextData : option ContextData) : HabitLog :=
  {| log_id := entryId; habitId := hid; date := getTodayString env;
     completed := done;
     mood := contextField contextData c_mood;
     sleepHours := contextField contextData c_sleepHours;
     energyLevel := contextField contextData c_energyLevel;
     stressLevel := contextField contextData c_stressLevel;
     weather := contextField contextData c_weather;
     loggedAt := clock env |}.

(** The test of [logHabit] and [isHabitLoggedToday] for a log of the habit
    [hid] dated [day]. *)
Definition isLogOf (hid : string) (day : Z) (log : HabitLog) : bool :=
  String.eqb (habitId log) hid && (date log =? day)%Z.

(** The number of leaves of a tree. *)
Fixpoint leaves (node : TreeNode) : nat :=
  match node with
  | Leaf _ => 1
  | Split _ _ l r => leaves l + leaves r
  end.

(** Every split of the tree tests one of the first [n] features. *)
Fixpoint splitsWithin (n : nat) (node : TreeNode) : Prop :=
  match node with
  | Leaf _ => True
  | Split featureIndex _ l r =>
      (featureIndex < n)%nat /\ splitsWithin n l /\ splitsWithin n r
  end.

(** What [findBestSplit] keeps of the best split so far: none yet, or a
    feature and a threshold that send at least one sample each way. *)
Definition separates (features : list (list JS.num)) (numFeatures : nat)
  (best : BestSplit) : Prop :=
  bestFeatureIndex best = (-1)%Z \/
  exists k,
    bestFeatureIndex best = Z.of_nat k /\ (k < numFeatures)%nat /\
    fst (splitIndices features k (bestThreshold best)) <> [] /\
    snd (splitIndices features k (bestThreshold best)) <> [].

(* ================================================================= *)
(** * Properties *)

(** ** Facts about JavaScript numbers *)

Section NumFacts.
Local Open Scope R_scope.

Lemma Rltb_true a b : a < b -> JS.Rltb a b = true.
Proof. unfold JS.Rltb; destruct (Rlt_dec a b); tauto. Qed.

Lemma Rltb_false a b : ~ a < b -> JS.Rltb a b = false.
Proof. unfold JS.Rltb; destruct (Rlt_dec a b); tauto. Qed.

Lemma Rleb_true a b : a <= b -> JS.Rleb a b = true.
Proof. unfold JS.Rleb; destruct (Rle_dec a b); tauto. Qed.

Lemma Rleb_false a b : ~ a <= b -> JS.Rleb a b = false.
Proof. unfold JS.Rleb; destruct (Rle_dec a b); tauto. Qed.

Lemma Reqb_true a b : a = b -> JS.Reqb a b = true.
Proof. unfold JS.Reqb; destruct (Req_dec_T a b); tauto. Qed.

Lemma Reqb_false a b : a <> b -> JS.Reqb a b = false.
Proof. unfold JS.Reqb; destruct (Req_dec_T a b); tauto. Qed.

Lemma Reqb_spec a b : JS.Reqb a b = true <-> a = b.
Proof.
  unfold JS.Reqb; destruct (Req_dec_T a b); split; intros; auto;
    discriminate.
Qed.

Lemma Fin_eq a b : a = b -> JS.Fin a = JS.Fin b.
Proof. now intros ->. Qed.


(** NaN absorbs. *)
Lemma add_NaN_r x : JS.add x JS.NaN = JS.NaN.
Proof. now destruct x. Qed.

Lemma mul_NaN_r x : JS.mul x JS.NaN = JS.NaN.
Proof. now destruct x. Qed.


Lemma INR_Z n : INR n = IZR (Z.of_nat n).
Proof. apply INR_IZR_INZ. Qed.
End NumFacts.

(** Settles the comparisons of real constants that an evaluation meets. *)
Ltac Rdecide :=
  repeat match goal with
    | |- context [JS.Rltb ?a ?b] =>
        first [ rewrite (Rltb_true a b) by lra
              | rewrite (Rltb_false a b) by lra ]
    | |- context [JS.Rleb ?a ?b] =>
        first [ rewrite (Rleb_true a b) by lra
              | rewrite (Rleb_false a b) by lra ]
    | |- context [JS.Reqb ?a ?b] =>
        first [ rewrite (Reqb_true a b) by lra
              | rewrite (Reqb_false a b) by lra ]
    end.

Ltac js_unfold :=
  cbn [JS.add JS.sub JS.neg JS.mul JS.div JS.ltb JS.leb JS.gtb JS.geb JS.eqb
       JS.neqb JS.truthy JS.or_else JS.min JS.max JS.abs JS.exp JS.log1p
       JS.sqrt JS.inf_times JS.of_nat JS.of_Z JS.of_bool negb].

Ltac js_eval :=
  repeat (progress (unfold JS.of_nat, JS.of_Z, JS.gtb, JS.geb, JS.neqb,
                    JS.or_else, JS.sub;
                    js_unfold; Rdecide)).

(** Evaluates a sort of numbers. *)
Ltac sort_eval :=
  unfold Array_sort; cbn [fold_right insert];
  repeat (progress (js_eval; cbn [insert])).

(* ================================================================= *)
(** ** Untrained models (C2) *)

Lemma dot_from_NaN weights i features :
  dot_from weights JS.NaN i features = JS.NaN.
Proof.
  revert i; induction features as [|f rest IH]; intros i; simpl; auto.
Qed.

Lemma sigmoid_NaN : sigmoid JS.NaN = JS.NaN.
Proof. reflexivity. Qed.

Lemma sigmoid_0 : sigmoid (#0)%num = (#0.5)%num.
Proof.
  unfold sigmoid. js_eval.
  rewrite Ropp_0, exp_0. js_eval.
  apply Fin_eq; lra.
Qed.

(** With no weights every term of the dot product is [feature * undefined]. *)
Lemma LR_predict_no_weights b lr_rate its f rest :
  LR_predict {| weights := []; bias := b; learningRate := lr_rate;
                iterations := its |} (f :: rest) = JS.NaN.
Proof.
  unfold LR_predict; simpl.
  replace (at_ [] 0) with JS.NaN by reflexivity.
  rewrite mul_NaN_r, add_NaN_r, dot_from_NaN.
  apply sigmoid_NaN.
Qed.

(** C2, as the claim states it, fails: a fresh [LogisticRegression] asked
    about the one-feature vector [[1]] answers NaN, which is not [0.5]. *)
Lemma LR_untrained_predict_counterexample :
  LR_predict LR_default [(#1)%num] = JS.NaN /\
  (LR_predict LR_default [(#1)%num] === #0.5)%num = false.
Proof.
  unfold LR_default, LR_new.
  rewrite LR_predict_no_weights. split; reflexivity.
Qed.

(** C2, amended: an untrained [DecisionTree] predicts [0.5] for every
    vector [x]; an untrained [LogisticRegression] predicts [0.5] for the
    empty vector and NaN for every vector that has a feature. *)
Theorem untrained_predict :
  forall (rate : JS.num) (its maxDepth minSamples : nat),
    (forall x, DT_predict (DT_new maxDepth minSamples) x = (#0.5)%num) /\
    LR_predict (LR_new rate its) [] = (#0.5)%num /\
    (forall f rest, LR_predict (LR_new rate its) (f :: rest) = JS.NaN).
Proof.
  intros rate its maxDepth minSamples. split; [|split].
  - intros x. reflexivity.
  - unfold LR_predict, LR_new. simpl. apply sigmoid_0.
  - intros f rest. apply LR_predict_no_weights.
Qed.

(* ================================================================= *)
(** ** The decision tree never predicts zero (C10) *)

Lemma or_else_half_cases v :
  (JS.truthy v = false /\ (v || #0.5)%num = (#0.5)%num) \/
  (JS.truthy v = true /\ (v || #0.5)%num = v).
Proof.
  unfold JS.or_else. destruct (JS.truthy v); auto.
Qed.

Lemma truthy_not_zero v : JS.truthy v = true -> v <> (#0)%num.
Proof.
  intros H ->. simpl in H. rewrite Reqb_true in H by reflexivity.
  discriminate.
Qed.

Lemma half_not_zero : (#0.5)%num <> (#0)%num.
Proof. intros H. injection H. lra. Qed.

Lemma or_else_half_not_zero v : (v || #0.5)%num <> (#0)%num.
Proof.
  destruct (or_else_half_cases v) as [[_ ->]|[Ht ->]].
  - apply half_not_zero.
  - now apply truthy_not_zero.
Qed.

Lemma DT_predict_not_zero dt x : DT_predict dt x <> (#0)%num.
Proof.
  unfold DT_predict. destruct (root dt).
  - apply or_else_half_not_zero.
  - apply half_not_zero.
Qed.

Lemma neq_zero_eqb v : v <> (#0)%num -> (v === #0)%num = false.
Proof.
  intros H. destruct v as [| | |a]; simpl; auto.
  apply Reqb_false. intros ->. now apply H.
Qed.

(** A node all of whose training labels are [0] is a leaf that stores [0]. *)
Lemma sum_zeros_from n a :
  fold_left JS.add (repeat (#0)%num n) (JS.Fin a) = JS.Fin a.
Proof.
  induction n as [|n IH]; simpl; auto.
  replace (a + 0)%R with a by lra. exact IH.
Qed.

Lemma buildTree_all_negative levels minSamples features n :
  buildTree_levels levels minSamples features (repeat (#0)%num (S n))
  = Leaf (#0)%num.
Proof.
  assert (Hleaf : (sum (repeat (#0)%num (S n))
                   / JS.of_nat (length (repeat (#0)%num (S n))))%num
                  = (#0)%num).
  { unfold sum. rewrite sum_zeros_from, repeat_length.
    unfold JS.of_nat. cbn [JS.div].
    rewrite Reqb_false by (apply not_0_INR; discriminate).
    apply Fin_eq. unfold Rdiv. apply Rmult_0_l. }
  destruct levels as [|levels].
  - cbn [buildTree_levels]. now rewrite Hleaf.
  - cbn [buildTree_levels].
    assert (Hd : distinct (repeat (#0)%num (S n)) = 1%nat).
    { unfold distinct. clear Hleaf.
      induction n as [|n IH].
      - reflexivity.
      - change (repeat (#0)%num (S (S n)))
          with ((#0)%num :: repeat (#0)%num (S n)).
        cbn [nodup]. destruct (in_dec JS.num_eq_dec (#0)%num
                                      (repeat (#0)%num (S n))) as [_|Hn].
        + exact IH.
        + exfalso. apply Hn. now left. }
    rewrite Hd, Nat.eqb_refl, orb_true_r. now rewrite Hleaf.
Qed.

(** C10: for every trained [DecisionTree] and every input vector [x],
    [predict] never returns [0]; when the leaf that the walk from the root
    reaches stores [0], [predict] returns [0.5] instead; the result is
    either [0.5] or the nonzero value stored in the leaf reached. *)
Theorem DT_predict_never_zero :
  forall (dt : DecisionTree) (features : list (list JS.num))
         (labels x : list JS.num),
    let trained := DT_train dt features labels in
    DT_predict trained x <> (#0)%num /\
    (DT_predict trained x === #0)%num = false /\
    (forall node, root trained = Some node ->
       (reach node x = (#0)%num -> DT_predict trained x = (#0.5)%num) /\
       (DT_predict trained x = (#0.5)%num \/
        (DT_predict trained x = reach node x /\
         reach node x <> (#0)%num))).
Proof.
  intros dt features labels x trained.
  split; [apply DT_predict_not_zero|].
  split; [apply neq_zero_eqb, DT_predict_not_zero|].
  intros node Hroot. unfold DT_predict. rewrite Hroot.
  destruct (or_else_half_cases (reach node x)) as [[Hf ->]|[Ht ->]].
  - split; auto.
  - split.
    + intros H0. apply truthy_not_zero in Ht. contradiction.
    + right. split; auto. now apply truthy_not_zero.
Qed.

(** The tree trained on one sample of the negative class: its root is a
    leaf that stores [0], and the prediction is [0.5]. *)
Lemma DT_predict_never_zero_witness :
  let trained := DT_train (DT_new 4 3) [[(#1)%num]] [(#0)%num] in
  root trained = Some (Leaf (#0)%num) /\
  reach (Leaf (#0)%num) [(#1)%num] = (#0)%num /\
  DT_predict trained [(#1)%num] = (#0.5)%num.
Proof.
  assert (Hroot : root (DT_train (DT_new 4 3) [[(#1)%num]] [(#0)%num])
                  = Some (Leaf (#0)%num)).
  { unfold DT_train, buildTree. cbn [length Nat.eqb root maxDepth minSamples
                                     DT_new Nat.sub].
    f_equal. exact (buildTree_all_negative 4 3 [[(#1)%num]] 0). }
  split; [exact Hroot|]. split; [reflexivity|].
  exact (proj1 (proj2 (proj2 (DT_predict_never_zero
                                (DT_new 4 3) [[(#1)%num]] [(#0)%num]
                                [(#1)%num]))
                 (Leaf (#0)%num) Hroot) eq_refl).
Defined.

(* ================================================================= *)
(** ** Degenerate inputs of the evaluation primitives (C8) *)



(** *** Gini impurity *)




(** *** ROC AUC *)




(** *** Pearson correlation *)








(* ================================================================= *)
(** ** Classification metrics (C5) *)

Lemma not_in_unit_NaN : ~ in_unit JS.NaN.
Proof. intros (r & H & _). discriminate. Qed.

Lemma in_unit_0 : in_unit (#0)%num.
Proof. exists 0%R. split; [reflexivity|lra]. Qed.

(** The projections of [calculateMetrics] that the claim is about. *)
Lemma calculateMetrics_confusionMatrix p a q :
  confusionMatrix (calculateMetrics p a q)
  = {| truePositive := countPairs (#1) (#1) p a;
       trueNegative := countPairs (#0) (#0) p a;
       falsePositive := countPairs (#1) (#0) p a;
       falseNegative := countPairs (#0) (#1) p a |}.
Proof. reflexivity. Qed.

Lemma calculateMetrics_accuracy p a q :
  accuracy (calculateMetrics p a q)
  = (JS.of_nat (countPairs (#1) (#1) p a + countPairs (#0) (#0) p a)
     / JS.of_nat (countPairs (#1) (#1) p a + countPairs (#0) (#0) p a
                  + countPairs (#1) (#0) p a + countPairs (#0) (#1) p a))%num.
Proof. reflexivity. Qed.

Lemma calculateMetrics_precision p a q :
  precision (calculateMetrics p a q)
  = (JS.of_nat (countPairs (#1) (#1) p a)
     / JS.of_nat (countPairs (#1) (#1) p a + countPairs (#1) (#0) p a)
     || #0)%num.
Proof. reflexivity. Qed.

Lemma calculateMetrics_recall p a q :
  recall (calculateMetrics p a q)
  = (JS.of_nat (countPairs (#1) (#1) p a)
     / JS.of_nat (countPairs (#1) (#1) p a + countPairs (#0) (#1) p a)
     || #0)%num.
Proof. reflexivity. Qed.

Lemma calculateMetrics_f1Score p a q :
  f1Score (calculateMetrics p a q)
  = (#2 * (precision (calculateMetrics p a q)
           * recall (calculateMetrics p a q))
     / (precision (calculateMetrics p a q) + recall (calculateMetrics p a q))
     || #0)%num.
Proof. reflexivity. Qed.

(** Four tests of which every element passes exactly one. *)
Lemma count_four {A} (p1 p2 p3 p4 : A -> bool) l :
  (forall a, In a l ->
     (Nat.b2n (p1 a) + Nat.b2n (p2 a) + Nat.b2n (p3 a) + Nat.b2n (p4 a)
      = 1)%nat) ->
  (count p1 l + count p2 l + count p3 l + count p4 l = length l)%nat.
Proof.
  unfold count. induction l as [|a l IH]; intros H; [reflexivity|].
  specialize (IH (fun b Hb => H b (or_intror Hb))).
  specialize (H a (or_introl eq_refl)).
  cbn [filter length].
  destruct (p1 a), (p2 a), (p3 a), (p4 a); cbn [Nat.b2n length] in *; lia.
Qed.

Lemma binary_tests x :
  binary x ->
  ((x === #1)%num = true /\ (x === #0)%num = false) \/
  ((x === #1)%num = false /\ (x === #0)%num = true).
Proof.
  intros [->| ->]; cbn [JS.eqb].
  - right. split; [apply Reqb_false; lra|apply Reqb_true; reflexivity].
  - left. split; [apply Reqb_true; reflexivity|apply Reqb_false; lra].
Qed.

Lemma Forall_at_ (P : JS.num -> Prop) l i :
  Forall P l -> (i < length l)%nat -> P (at_ l i).
Proof.
  intros H Hi. unfold at_. rewrite Forall_forall in H.
  apply H, nth_In, Hi.
Qed.

Lemma confusion_counts_sum p a :
  length p = length a -> Forall binary p -> Forall binary a ->
  (countPairs (#1) (#1) p a + countPairs (#0) (#0) p a
   + countPairs (#1) (#0) p a + countPairs (#0) (#1) p a = length p)%nat.
Proof.
  intros Hlen Hp Ha. unfold countPairs.
  rewrite count_four; [apply length_seq|].
  intros i Hi. apply in_seq in Hi.
  assert (Hpi : binary (at_ p i)) by (apply Forall_at_; [assumption|lia]).
  assert (Hai : binary (at_ a i)) by (apply Forall_at_; [assumption|lia]).
  destruct (binary_tests _ Hpi) as [[-> ->]|[-> ->]],
           (binary_tests _ Hai) as [[-> ->]|[-> ->]]; reflexivity.
Qed.

(** [a / (a + b) || 0] on counts. *)
Lemma ratio_or_zero (a b : nat) :
  in_unit (JS.of_nat a / JS.of_nat (a + b) || #0)%num /\
  ((a + b = 0)%nat ->
   (JS.of_nat a / JS.of_nat (a + b) || #0)%num = (#0)%num).
Proof.
  unfold JS.of_nat, JS.or_else. cbn [JS.div].
  destruct (Nat.eq_dec (a + b) 0) as [Hz|Hnz].
  - assert (a = 0%nat) by lia. subst a. rewrite Hz. cbn [INR].
    rewrite Reqb_true by reflexivity. cbn [JS.truthy].
    split; [apply in_unit_0|reflexivity].
  - rewrite Reqb_false by (apply not_0_INR; exact Hnz).
    split; [|intros; contradiction].
    destruct (JS.truthy _); [|apply in_unit_0].
    exists (INR a / INR (a + b))%R. split; [reflexivity|].
    assert (0 < INR (a + b))%R by (apply lt_0_INR; lia).
    assert (0 <= INR a)%R by apply pos_INR.
    assert (INR a <= INR (a + b))%R by (apply le_INR; lia).
    split.
    + apply Rmult_le_pos; [assumption|]. left. now apply Rinv_0_lt_compat.
    + apply (Rmult_le_reg_r (INR (a + b))); [assumption|].
      unfold Rdiv. rewrite Rmult_assoc, Rinv_l by lra. lra.
Qed.

(** The harmonic mean [2 * (p * r) / (p + r) || 0] of two values in the
    unit interval. *)
Lemma f1_or_zero p r :
  in_unit p -> in_unit r ->
  in_unit (#2 * (p * r) / (p + r) || #0)%num /\
  ((p + r === #0)%num = true ->
   (#2 * (p * r) / (p + r) || #0)%num = (#0)%num).
Proof.
  intros (x & -> & Hx) (y & -> & Hy).
  unfold JS.or_else. cbn [JS.mul JS.add JS.div JS.eqb].
  destruct (Req_dec_T (x + y) 0) as [Hz|Hnz].
  - rewrite (Reqb_true (x + y) 0) by exact Hz.
    assert (x = 0%R) by lra. subst x.
    rewrite (Reqb_true (2 * (0 * y)) 0) by lra.
    cbn [JS.truthy]. split; [apply in_unit_0|reflexivity].
  - rewrite (Reqb_false (x + y) 0) by exact Hnz.
    split; [|intros; discriminate].
    destruct (JS.truthy _); [|apply in_unit_0].
    exists (2 * (x * y) / (x + y))%R. split; [reflexivity|].
    assert (0 < x + y)%R by lra.
    assert (0 <= x * y)%R by (apply Rmult_le_pos; lra).
    split.
    + apply Rmult_le_pos; [lra|]. left. now apply Rinv_0_lt_compat.
    + apply (Rmult_le_reg_r (x + y)); [assumption|].
      unfold Rdiv. rewrite Rmult_assoc, Rinv_l by lra. nra.
Qed.

(** C5, as the claim states it, fails on the empty arrays, which have equal
    length and no entry outside {0, 1}: the accuracy is [0 / 0], NaN. *)
Lemma calculateMetrics_empty_counterexample :
  accuracy (calculateMetrics [] [] []) = JS.NaN /\
  ~ in_unit (accuracy (calculateMetrics [] [] [])).
Proof.
  assert (H : accuracy (calculateMetrics [] [] []) = JS.NaN).
  { rewrite calculateMetrics_accuracy. unfold countPairs, count.
    cbn [length seq filter Nat.add]. unfold JS.of_nat. cbn [INR JS.div].
    now rewrite Reqb_true by reflexivity. }
  split; [exact H|]. rewrite H. apply not_in_unit_NaN.
Qed.

(** C5, amended: for all non-empty [predictions] and [actuals] of equal
    length with entries in {0, 1}, and any [probabilities],
    [calculateMetrics] returns counts TP + TN + FP + FN that add up to the
    input length, an accuracy in [[0, 1]], and a precision, a recall and an
    F1 score in [[0, 1]], each of them [0] when its denominator is [0]. *)
Theorem calculateMetrics_bounds :
  forall predictions actuals probabilities : list JS.num,
    predictions <> [] ->
    length predictions = length actuals ->
    Forall binary predictions -> Forall binary actuals ->
    let m := calculateMetrics predictions actuals probabilities in
    let cm := confusionMatrix m in
    (truePositive cm + trueNegative cm + falsePositive cm + falseNegative cm
     = length predictions)%nat /\
    in_unit (accuracy m) /\
    in_unit (precision m) /\ in_unit (recall m) /\ in_unit (f1Score m) /\
    ((truePositive cm + falsePositive cm = 0)%nat ->
     precision m = (#0)%num) /\
    ((truePositive cm + falseNegative cm = 0)%nat -> recall m = (#0)%num) /\
    ((precision m + recall m === #0)%num = true -> f1Score m = (#0)%num).
Proof.
  intros p a q Hne Hlen Hp Ha m cm. subst cm m.
  pose proof (confusion_counts_sum p a Hlen Hp Ha) as Hsum.
  rewrite calculateMetrics_confusionMatrix.
  cbn [truePositive trueNegative falsePositive falseNegative].
  rewrite calculateMetrics_f1Score, calculateMetrics_accuracy.
  rewrite !calculateMetrics_precision, !calculateMetrics_recall.
  set (tp := countPairs (#1) (#1) p a) in *.
  set (tn := countPairs (#0) (#0) p a) in *.
  set (fp := countPairs (#1) (#0) p a) in *.
  set (fn := countPairs (#0) (#1) p a) in *.
  destruct (ratio_or_zero tp fp) as [Hprec Hprec0].
  destruct (ratio_or_zero tp fn) as [Hrec Hrec0].
  destruct (f1_or_zero _ _ Hprec Hrec) as [Hf1 Hf10].
  split; [exact Hsum|].
  split; [|tauto].
  rewrite Hsum. unfold JS.of_nat. cbn [JS.div].
  assert (Hpos : (0 < length p)%nat) by (destruct p; [congruence|simpl; lia]).
  rewrite Reqb_false by (apply not_0_INR; lia).
  exists (INR (tp + tn) / INR (length p))%R. split; [reflexivity|].
  assert (0 < INR (length p))%R by (apply lt_0_INR; lia).
  assert (0 <= INR (tp + tn))%R by apply pos_INR.
  assert (INR (tp + tn) <= INR (length p))%R by (apply le_INR; lia).
  split.
  - apply Rmult_le_pos; [assumption|]. left. now apply Rinv_0_lt_compat.
  - apply (Rmult_le_reg_r (INR (length p))); [assumption|].
    unfold Rdiv. rewrite Rmult_assoc, Rinv_l by lra. lra.
Qed.

(** The six predictions of the evaluator's test. *)
Lemma calculateMetrics_bounds_witness :
  let m := calculateMetrics [#1; #1; #0; #0; #1; #0]%num
             [#1; #0; #0; #1; #1; #0]%num
             [#0.8; #0.6; #0.3; #0.4; #0.9; #0.2]%num in
  let cm := confusionMatrix m in
  (truePositive cm + trueNegative cm + falsePositive cm + falseNegative cm
   = 6)%nat /\
  in_unit (accuracy m) /\
  in_unit (precision m) /\ in_unit (recall m) /\ in_unit (f1Score m) /\
  ((truePositive cm + falsePositive cm = 0)%nat -> precision m = (#0)%num) /\
  ((truePositive cm + falseNegative cm = 0)%nat -> recall m = (#0)%num) /\
  ((precision m + recall m === #0)%num = true -> f1Score m = (#0)%num).
Proof.
  apply (calculateMetrics_bounds [#1; #1; #0; #0; #1; #0]%num
           [#1; #0; #0; #1; #1; #0]%num
           [#0.8; #0.6; #0.3; #0.4; #0.9; #0.2]%num).
  - discriminate.
  - reflexivity.
  - repeat constructor; (now left) || (now right).
  - repeat constructor; (now left) || (now right).
Defined.

(* ================================================================= *)
(** ** Habit statistics on the "Exercise" scenario (C3) *)

Lemma exerciseLogs_filtered :
  filter (fun log => String.eqb (habitId log) (id exercise)) exerciseLogs
  = exerciseLogs.
Proof. reflexivity. Qed.

Lemma exerciseLogs_newest_first :
  Array_sort
    (fun a b => (Date_getTime (date b) - Date_getTime (date a) >? 0)%Z)
    exerciseLogs
  = rev exerciseLogs.
Proof. vm_compute. reflexivity. Qed.

(** C3, the code on the scenario: with the clock two days after the most
    recent log, [calculateHabitStats] reports the current streak 0, the
    longest streak 8 and the success rate 0.8, but 11 days since the last
    log: the array was reversed in place for the longest streak, and its
    first element is then the oldest log, of day 1. *)
Theorem calculateHabitStats_exercise :
  forall env : Env,
    ((clock env - Date_getTime 10) / msPerDay = 2)%Z ->
    let stats := calculateHabitStats env exercise exerciseLogs in
    currentStreak stats = 0%nat /\
    longestStreak stats = 8%nat /\
    successRate stats = (#0.8)%num /\
    daysSinceLastLog stats = 11%Z.
Proof.
  intros env Hnow stats. subst stats. unfold calculateHabitStats.
  rewrite exerciseLogs_filtered, exerciseLogs_newest_first, rev_involutive.
  cbn [currentStreak longestStreak successRate daysSinceLastLog].
  split; [reflexivity|]. split; [reflexivity|]. split.
  - change (length exerciseLogs) with 10%nat.
    change (length (filter completed exerciseLogs)) with 8%nat.
    cbn [Nat.ltb Nat.leb]. unfold JS.of_nat. rewrite !INR_Z.
    cbn [Z.of_nat Pos.of_succ_nat Pos.succ JS.div].
    rewrite Reqb_false by lra. apply Fin_eq. lra.
  - cbn [exerciseLogs map app hd_error logOn date].
    replace (clock env - Date_getTime 1)%Z
      with ((clock env - Date_getTime 10) + 9 * msPerDay)%Z
      by (unfold Date_getTime; ring).
    rewrite Z.div_add by discriminate. lia.
Qed.

(** The clock at noon of day 12. *)
Lemma calculateHabitStats_exercise_witness :
  let env := {| clock := Date_getTime 12 + 43200000; utcOffset := 0 |} in
  let stats := calculateHabitStats env exercise exerciseLogs in
  ((clock env - Date_getTime 10) / msPerDay = 2)%Z /\
  currentStreak stats = 0%nat /\
  longestStreak stats = 8%nat /\
  successRate stats = (#0.8)%num /\
  daysSinceLastLog stats = 11%Z.
Proof.
  split; [reflexivity|].
  apply (calculateHabitStats_exercise
           {| clock := Date_getTime 12 + 43200000; utcOffset := 0 |}).
  reflexivity.
Defined.

(** The other reading of the scenario, with no log at all on the two days
    skipped: the statistics have no notion of a gap, so the streak of 8 is
    still current, the success rate is 1, and the days are again counted
    from the oldest log. *)
Lemma calculateHabitStats_exercise_gap :
  forall env : Env,
    ((clock env - Date_getTime 8) / msPerDay = 2)%Z ->
    let stats := calculateHabitStats env exercise (firstn 8 exerciseLogs) in
    currentStreak stats = 8%nat /\
    longestStreak stats = 8%nat /\
    successRate stats = (#1)%num /\
    daysSinceLastLog stats = 9%Z.
Proof.
  intros env Hnow stats. subst stats. unfold calculateHabitStats.
  change (filter (fun log => String.eqb (habitId log) (id exercise))
            (firstn 8 exerciseLogs)) with (firstn 8 exerciseLogs).
  replace (Array_sort
             (fun a b =>
                (Date_getTime (date b) - Date_getTime (date a) >? 0)%Z)
             (firstn 8 exerciseLogs))
    with (rev (firstn 8 exerciseLogs)) by (vm_compute; reflexivity).
  rewrite rev_involutive.
  cbn [currentStreak longestStreak successRate daysSinceLastLog].
  split; [reflexivity|]. split; [reflexivity|]. split.
  - change (length (firstn 8 exerciseLogs)) with 8%nat.
    change (length (filter completed (firstn 8 exerciseLogs))) with 8%nat.
    cbn [Nat.ltb Nat.leb]. unfold JS.of_nat. rewrite !INR_Z.
    cbn [Z.of_nat Pos.of_succ_nat Pos.succ JS.div].
    rewrite Reqb_false by lra. apply Fin_eq. lra.
  - cbn [exerciseLogs map app firstn hd_error logOn date].
    replace (clock env - Date_getTime 1)%Z
      with ((clock env - Date_getTime 8) + 7 * msPerDay)%Z
      by (unfold Date_getTime; ring).
    rewrite Z.div_add by discriminate. lia.
Qed.

(* ================================================================= *)
(** ** Training samples and later logs (C1) *)

(** The statistics of a training sample do not depend on its date:
    [extractFeatures] takes them from [calculateHabitStats] on all the logs,
    whatever [targetDate] is. *)
Lemma extractFeatures_stats_all_logs env habit logs targetDate :
  let stats := calculateHabitStats env habit logs in
  let features := extractFeatures env habit logs targetDate in
  f_streak features = currentStreak stats /\
  f_successRate features = successRate stats /\
  f_daysSinceLastLog features = daysSinceLastLog stats.
Proof. repeat split. Qed.

Lemma encodeFeatures_successRate features :
  at_ (encodeFeatures features) 15 = f_successRate features.
Proof.
  unfold encodeFeatures.
  destruct (f_timeOfDay features), (f_weather features) as [[]|];
    reflexivity.
Qed.

(** C1, the code on the input of the claim: for the habit with a failed
    log on day 1 and a completed log on day 5, the first training sample is
    the one of day 1, its label is [0], and its success-rate feature is
    [0.5], the rate over both logs, not [0]. *)
Theorem createTrainingData_day1_successRate :
  forall env : Env,
    let td := createTrainingData env [reading] readingLogs in
    nth_error (td_metadata td) 0 = Some ("reading"%string, 1%Z) /\
    nth_error (td_labels td) 0 = Some (#0)%num /\
    at_ (nth 0 (td_features td) []) 15 = (#0.5)%num /\
    (at_ (nth 0 (td_features td) []) 15 === #0)%num = false.
Proof.
  intros env td. subst td.
  unfold createTrainingData, trainingSamples.
  cbn [flat_map]. rewrite app_nil_r.
  change (filter (fun log => String.eqb (habitId log) (id reading))
            readingLogs) with readingLogs.
  cbn [readingLogs map td_metadata td_labels td_features nth nth_error
       fst snd].
  unfold trainingSample at 1 2 3 4. cbn [fst snd].
  assert (Hrate :
    at_ (encodeFeatures
           (extractFeatures env reading readingLogs
              (Some (Date_getTime (date (logOn "reading" 1 false))))))
        15 = (#0.5)%num).
  { rewrite encodeFeatures_successRate.
    unfold extractFeatures. cbn [f_successRate].
    unfold calculateHabitStats. cbn [successRate].
    change (filter (fun log => String.eqb (habitId log) (id reading))
              readingLogs) with readingLogs.
    change (length readingLogs) with 2%nat.
    change (length (filter completed readingLogs)) with 1%nat.
    cbn [Nat.ltb Nat.leb]. unfold JS.of_nat. rewrite !INR_Z.
    cbn [Z.of_nat Pos.of_succ_nat Pos.succ JS.div].
    rewrite Reqb_false by lra. apply Fin_eq. lra. }
  split; [reflexivity|]. split; [reflexivity|].
  rewrite Hrate. split; [reflexivity|].
  cbn [JS.eqb]. apply Reqb_false. lra.
Qed.

(* ================================================================= *)
(** ** The column of the outlier rate (C4) *)

Lemma encodeFeatures_length features : length (encodeFeatures features) = 19%nat.
Proof.
  unfold encodeFeatures.
  destruct (f_timeOfDay features), (f_weather features) as [[]|];
    reflexivity.
Qed.

Lemma encodeFeatures_streak features :
  at_ (encodeFeatures features) 13
  = JS.min (JS.log1p (JS.of_nat (f_streak features)) / JS.log1p #30)%num
           (#1)%num.
Proof.
  unfold encodeFeatures.
  destruct (f_timeOfDay features), (f_weather features) as [[]|];
    reflexivity.
Qed.

Lemma ln_31_pos : (0 < ln (1 + 30))%R.
Proof. rewrite <- ln_1. apply ln_increasing; lra. Qed.


(** The streak slot of a streak of length 0. *)
Lemma streak_slot_0 :
  JS.min (JS.log1p (JS.of_nat 0) / JS.log1p #30)%num (#1)%num = (#0)%num.
Proof.
  pose proof ln_31_pos as H31.
  unfold JS.of_nat. cbn [INR JS.log1p].
  rewrite (Rltb_false 0 (-1)), (Reqb_false 0 (-1)) by lra.
  rewrite (Rltb_false 30 (-1)), (Reqb_false 30 (-1)) by lra.
  cbn [JS.div]. rewrite Reqb_false by lra.
  replace (1 + 0)%R with 1%R by lra. rewrite ln_1.
  replace (0 / ln (1 + 30))%R with 0%R by (field; lra).
  cbn [JS.min JS.ltb]. rewrite Rltb_false by lra. reflexivity.
Qed.

Lemma quality_walking_stats env :
  currentStreak (calculateHabitStats env walking qualityLogs) = 0%nat /\
  successRate (calculateHabitStats env walking qualityLogs) = (#0.75)%num.
Proof.
  unfold calculateHabitStats. cbn [currentStreak successRate].
  split; [reflexivity|].
  change (filter (fun log => String.eqb (habitId log) (id walking))
            qualityLogs)
    with [logOn "walking" 1 true; logOn "walking" 2 true;
          logOn "walking" 3 true; logOn "walking" 4 false].
  cbn [filter logOn completed length Nat.ltb Nat.leb].
  unfold JS.of_nat. rewrite !INR_Z.
  cbn [Z.of_nat Pos.of_succ_nat Pos.succ JS.div].
  rewrite Reqb_false by lra. apply Fin_eq. lra.
Qed.

Lemma quality_stretching_stats env :
  currentStreak (calculateHabitStats env stretching qualityLogs) = 0%nat /\
  successRate (calculateHabitStats env stretching qualityLogs) = (#0)%num.
Proof.
  unfold calculateHabitStats. cbn [currentStreak successRate].
  split; [reflexivity|].
  change (filter (fun log => String.eqb (habitId log) (id stretching))
            qualityLogs)
    with [logOn "stretching" 1 false].
  cbn [filter logOn completed length Nat.ltb Nat.leb].
  unfold JS.of_nat. cbn [INR JS.div].
  rewrite Reqb_false by lra. apply Fin_eq. lra.
Qed.

(** The features of the five training samples of the example. *)
Lemma quality_features env :
  td_features (createTrainingData env [walking; stretching] qualityLogs)
  = [ encodeFeatures
        (extractFeatures env walking qualityLogs (Some (Date_getTime 1)));
      encodeFeatures
        (extractFeatures env walking qualityLogs (Some (Date_getTime 2)));
      encodeFeatures
        (extractFeatures env walking qualityLogs (Some (Date_getTime 3)));
      encodeFeatures
        (extractFeatures env walking qualityLogs (Some (Date_getTime 4)));
      encodeFeatures
        (extractFeatures env stretching qualityLogs
           (Some (Date_getTime 1))) ].
Proof. reflexivity. Qed.

Lemma quality_streak_column env :
  map (fun f => at_ f (length f - 6))
      (td_features (createTrainingData env [walking; stretching] qualityLogs))
  = [#0; #0; #0; #0; #0]%num.
Proof.
  rewrite quality_features. cbn [map].
  rewrite !encodeFeatures_length. cbn [Nat.sub].
  rewrite !encodeFeatures_streak.
  unfold extractFeatures. cbn [f_streak].
  rewrite (proj1 (quality_walking_stats env)).
  rewrite (proj1 (quality_stretching_stats env)).
  now rewrite streak_slot_0.
Qed.

Lemma quality_successRate_column env :
  map (fun f => at_ f 15)
      (td_features (createTrainingData env [walking; stretching] qualityLogs))
  = [#0.75; #0.75; #0.75; #0.75; #0]%num.
Proof.
  rewrite quality_features. cbn [map].
  rewrite !encodeFeatures_successRate.
  unfold extractFeatures. cbn [f_successRate].
  rewrite (proj2 (quality_walking_stats env)).
  now rewrite (proj2 (quality_stretching_stats env)).
Qed.

(** Every training sample is an encoded vector. *)
Lemma td_features_encoded env habits logs f :
  In f (td_features (createTrainingData env habits logs)) ->
  exists features, f = encodeFeatures features.
Proof.
  unfold createTrainingData, trainingSamples. cbn [td_features].
  rewrite in_map_iff. intros (s & <- & Hs).
  apply in_flat_map in Hs. destruct Hs as (habit & _ & Hs).
  apply in_map_iff in Hs. destruct Hs as (log & <- & _).
  eexists. reflexivity.
Qed.

(** On every input, the column of the outlier rate is slot 13 of the
    encoded vectors, the streak slot. *)
Lemma assessDataQuality_streak_column env habits logs :
  let features := td_features (createTrainingData env habits logs) in
  outlierRate (assessDataQuality env habits logs)
  = if (length features =? 0)%nat then (#0)%num
    else iqrOutlierRate (map (fun f => at_ f 13) features).
Proof.
  intros features. unfold assessDataQuality. fold features.
  destruct (length features =? 0)%nat; [reflexivity|].
  cbn [outlierRate]. f_equal. apply map_ext_in. intros f Hf.
  apply td_features_encoded in Hf. destruct Hf as [fs ->].
  now rewrite encodeFeatures_length.
Qed.

(** The quartile rule on the two columns of the example. *)
Lemma iqrOutlierRate_zeros :
  iqrOutlierRate [#0; #0; #0; #0; #0]%num = (#0)%num.
Proof.
  assert (Hs : Array_sort (fun a b : JS.num => (a - b >? #0)%num)
                 [#0; #0; #0; #0; #0]%num = [#0; #0; #0; #0; #0]%num)
    by (sort_eval; reflexivity).
  unfold iqrOutlierRate. rewrite Hs. cbv zeta. cbn [length].
  change (floorTimes 5 (25, 100)) with 1%nat.
  change (floorTimes 5 (75, 100)) with 3%nat.
  unfold count, at_. cbn [nth]. js_eval.
  cbn [filter]. js_eval. cbn [orb length INR JS.div]. js_eval.
  apply Fin_eq. lra.
Qed.

Lemma iqrOutlierRate_rates :
  iqrOutlierRate [#0.75; #0.75; #0.75; #0.75; #0]%num = (#0.2)%num.
Proof.
  assert (Hs : Array_sort (fun a b : JS.num => (a - b >? #0)%num)
                 [#0.75; #0.75; #0.75; #0.75; #0]%num
               = [#0; #0.75; #0.75; #0.75; #0.75]%num)
    by (sort_eval; reflexivity).
  unfold iqrOutlierRate. rewrite Hs. cbv zeta. cbn [length].
  change (floorTimes 5 (25, 100)) with 1%nat.
  change (floorTimes 5 (75, 100)) with 3%nat.
  unfold count, at_. cbn [nth]. js_eval.
  cbn [filter]. js_eval. cbn [orb length INR JS.div]. js_eval.
  apply Fin_eq. lra.
Qed.

(** C4, the code on an example: the outlier rate that [assessDataQuality]
    reports is the one of the column [f[f.length - 6]], the streak slot
    (slot 13 of 19), here [0]; the 1.5 x IQR rule on the success-rate
    column (slot 15) of the same training matrix gives [0.2]. *)
Theorem assessDataQuality_outlier_column :
  forall env : Env,
    let features :=
      td_features
        (createTrainingData env [walking; stretching] qualityLogs) in
    outlierRate (assessDataQuality env [walking; stretching] qualityLogs)
    = iqrOutlierRate (map (fun f => at_ f 13) features) /\
    outlierRate (assessDataQuality env [walking; stretching] qualityLogs)
    = (#0)%num /\
    iqrOutlierRate (map (fun f => at_ f 15) features) = (#0.2)%num.
Proof.
  intros env features. subst features.
  assert (Hcode :
    outlierRate (assessDataQuality env [walking; stretching] qualityLogs)
    = iqrOutlierRate [#0; #0; #0; #0; #0]%num).
  { unfold assessDataQuality.
    change (length (td_features
                      (createTrainingData env [walking; stretching]
                         qualityLogs)) =? 0)%nat with false.
    cbn [outlierRate]. now rewrite quality_streak_column. }
  assert (H13 :
    map (fun f => at_ f 13)
      (td_features (createTrainingData env [walking; stretching] qualityLogs))
    = [#0; #0; #0; #0; #0]%num).
  { rewrite <- (quality_streak_column env), quality_features. cbn [map].
    now rewrite !encodeFeatures_length. }
  rewrite H13, quality_successRate_column, Hcode.
  split; [reflexivity|]. split.
  - apply iqrOutlierRate_zeros.
  - apply iqrOutlierRate_rates.
Qed.

(* ================================================================= *)
(** ** Determinism and defaults of the encoding (C9) *)

Lemma encodeFeatures_context features :
  at_ (encodeFeatures features) 5 = moodValue (f_mood features) /\
  at_ (encodeFeatures features) 6
  = if_truthy (f_sleepHours features)
      (fun h => JS.min (h / #10) #1)%num (#0.75)%num /\
  at_ (encodeFeatures features) 7
  = if_truthy (f_energyLevel features)
      (fun e => (e - #1) / #4)%num (#0.5)%num /\
  at_ (encodeFeatures features) 8
  = if_truthy (f_stressLevel features)
      (fun s => #1 - ((s - #1) / #4))%num (#0.5)%num /\
  [at_ (encodeFeatures features) 9; at_ (encodeFeatures features) 10;
   at_ (encodeFeatures features) 11; at_ (encodeFeatures features) 12]
  = weatherEncoding (f_weather features).
Proof.
  unfold encodeFeatures.
  destruct (f_timeOfDay features), (f_weather features) as [[]|];
    repeat split.
Qed.







(* ================================================================= *)
(** ** [train] does not throw (C6) *)


Lemma length_zero_iff_nil {A} (l : list A) :
  (length l =? 0)%nat = true <-> l = [].
Proof.
  destruct l; simpl; split; intros; auto; discriminate.
Qed.



(* ================================================================= *)
(** ** Sorting *)

Section SortFacts.
Context {A : Type} (gt0 : A -> A -> bool).

Lemma insert_perm x l : Permutation (insert gt0 x l) (x :: l).
Proof.
  induction l as [|y l IH]; simpl; [reflexivity|].
  destruct (gt0 x y); [|reflexivity].
  rewrite IH. apply perm_swap.
Qed.

Lemma Array_sort_perm l : Permutation (Array_sort gt0 l) l.
Proof.
  induction l as [|x l IH]; simpl; [reflexivity|].
  rewrite insert_perm. now apply perm_skip.
Qed.

(** Elements of one class, none of which has to come after another, keep
    their order. *)
Lemma insert_stable (P : A -> bool) x l :
  (forall a b, P a = true -> P b = true -> gt0 a b = false) ->
  filter P (insert gt0 x l) = filter P (x :: l).
Proof.
  intros HP. induction l as [|y l IH]; [reflexivity|].
  cbn [insert]. destruct (gt0 x y) eqn:Hxy; [|reflexivity].
  cbn [filter] in *. rewrite IH.
  destruct (P x) eqn:Px, (P y) eqn:Py; try reflexivity.
  rewrite (HP x y Px Py) in Hxy. discriminate.
Qed.

Lemma Array_sort_stable (P : A -> bool) l :
  (forall a b, P a = true -> P b = true -> gt0 a b = false) ->
  filter P (Array_sort gt0 l) = filter P l.
Proof.
  intros HP. induction l as [|x l IH]; [reflexivity|].
  cbn [Array_sort fold_right]. fold (Array_sort gt0 l).
  rewrite (insert_stable P x _ HP). cbn [filter]. now rewrite IH.
Qed.

(** When the comparator compares a real key, the result is sorted by
    decreasing key. *)
Context (key : A -> R).

Lemma insert_sorted x l :
  (forall y, In y l -> gt0 x y = JS.Rltb (key x) (key y)) ->
  StronglySorted (fun a b => (key b <= key a)%R) l ->
  StronglySorted (fun a b => (key b <= key a)%R) (insert gt0 x l).
Proof.
  intros Hgt Hs. induction Hs as [|y l Hs IH Hy]; simpl.
  - repeat constructor.
  - rewrite (Hgt y) by now left.
    destruct (Rlt_dec (key x) (key y)) as [Hlt|Hge].
    + rewrite Rltb_true by exact Hlt.
      constructor.
      * apply IH. intros z Hz. apply Hgt. now right.
      * eapply Permutation_Forall; [symmetry; apply insert_perm|].
        constructor; [lra|exact Hy].
    + rewrite Rltb_false by exact Hge.
      constructor; [now constructor|].
      constructor; [lra|].
      eapply Forall_impl; [|exact Hy]. cbv beta. intros z Hz. lra.
Qed.

Lemma Array_sort_sorted l :
  (forall x y, In x l -> In y l -> gt0 x y = JS.Rltb (key x) (key y)) ->
  StronglySorted (fun a b => (key b <= key a)%R) (Array_sort gt0 l).
Proof.
  induction l as [|x l IH]; intros Hgt; simpl; [constructor|].
  apply insert_sorted.
  - intros y Hy. apply Hgt; [now left|right].
    eapply Permutation_in; [apply Array_sort_perm|exact Hy].
  - apply IH. intros a b Ha Hb. apply Hgt; now right.
Qed.
End SortFacts.

(* ================================================================= *)
(** ** Ranked predictions of the engine ([predictForDate]) *)

Lemma StronglySorted_impl_In {A} (R1 R2 : A -> A -> Prop) l :
  (forall a b, In a l -> In b l -> R1 a b -> R2 a b) ->
  StronglySorted R1 l -> StronglySorted R2 l.
Proof.
  intros H Hs. induction Hs as [|a l Hs IH Ha]; constructor.
  - apply IH. intros x y Hx Hy. apply H; now right.
  - rewrite Forall_forall in *. intros b Hb.
    apply H; [now left|now right|now apply Ha].
Qed.

(** Two predictions whose probabilities are [===] are never swapped. *)
Lemma byProbabilityDesc_equal q a b :
  (probability a === q)%num = true -> (probability b === q)%num = true ->
  byProbabilityDesc a b = false.
Proof.
  unfold byProbabilityDesc.
  destruct (probability a) as [| | |x], q as [| | |r]; try discriminate;
    destruct (probability b) as [| | |y]; try discriminate; try reflexivity.
  cbn [JS.eqb]. intros Hx Hy.
  apply Reqb_spec in Hx, Hy. subst.
  unfold JS.gtb. cbn [JS.sub JS.neg JS.add JS.ltb].
  apply Rltb_false. lra.
Qed.

Lemma byProbabilityDesc_finite a b :
  finite (probability a) -> finite (probability b) ->
  byProbabilityDesc a b
  = JS.Rltb (val (probability a)) (val (probability b)).
Proof.
  intros [x Hx] [y Hy]. unfold byProbabilityDesc. rewrite Hx, Hy.
  unfold JS.gtb. cbn [JS.sub JS.neg JS.add JS.ltb val].
  destruct (Rlt_dec x y).
  - rewrite !Rltb_true by lra. reflexivity.
  - rewrite !Rltb_false by lra. reflexivity.
Qed.

(** Sorting predictions: one prediction per prediction, equal
    probabilities in their order, and, when no probability is NaN or
    infinite, a non-increasing result. *)
Lemma sort_predictions l :
  Permutation (Array_sort byProbabilityDesc l) l /\
  (forall q,
     withProbability q (Array_sort byProbabilityDesc l)
     = withProbability q l) /\
  (Forall (fun p => finite (probability p)) l ->
   nonIncreasing (Array_sort byProbabilityDesc l)).
Proof.
  split; [apply Array_sort_perm|]. split.
  - intros q. apply Array_sort_stable. apply byProbabilityDesc_equal.
  - intros Hfin. rewrite Forall_forall in Hfin.
    assert (Hin : forall p, In p (Array_sort byProbabilityDesc l) ->
                            finite (probability p)).
    { intros p Hp. apply Hfin.
      eapply Permutation_in; [apply Array_sort_perm|exact Hp]. }
    unfold nonIncreasing.
    apply (StronglySorted_impl_In
             (fun a b => (val (probability b) <= val (probability a))%R)).
    + intros a b Ha Hb Hle.
      destruct (Hin a Ha) as [x Hx], (Hin b Hb) as [y Hy].
      rewrite Hx, Hy in *. cbn [val] in Hle.
      unfold JS.geb. cbn [JS.leb]. now apply Rleb_true.
    + apply (Array_sort_sorted byProbabilityDesc
               (fun p => val (probability p))).
      intros a b Ha Hb. apply byProbabilityDesc_finite; now apply Hfin.
Qed.

(** The heuristic probability is a number of the interval it is clamped
    to. *)
Lemma finite_min x y : finite x -> finite y -> finite (JS.min x y).
Proof.
  intros [a ->] [b ->]. cbn [JS.min JS.ltb].
  destruct (JS.Rltb b a); eexists; reflexivity.
Qed.

Lemma finite_max x y : finite x -> finite y -> finite (JS.max x y).
Proof.
  intros [a ->] [b ->]. cbn [JS.max JS.ltb].
  destruct (JS.Rltb a b); eexists; reflexivity.
Qed.

Lemma finite_div_const x (c : R) :
  finite x -> c <> 0%R -> finite (x / #c)%num.
Proof.
  intros [a ->] Hc. cbn [JS.div]. rewrite Reqb_false by exact Hc.
  eexists; reflexivity.
Qed.

Lemma successRate_finite env habit logs :
  finite (successRate (calculateHabitStats env habit logs)).
Proof.
  unfold calculateHabitStats. cbn [successRate].
  destruct (0 <? _)%nat eqn:Hpos; [|eexists; reflexivity].
  apply Nat.ltb_lt in Hpos. unfold JS.of_nat. cbn [JS.div].
  rewrite Reqb_false by (apply not_0_INR; lia).
  eexists; reflexivity.
Qed.

Lemma heuristic_raw_finite env habit logs :
  let stats := calculateHabitStats env habit logs in
  finite (#0.5 + (successRate stats - #0.5) * #0.4
          + JS.min (JS.of_nat (currentStreak stats) / #7) #1 * #0.3
          - JS.min (JS.of_Z (daysSinceLastLog stats) / #7) #1 * #0.3)%num.
Proof.
  intros stats.
  destruct (successRate_finite env habit logs) as [sr Hsr].
  fold stats in Hsr. rewrite Hsr.
  assert (H1 : finite (JS.min (JS.of_nat (currentStreak stats) / #7) #1)%num).
  { apply finite_min; [|eexists; reflexivity].
    apply finite_div_const; [eexists; reflexivity|lra]. }
  assert (H2 : finite
                 (JS.min (JS.of_Z (daysSinceLastLog stats) / #7) #1)%num).
  { apply finite_min; [|eexists; reflexivity].
    apply finite_div_const; [eexists; reflexivity|lra]. }
  destruct H1 as [a ->], H2 as [b ->].
  eexists; reflexivity.
Qed.

Lemma generateHeuristicPrediction_finite env habit logs :
  finite (probability (generateHeuristicPrediction env habit logs)).
Proof.
  unfold generateHeuristicPrediction. cbn [probability].
  apply finite_max; [eexists; reflexivity|].
  apply finite_min; [eexists; reflexivity|].
  apply heuristic_raw_finite.
Qed.

(** [predictForDate] of [lib/prediction-engine.ts]: exactly one prediction
    per active habit and none for an inactive one, sorted by non-increasing
    probability, and for equal probabilities in the order of the habits. *)
Theorem predictForDate_ranked :
  forall (env : Env) (habits : list Habit) (logs : list HabitLog)
         (targetDate : Z),
    let predictions :=
      map (fun habit => generateHeuristicPrediction env habit logs)
          (filter isActive habits) in
    let ranked := predictForDate env habits logs targetDate in
    Permutation ranked predictions /\
    Permutation (map p_habitId ranked) (map id (filter isActive habits)) /\
    nonIncreasing ranked /\
    (forall q, withProbability q ranked = withProbability q predictions).
Proof.
  intros env habits logs targetDate predictions ranked.
  destruct (sort_predictions predictions) as (Hperm & Hstable & Hsorted).
  split; [exact Hperm|]. split; [|split; [|exact Hstable]].
  - transitivity (map p_habitId predictions).
    + apply Permutation_map. exact Hperm.
    + subst predictions. rewrite map_map. reflexivity.
  - apply Hsorted. subst predictions.
    apply Forall_forall. intros p Hp.
    apply in_map_iff in Hp. destruct Hp as (h & <- & _).
    apply generateHeuristicPrediction_finite.
Qed.

(* ================================================================= *)
(** ** NaN in the logistic regression *)








(* ================================================================= *)
(** ** Ranked predictions of the earlier engine (C7) *)










(* ================================================================= *)
(** ** The transition to the trained state *)

Lemma bind_returned {S A B} (m : M S A) (f : A -> M S B) s s' b :
  bind m f s = (s', Returned b) ->
  exists a s1, m s = (s1, Returned a) /\ f a s1 = (s', Returned b).
Proof.
  unfold bind. destruct (m s) as [s1 [a|e]]; intros H.
  - now exists a, s1.
  - discriminate.
Qed.

(** When the [try] block runs to its end, the engine is trained on all the
    samples. *)
Lemma train_try_returned {callees : Callees} env habits logs features labels
  this this1 :
  train_try env habits logs features labels this = (this1, Returned tt) ->
  isTrained (modelState this1) = true /\
  totalSamples (modelState this1) = length features /\
  trainingDate (modelState this1) = Some (clock env).
Proof.
  unfold train_try. intros H.
  repeat (apply bind_returned in H; destruct H as (? & ? & _ & H)).
  unfold modify in H. injection H as <-. repeat split.
Qed.

(* ================================================================= *)
(** * Further properties of the code *)

(** ** Habit statistics *)

Lemma filter_length_perm {A} (p : A -> bool) l l' :
  Permutation l l' -> length (filter p l) = length (filter p l').
Proof.
  induction 1; cbn [filter]; auto.
  - destruct (p x); cbn [length]; congruence.
  - destruct (p x), (p y); reflexivity.
  - congruence.
Qed.

Lemma filter_length_le {A} (p : A -> bool) l :
  (length (filter p l) <= length l)%nat.
Proof.
  induction l as [|a l IH]; cbn [filter length]; [lia|].
  destruct (p a); cbn [length]; lia.
Qed.

(** The two streak loops on a list [L] of logs, newest first: the running
    streak at the end of the second loop is the current streak, and the
    longest streak lies between it and the number of completed logs. *)
Lemma streak_loops L :
  let st := fold_left longestStreak_step (rev L) (0, 0)%nat in
  fst st = currentStreak_loop L /\
  (fst st <= snd st)%nat /\
  (snd st <= length (filter completed L))%nat.
Proof.
  induction L as [|x L IH]; [cbn; lia|].
  cbn [rev]. rewrite fold_left_app. cbn [fold_left].
  cbv zeta in IH.
  destruct (fold_left longestStreak_step (rev L) (0, 0)%nat) as [t g].
  cbn [fst snd] in IH. destruct IH as (Ht & Hle & Hg).
  unfold longestStreak_step. cbn [currentStreak_loop filter].
  destruct (completed x); cbn [fst snd length]; lia.
Qed.

Lemma ratio_in_unit (c t : nat) :
  (c <= t)%nat -> (0 < t)%nat -> in_unit (JS.of_nat c / JS.of_nat t)%num.
Proof.
  intros Hc Ht. unfold JS.of_nat. cbn [JS.div].
  rewrite Reqb_false by (apply not_0_INR; lia).
  exists (INR c / INR t)%R. split; [reflexivity|].
  assert (0 < INR t)%R by (apply lt_0_INR; lia).
  assert (0 <= INR c)%R by apply pos_INR.
  assert (INR c <= INR t)%R by (apply le_INR; lia).
  split.
  - apply Rmult_le_pos; [assumption|]. left. now apply Rinv_0_lt_compat.
  - apply (Rmult_le_reg_r (INR t)); [assumption|].
    unfold Rdiv. rewrite Rmult_assoc, Rinv_l by lra. lra.
Qed.

Lemma successRate_in_unit env habit logs :
  in_unit (successRate (calculateHabitStats env habit logs)).
Proof.
  unfold calculateHabitStats. cbn [successRate].
  destruct (0 <? _)%nat eqn:Hpos; [|apply in_unit_0].
  apply Nat.ltb_lt in Hpos.
  apply ratio_in_unit; [apply filter_length_le|exact Hpos].
Qed.

Lemma stats_streaks env habit logs :
  let stats := calculateHabitStats env habit logs in
  (currentStreak stats <= longestStreak stats)%nat /\
  (longestStreak stats <= completedLogs stats)%nat.
Proof.
  unfold calculateHabitStats.
  cbn [currentStreak longestStreak completedLogs].
  set (hl := filter (fun log => String.eqb (habitId log) (id habit)) logs).
  set (L := Array_sort _ hl).
  destruct (streak_loops L) as (Ht & Hle & Hg). cbv zeta in *.
  rewrite <- Ht.
  rewrite (filter_length_perm completed L hl) in Hg
    by apply Array_sort_perm.
  split; [exact Hle|exact Hg].
Qed.

(** The statistics of a habit are consistent: no more completed logs than
    logs, a current streak no longer than the longest streak, which is no
    longer than the number of completed logs, a success rate in [[0, 1]];
    and without logs they are 0, 0, 0 and the 999 days. *)
Theorem calculateHabitStats_consistent :
  forall (env : Env) (habit : Habit) (logs : list HabitLog),
    let stats := calculateHabitStats env habit logs in
    s_habitId stats = id habit /\
    totalLogs stats = length (logsOf habit logs) /\
    (completedLogs stats <= totalLogs stats)%nat /\
    (currentStreak stats <= longestStreak stats)%nat /\
    (longestStreak stats <= completedLogs stats)%nat /\
    in_unit (successRate stats) /\
    (logsOf habit logs = [] ->
     successRate stats = (#0)%num /\ currentStreak stats = 0%nat /\
     longestStreak stats = 0%nat /\ daysSinceLastLog stats = 999%Z).
Proof.
  intros env habit logs stats.
  destruct (stats_streaks env habit logs) as [Hc Hl].
  split; [reflexivity|]. split; [reflexivity|].
  split; [apply filter_length_le|].
  split; [exact Hc|]. split; [exact Hl|].
  split; [apply successRate_in_unit|].
  intros Hnone. subst stats. unfold calculateHabitStats.
  fold (logsOf habit logs). rewrite Hnone. repeat split.
Qed.

(** *** Sorting logs by date *)

Lemma newest_first_key a b :
  (Date_getTime (date b) - Date_getTime (date a) >? 0)%Z
  = JS.Rltb (IZR (date a)) (IZR (date b)).
Proof.
  unfold Date_getTime, msPerDay.
  destruct (Z_lt_dec (date a) (date b)) as [Hlt|Hge].
  - rewrite Rltb_true by now apply IZR_lt.
    apply Z.gtb_lt. lia.
  - rewrite Rltb_false by (intros H; apply lt_IZR in H; contradiction).
    destruct (_ >? 0)%Z eqn:H; [|reflexivity].
    apply Z.gtb_lt in H. lia.
Qed.

Lemma newest_first_sorted l :
  StronglySorted (fun a b => (date b <= date a)%Z)
    (Array_sort
       (fun a b => (Date_getTime (date b) - Date_getTime (date a) >? 0)%Z)
       l).
Proof.
  apply (StronglySorted_impl_In
           (fun a b => (IZR (date b) <= IZR (date a))%R)).
  - intros a b _ _ H. now apply le_IZR.
  - apply Array_sort_sorted. intros a b _ _. apply newest_first_key.
Qed.

Lemma hd_error_rev_last {A} (R : A -> A -> Prop) L x :
  StronglySorted R L -> hd_error (rev L) = Some x ->
  In x L /\ forall y, In y L -> y = x \/ R y x.
Proof.
  intros Hs. revert x. induction Hs as [|a L Hs IH Ha]; intros x Hx.
  - discriminate.
  - cbn [rev] in Hx. destruct (rev L) as [|z zs] eqn:Hrev.
    + assert (L = []) by (destruct L; [reflexivity|];
        apply (f_equal (@length A)) in Hrev;
        rewrite length_rev in Hrev; discriminate).
      subst L. cbn in Hx. injection Hx as <-.
      split; [now left|]. intros y [->|[]]. now left.
    + cbn [app hd_error] in Hx. injection Hx as ->.
      destruct (IH x eq_refl) as [Hin Hall].
      split; [now right|]. intros y [<-|Hy].
      * right. rewrite Forall_forall in Ha. now apply Ha.
      * now apply Hall.
Qed.

(** The days since the last log are counted from the earliest log of the
    habit: the array sorted newest first has been reversed in place when
    its first element is read. *)
Theorem daysSinceLastLog_from_earliest :
  forall (env : Env) (habit : Habit) (logs : list HabitLog),
    let stats := calculateHabitStats env habit logs in
    (logsOf habit logs = [] /\ daysSinceLastLog stats = 999%Z) \/
    (exists first,
       In first (logsOf habit logs) /\
       (forall l, In l (logsOf habit logs) -> (date first <= date l)%Z) /\
       daysSinceLastLog stats
       = ((clock env - Date_getTime (date first)) / msPerDay)%Z).
Proof.
  intros env habit logs stats. subst stats.
  unfold calculateHabitStats. cbn [daysSinceLastLog].
  fold (logsOf habit logs).
  set (hl := logsOf habit logs).
  set (L := Array_sort _ hl).
  assert (Hperm : Permutation L hl) by apply Array_sort_perm.
  destruct (hd_error (rev L)) as [first|] eqn:Hfirst.
  - right. exists first.
    destruct (hd_error_rev_last _ L first (newest_first_sorted hl) Hfirst)
      as [Hin Hall].
    split; [eapply Permutation_in; eassumption|]. split; [|reflexivity].
    intros l Hl.
    destruct (Hall l) as [->|Hle]; [|lia|exact Hle].
    eapply Permutation_in; [symmetry; exact Hperm|exact Hl].
  - left. split; [|reflexivity].
    destruct (rev L) as [|z zs] eqn:Hrev; [|discriminate].
    apply (f_equal (@length HabitLog)) in Hrev.
    rewrite length_rev, (Permutation_length Hperm) in Hrev.
    now destruct hl.
Qed.

(** The log that [extractFeatures] reads the context from is a log dated
    on or before the target date and no older than any other such log; it
    is missing exactly when every log is dated after the target date. *)
Theorem recentLogOf_most_recent :
  forall (habitLogs : list HabitLog) (targetDate : Z),
    match recentLogOf habitLogs targetDate with
    | Some recent =>
        In recent habitLogs /\
        (Date_getTime (date recent) <= targetDate)%Z /\
        (forall l, In l habitLogs ->
                   (Date_getTime (date l) <= targetDate)%Z ->
                   (date l <= date recent)%Z)
    | None =>
        forall l, In l habitLogs -> (targetDate < Date_getTime (date l))%Z
    end.
Proof.
  intros habitLogs targetDate. unfold recentLogOf.
  set (before := filter _ habitLogs).
  pose proof (newest_first_sorted before) as Hs.
  pose proof (Array_sort_perm
                (fun a b =>
                   (Date_getTime (date b) - Date_getTime (date a) >? 0)%Z)
                before) as Hperm.
  destruct (Array_sort _ before) as [|recent rest] eqn:Hsort; cbn [hd_error].
  - apply Permutation_nil in Hperm. intros l Hl.
    destruct (Z_lt_dec targetDate (Date_getTime (date l))) as [|Hle]; auto.
    assert (Hin : In l before).
    { apply filter_In. split; [exact Hl|]. apply Z.leb_le. lia. }
    rewrite Hperm in Hin. contradiction.
  - assert (Hin : In recent before).
    { eapply Permutation_in; [exact Hperm|now left]. }
    apply filter_In in Hin. destruct Hin as [Hin Hle].
    apply Z.leb_le in Hle.
    split; [exact Hin|]. split; [exact Hle|].
    intros l Hl Hbefore.
    assert (Hl' : In l (recent :: rest)).
    { eapply Permutation_in; [symmetry; exact Hperm|].
      apply filter_In. split; [exact Hl|]. now apply Z.leb_le. }
    destruct Hl' as [->|Hl']; [lia|].
    apply StronglySorted_inv in Hs. destruct Hs as [_ Hall].
    rewrite Forall_forall in Hall. now apply Hall.
Qed.

(** ** Logging a habit *)

Lemma findIndex_cases {A} (p : A -> bool) (l : list A) :
  match findIndex p l with
  | Some i =>
      exists pre old post,
        l = pre ++ old :: post /\ length pre = i /\ p old = true /\
        Forall (fun x => p x = false) pre
  | None => Forall (fun x => p x = false) l
  end.
Proof.
  induction l as [|a l IH]; cbn [findIndex].
  - constructor.
  - destruct (p a) eqn:Ha.
    + exists [], a, l. repeat split; auto.
    + destruct (findIndex p l) as [i|]; cbn [option_map].
      * destruct IH as (pre & old & post & -> & <- & Hold & Hpre).
        exists (a :: pre), old, post. repeat split; auto.
      * constructor; assumption.
Qed.

Lemma setAt_middle {A} (pre : list A) old v post :
  setAt (length pre) v (pre ++ old :: post) = pre ++ v :: post.
Proof.
  induction pre as [|a pre IH]; cbn [length app setAt]; [reflexivity|].
  now rewrite IH.
Qed.

Lemma nth_error_middle {A} (pre : list A) old post :
  nth_error (pre ++ old :: post) (length pre) = Some old.
Proof.
  induction pre as [|a pre IH]; cbn [length app nth_error]; auto.
Qed.

Lemma find_skip {A} (p : A -> bool) pre rest :
  Forall (fun x => p x = false) pre -> find p (pre ++ rest) = find p rest.
Proof.
  induction 1 as [|a pre Ha _ IH]; cbn [app find]; [reflexivity|].
  now rewrite Ha.
Qed.

(** The two ways [logHabit] changes the logs: the first log of the habit
    for today is replaced in place, or a new log is appended. *)
Lemma logHabit_logs env newId data hid done contextData :
  let isToday := isLogOf hid (getTodayString env) in
  (exists pre old post,
     d_logs data = pre ++ old :: post /\
     Forall (fun x => isToday x = false) pre /\
     isToday old = true /\
     d_logs (logHabit env newId data hid done contextData)
     = pre ++ entryOf env (log_id old) hid done contextData :: post) \/
  (Forall (fun x => isToday x = false) (d_logs data) /\
   d_logs (logHabit env newId data hid done contextData)
   = d_logs data ++ [entryOf env newId hid done contextData]).
Proof.
  intros isToday. unfold logHabit. cbn [d_logs].
  change (fun log => String.eqb (habitId log) hid
                     && (date log =? getTodayString env)%Z) with isToday.
  pose proof (findIndex_cases isToday (d_logs data)) as H.
  destruct (findIndex isToday (d_logs data)) as [i|].
  - left. destruct H as (pre & old & post & Hl & <- & Hold & Hpre).
    exists pre, old, post. rewrite Hl at 1 2.
    rewrite nth_error_middle, Hl, setAt_middle.
    pose proof Hold as Hold'.
    unfold isToday, isLogOf in Hold'. apply andb_prop in Hold'.
    destruct Hold' as [Hid Hday].
    apply String.eqb_eq in Hid. apply Z.eqb_eq in Hday.
    repeat split; auto. unfold entryOf. now rewrite Hid, Hday.
  - right. split; [exact H|reflexivity].
Qed.

Lemma isLogOf_entryOf env entryId hid done contextData :
  isLogOf hid (getTodayString env) (entryOf env entryId hid done contextData)
  = true.
Proof.
  unfold isLogOf, entryOf. cbn [habitId date].
  now rewrite String.eqb_refl, Z.eqb_refl.
Qed.

(** After [logHabit], the log found for the habit and today carries what
    was just entered: the completion flag, the context fields (absent when
    no context was given) and the time of the entry. *)
Theorem logHabit_then_lookup :
  forall (env : Env) (newId : string) (data : AppData) (hid : string)
         (done : bool) (contextData : option ContextData),
    let logs' := d_logs (logHabit env newId data hid done contextData) in
    isHabitLoggedToday env hid logs' = true /\
    exists log,
      getHabitLogForDate hid (getTodayString env) logs' = Some log /\
      habitId log = hid /\ date log = getTodayString env /\
      completed log = done /\
      mood log = contextField contextData c_mood /\
      sleepHours log = contextField contextData c_sleepHours /\
      energyLevel log = contextField contextData c_energyLevel /\
      stressLevel log = contextField contextData c_stressLevel /\
      weather log = contextField contextData c_weather /\
      loggedAt log = clock env.
Proof.
  intros env newId data hid done contextData logs'.
  assert (Hfound : exists log,
             getHabitLogForDate hid (getTodayString env) logs' = Some log /\
             habitId log = hid /\ date log = getTodayString env /\
             completed log = done /\
             mood log = contextField contextData c_mood /\
             sleepHours log = contextField contextData c_sleepHours /\
             energyLevel log = contextField contextData c_energyLevel /\
             stressLevel log = contextField contextData c_stressLevel /\
             weather log = contextField contextData c_weather /\
             loggedAt log = clock env).
  { subst logs'. unfold getHabitLogForDate.
    change (fun log => String.eqb (habitId log) hid
                       && (date log =? getTodayString env)%Z)
      with (isLogOf hid (getTodayString env)).
    destruct (logHabit_logs env newId data hid done contextData)
      as [(pre & old & post & _ & Hpre & _ & ->)|[Hall ->]].
    - rewrite find_skip by exact Hpre. cbn [find].
      rewrite isLogOf_entryOf.
      eexists. split; [reflexivity|]. cbn. repeat split.
    - rewrite find_skip by exact Hall. cbn [find].
      rewrite isLogOf_entryOf.
      eexists. split; [reflexivity|]. cbn. repeat split. }
  split; [|exact Hfound].
  destruct Hfound as (log & Hfind & _).
  unfold isHabitLoggedToday. unfold getHabitLogForDate in Hfind.
  apply find_some in Hfind. destruct Hfind as [Hin Hp].
  apply existsb_exists. exists log. split; assumption.
Qed.

Lemma logKey_isLogOf hid day log :
  isLogOf hid day log = true <-> logKey log = (hid, day).
Proof.
  unfold isLogOf, logKey. rewrite andb_true_iff, String.eqb_eq, Z.eqb_eq.
  split; [intros [-> ->]; reflexivity|intros H; now inversion H].
Qed.

Lemma isLogOf_not_in hid day l :
  Forall (fun x => isLogOf hid day x = false) l ->
  ~ In (hid, day) (map logKey l).
Proof.
  intros Hall Hin. apply in_map_iff in Hin. destruct Hin as (x & Hx & Hin).
  rewrite Forall_forall in Hall. specialize (Hall x Hin).
  apply logKey_isLogOf in Hx. congruence.
Qed.

(** [logHabit] keeps one log per habit and day: logging a habit that has a
    log for today rewrites that log where it stands, logging it for the
    first time today appends one log; the habits, the logs of other habits
    and days and their order are untouched. *)
Theorem logHabit_one_log_per_day :
  forall (env : Env) (newId : string) (data : AppData) (hid : string)
         (done : bool) (contextData : option ContextData),
    let today := getTodayString env in
    let data' := logHabit env newId data hid done contextData in
    d_habits data' = d_habits data /\
    hasCompletedOnboarding data' = hasCompletedOnboarding data /\
    (if isHabitLoggedToday env hid (d_logs data)
     then map logKey (d_logs data') = map logKey (d_logs data)
     else d_logs data' = d_logs data ++ [entryOf env newId hid done contextData]) /\
    filter (fun log => negb (isLogOf hid today log)) (d_logs data')
    = filter (fun log => negb (isLogOf hid today log)) (d_logs data) /\
    (NoDup (map logKey (d_logs data)) -> NoDup (map logKey (d_logs data'))).
Proof.
  intros env newId data hid done contextData today data'.
  split; [reflexivity|]. split; [reflexivity|].
  unfold isHabitLoggedToday.
  change (fun log => String.eqb (habitId log) hid
                     && (date log =? getTodayString env)%Z)
    with (isLogOf hid today).
  subst data' today.
  destruct (logHabit_logs env newId data hid done contextData)
    as [(pre & old & post & Hl & Hpre & Hold & ->)|[Hall ->]].
  - assert (Hkeys : map logKey (pre ++ entryOf env (log_id old) hid done
                                        contextData :: post)
                    = map logKey (d_logs data)).
    { rewrite Hl, !map_app. cbn [map]. do 2 f_equal.
      apply logKey_isLogOf in Hold. now rewrite Hold. }
    split; [|split].
    + replace (existsb (isLogOf hid (getTodayString env)) (d_logs data)) with true;
        [exact Hkeys|].
      symmetry. apply existsb_exists. exists old. split; [|exact Hold].
      rewrite Hl. apply in_elt.
    + rewrite Hl, !filter_app. cbn [filter].
      rewrite Hold. rewrite isLogOf_entryOf. reflexivity.
    + now rewrite Hkeys.
  - assert (Hnone : existsb (isLogOf hid (getTodayString env)) (d_logs data) = false).
    { destruct (existsb _ _) eqn:He; [|reflexivity].
      apply existsb_exists in He. destruct He as (x & Hin & Hx).
      rewrite Forall_forall in Hall. rewrite (Hall x Hin) in Hx.
      discriminate. }
    rewrite Hnone. split; [reflexivity|]. split.
    + rewrite filter_app. cbn [filter].
      rewrite isLogOf_entryOf. cbn [negb]. apply app_nil_r.
    + intros Hnd. rewrite map_app. cbn [map].
      apply NoDup_app; [exact Hnd|repeat constructor; intros []|].
      intros k Hk [<-|[]]. revert Hk. now apply isLogOf_not_in.
Qed.

Lemma findIndex_middle {A} (p : A -> bool) pre x post :
  Forall (fun y => p y = false) pre -> p x = true ->
  findIndex p (pre ++ x :: post) = Some (length pre).
Proof.
  intros Hpre Hx. induction Hpre as [|a pre Ha _ IH]; cbn [app findIndex].
  - now rewrite Hx.
  - now rewrite Ha, IH.
Qed.

Lemma logHabit_replace env newId data hid done contextData pre old post :
  d_logs data = pre ++ old :: post ->
  Forall (fun x => isLogOf hid (getTodayString env) x = false) pre ->
  isLogOf hid (getTodayString env) old = true ->
  d_logs (logHabit env newId data hid done contextData)
  = pre ++ entryOf env (log_id old) hid done contextData :: post.
Proof.
  intros Hl Hpre Hold. unfold logHabit. cbn [d_logs].
  change (fun log => String.eqb (habitId log) hid
                     && (date log =? getTodayString env)%Z)
    with (isLogOf hid (getTodayString env)).
  rewrite Hl, (findIndex_middle _ _ _ _ Hpre Hold).
  rewrite nth_error_middle, setAt_middle.
  apply logKey_isLogOf in Hold. unfold logKey in Hold.
  injection Hold as Hid Hday. unfold entryOf. now rewrite Hid, Hday.
Qed.

Lemma logHabit_rest env newId data hid done contextData :
  logHabit env newId data hid done contextData
  = {| d_habits := d_habits data;
       d_logs := d_logs (logHabit env newId data hid done contextData);
       hasCompletedOnboarding := hasCompletedOnboarding data;
       lastTrainingDate := lastTrainingDate data;
       mlModelState := mlModelState data |}.
Proof. reflexivity. Qed.

(** Logging a habit again on the same day overwrites the first entry:
    the data are what the second entry alone would have produced, with
    the identifier of the log that was there first. *)
Theorem logHabit_last_entry_wins :
  forall (env1 env2 : Env) (id1 id2 : string) (data : AppData)
         (hid : string) (done1 done2 : bool)
         (context1 context2 : option ContextData),
    getTodayString env2 = getTodayString env1 ->
    logHabit env2 id2 (logHabit env1 id1 data hid done1 context1)
             hid done2 context2
    = logHabit env2 id1 data hid done2 context2.
Proof.
  intros e1 e2 id1 id2 data hid done1 done2 c1 c2 Hday.
  rewrite (logHabit_rest e2 id2), (logHabit_rest e2 id1).
  cbn [d_habits hasCompletedOnboarding lastTrainingDate mlModelState].
  f_equal.
  destruct (logHabit_logs e1 id1 data hid done1 c1)
    as [(pre & old & post & Hl & Hpre & Hold & Hlogs)|[Hall Hlogs]].
  - rewrite (logHabit_replace e2 id2 _ hid done2 c2 pre
               (entryOf e1 (log_id old) hid done1 c1) post Hlogs).
    + rewrite (logHabit_replace e2 id1 data hid done2 c2 pre old post Hl).
      * reflexivity.
      * now rewrite Hday.
      * now rewrite Hday.
    + now rewrite Hday.
    + rewrite Hday. apply isLogOf_entryOf.
  - rewrite (logHabit_replace e2 id2 _ hid done2 c2 (d_logs data)
               (entryOf e1 id1 hid done1 c1) [] Hlogs).
    + destruct (logHabit_logs e2 id1 data hid done2 c2)
        as [(pre & old & post & Hl & _ & Hold & _)|[_ ->]].
      * exfalso. cbn zeta in Hold. rewrite Hday in Hold.
        rewrite Forall_forall in Hall.
        rewrite (Hall old) in Hold; [discriminate|].
        rewrite Hl. apply in_elt.
      * reflexivity.
    + now rewrite Hday.
    + rewrite Hday. apply isLogOf_entryOf.
Qed.

Lemma logHabit_last_entry_wins_witness :
  getTodayString {| clock := Date_getTime 9 + 72000000; utcOffset := 0 |}
  = getTodayString day9 /\
  logHabit {| clock := Date_getTime 9 + 72000000; utcOffset := 0 |} "b"
    (logHabit day9 "a" (mkAppData [meditation] meditationLogs true None None)
       "meditation" false None)
    "meditation" true None
  = logHabit {| clock := Date_getTime 9 + 72000000; utcOffset := 0 |} "a"
      (mkAppData [meditation] meditationLogs true None None)
      "meditation" true None.
Proof.
  split; [reflexivity|].
  apply logHabit_last_entry_wins. reflexivity.
Defined.

(** ** Performance summaries *)







Lemma StronglySorted_app {A} (R : A -> A -> Prop) l1 l2 :
  StronglySorted R (l1 ++ l2) ->
  StronglySorted R l1 /\ forall a b, In a l1 -> In b l2 -> R a b.
Proof.
  induction l1 as [|x l1 IH]; cbn [app]; intros Hs.
  - split; [constructor|intros a b []].
  - apply StronglySorted_inv in Hs. destruct Hs as [Hs Hx].
    destruct (IH Hs) as [Hs1 Hcross]. rewrite Forall_forall in Hx.
    split.
    + constructor; [exact Hs1|]. apply Forall_forall. intros y Hy.
      apply Hx, in_or_app. now left.
    + intros a b [<-|Ha] Hb; [|now apply Hcross].
      apply Hx, in_or_app. now right.
Qed.

(** The recent logs of a habit's performance are its ten newest logs (all
    of them when there are fewer), newest first: no log of the habit that
    is left out is newer than one that is shown. *)
Theorem getHabitPerformance_recentLogs :
  forall (env : Env) (habit : Habit) (logs : list HabitLog),
    let recent := recentLogs (getHabitPerformance env habit logs) in
    length recent = Nat.min 10 (length (logsOf habit logs)) /\
    StronglySorted (fun a b => (date b <= date a)%Z) recent /\
    exists older,
      Permutation (recent ++ older) (logsOf habit logs) /\
      forall shown hidden,
        In shown recent -> In hidden older ->
        (date hidden <= date shown)%Z.
Proof.
  intros env habit logs recent. subst recent.
  unfold getHabitPerformance. cbn [recentLogs]. fold (logsOf habit logs).
  set (hl := logsOf habit logs).
  pose proof (newest_first_sorted hl) as Hs.
  pose proof (Array_sort_perm
                (fun a b =>
                   (Date_getTime (date b) - Date_getTime (date a) >? 0)%Z)
                hl) as Hperm.
  set (S := Array_sort _ hl) in *.
  unfold slice. cbn [skipn Nat.sub].
  rewrite <- (firstn_skipn 10 S) in Hs.
  apply StronglySorted_app in Hs. destruct Hs as [Hs Hcross].
  split; [|split].
  - rewrite length_firstn. now rewrite (Permutation_length Hperm).
  - exact Hs.
  - exists (skipn 10 S). split; [|exact Hcross].
    rewrite firstn_skipn. exact Hperm.
Qed.

Lemma sum_successRates (statsList : list HabitStats) :
  Forall (fun stats => in_unit (successRate stats)) statsList ->
  forall r0 : R,
    exists r,
      fold_left (fun sum stats => (sum + successRate stats)%num) statsList
                (JS.Fin r0)
      = JS.Fin r /\ (r0 <= r <= r0 + INR (length statsList))%R.
Proof.
  induction 1 as [|stats rest Hs _ IH]; intros r0.
  - exists r0. cbn [fold_left length INR]. split; [reflexivity|lra].
  - destruct Hs as (s & Hs & Hrange). cbn [fold_left]. rewrite Hs.
    cbn [JS.add]. destruct (IH (r0 + s)%R) as (r & -> & Hr).
    exists r. split; [reflexivity|].
    change (length (stats :: rest)) with (S (length rest)).
    rewrite S_INR. lra.
Qed.

Lemma fold_left_add_le {A} (f g : A -> nat) l :
  (forall x, In x l -> (f x <= g x)%nat) ->
  forall a b, (a <= b)%nat ->
  (fold_left (fun sum x => (sum + f x)%nat) l a
   <= fold_left (fun sum x => (sum + g x)%nat) l b)%nat.
Proof.
  induction l as [|x l IH]; intros Hle a b Hab; cbn [fold_left]; [exact Hab|].
  apply IH; [intros y Hy; apply Hle; now right|].
  specialize (Hle x (or_introl eq_refl)). lia.
Qed.

Lemma fold_right_max_ge l n :
  In n l -> (n <= fold_right Nat.max 0%nat l)%nat.
Proof.
  induction l as [|a l IH]; cbn [fold_right]; intros [].
  - subst. lia.
  - specialize (IH H). lia.
Qed.

(** The overall performance counts the active habits only: the completed
    logs never exceed the logs, the habits on a streak never exceed the
    habits, the average success rate lies in [0, 1] and the longest streak
    is at least that of every active habit. With no active habit every
    figure is 0. *)
Theorem getOverallPerformance_consistent :
  forall (env : Env) (habits : list Habit) (logs : list HabitLog),
    let overall := getOverallPerformance env habits logs in
    o_totalHabits overall = length (filter isActive habits) /\
    (o_completedLogs overall <= o_totalLogs overall)%nat /\
    (o_activeStreaks overall <= o_totalHabits overall)%nat /\
    in_unit (o_averageSuccessRate overall) /\
    (forall habit,
       In habit habits -> isActive habit = true ->
       (longestStreak (calculateHabitStats env habit logs)
        <= o_longestStreak overall)%nat) /\
    (o_totalHabits overall = 0%nat ->
     o_totalLogs overall = 0%nat /\ o_longestStreak overall = 0%nat /\
     o_averageSuccessRate overall = (#0)%num).
Proof.
  intros env habits logs overall. subst overall.
  unfold getOverallPerformance.
  set (active := filter isActive habits).
  destruct (length active =? 0)%nat eqn:Hn.
  - apply Nat.eqb_eq in Hn. cbn. rewrite Hn.
    repeat split; try lia; try apply in_unit_0.
    intros habit Hin Hact.
    assert (Hin' : In habit active) by (apply filter_In; auto).
    destruct active; [contradiction|discriminate].
  - apply Nat.eqb_neq in Hn.
    cbn [o_totalHabits o_completedLogs o_totalLogs o_activeStreaks
         o_averageSuccessRate o_longestStreak].
    set (statsList := map _ active).
    split; [reflexivity|]. split; [|split; [|split; [|split]]].
    + apply fold_left_add_le; [|lia]. intros stats Hin.
      apply in_map_iff in Hin. destruct Hin as (habit & <- & _).
      unfold calculateHabitStats. cbn [completedLogs totalLogs].
      apply filter_length_le.
    + etransitivity; [apply filter_length_le|].
      subst statsList. now rewrite length_map.
    + destruct (sum_successRates statsList) with (r0 := 0%R)
        as (r & Hr & Hrange).
      { apply Forall_forall. intros stats Hin.
        apply in_map_iff in Hin. destruct Hin as (habit & <- & _).
        apply successRate_in_unit. }
      change (#0)%num with (JS.Fin 0). rewrite Hr.
      assert (Hlen : length statsList = length active)
        by (subst statsList; apply length_map).
      rewrite Hlen in Hrange.
      assert (Hpos : (0 < INR (length active))%R) by (apply lt_0_INR; lia).
      unfold JS.of_nat. cbn [JS.div]. rewrite Reqb_false by lra.
      eexists. split; [reflexivity|]. split.
      * apply Rmult_le_pos; [lra|]. left. now apply Rinv_0_lt_compat.
      * apply (Rmult_le_reg_r (INR (length active))); [assumption|].
        unfold Rdiv. rewrite Rmult_assoc, Rinv_l by lra. lra.
    + intros habit Hin Hact. apply fold_right_max_ge.
      apply in_map. subst statsList.
      apply (in_map (fun habit => calculateHabitStats env habit logs)).
      apply filter_In. auto.
    + intros H. contradiction.
Qed.

(** ** Logistic regression *)

Lemma finite_add x y : finite x -> finite y -> finite (x + y)%num.
Proof. intros [a ->] [b ->]. eexists; reflexivity. Qed.

Lemma finite_sub x y : finite x -> finite y -> finite (x - y)%num.
Proof. intros [a ->] [b ->]. eexists; reflexivity. Qed.

Lemma finite_mul x y : finite x -> finite y -> finite (x * y)%num.
Proof. intros [a ->] [b ->]. eexists; reflexivity. Qed.

Lemma finite_div_nat x n :
  finite x -> (0 < n)%nat -> finite (x / JS.of_nat n)%num.
Proof.
  intros Hx Hn. apply finite_div_const; [exact Hx|].
  apply not_0_INR. lia.
Qed.

Lemma in_unit_finite x : in_unit x -> finite x.
Proof. intros (r & -> & _). eexists; reflexivity. Qed.

Lemma at_finite l i :
  Forall finite l -> (i < length l)%nat -> finite (at_ l i).
Proof.
  intros Hl Hi. unfold at_. rewrite Forall_forall in Hl.
  apply Hl, nth_In, Hi.
Qed.

Lemma clamp_500 z :
  z <> JS.NaN ->
  exists c, JS.max (#(-500)) (JS.min #500 z) = JS.Fin c.
Proof.
  intros Hz. destruct z as [| | |r]; [congruence| | |].
  - exists 500%R. cbn [JS.min JS.ltb JS.max]. Rdecide. reflexivity.
  - exists (-500)%R. reflexivity.
  - cbn [JS.min JS.ltb]. unfold JS.Rltb at 1.
    destruct (Rlt_dec r 500); cbn [JS.max JS.ltb]; unfold JS.Rltb;
      match goal with |- context [Rlt_dec ?a ?b] => destruct (Rlt_dec a b) end;
      eexists; reflexivity.
Qed.

Lemma sigmoid_in_unit z : z <> JS.NaN -> in_unit (sigmoid z).
Proof.
  intros Hz. unfold sigmoid. destruct (clamp_500 z Hz) as [c ->].
  cbn [JS.neg JS.exp JS.add JS.div].
  pose proof (exp_pos (- c)) as Hexp.
  rewrite Reqb_false by lra.
  eexists. split; [reflexivity|]. split.
  - apply Rmult_le_pos; [lra|]. left. apply Rinv_0_lt_compat. lra.
  - apply (Rmult_le_reg_r (1 + exp (- c))); [lra|].
    unfold Rdiv. rewrite Rmult_assoc, Rinv_l by lra. lra.
Qed.

Lemma dot_from_finite ws x : forall acc i,
  Forall finite ws -> finite acc -> Forall finite x ->
  (i + length x <= length ws)%nat ->
  finite (dot_from ws acc i x).
Proof.
  induction x as [|f x IH]; intros acc i Hws Hacc Hx Hlen;
    cbn [dot_from]; [exact Hacc|].
  apply Forall_cons_iff in Hx. destruct Hx as [Hf Hx].
  cbn [length] in Hlen.
  apply IH; auto; [|lia].
  apply finite_add; [exact Hacc|].
  apply finite_mul; [exact Hf|]. apply at_finite; [exact Hws|lia].
Qed.

Lemma finite_not_NaN x : finite x -> x <> JS.NaN.
Proof. intros [r ->]. discriminate. Qed.

Lemma LR_predict_finite_model lr x :
  Forall finite (weights lr) -> finite (bias lr) -> Forall finite x ->
  (length x <= length (weights lr))%nat ->
  in_unit (LR_predict lr x).
Proof.
  intros Hw Hb Hx Hlen. unfold LR_predict.
  apply sigmoid_in_unit, finite_not_NaN, dot_from_finite; auto.
Qed.


(** What training needs of its data: [numFeatures] finite numbers in each
    row, and a finite label for each row. *)
Lemma gradient_fold_finite features labels predictions numFeatures :
  Forall (fun f => length f = numFeatures /\ Forall finite f) features ->
  Forall finite labels -> (length features <= length labels)%nat ->
  Forall finite predictions -> length predictions = length features ->
  forall idx acc,
    (forall i, In i idx -> (i < length features)%nat) ->
    length (fst acc) = numFeatures /\ Forall finite (fst acc) /\
    finite (snd acc) ->
    let acc' :=
      fold_left (LR_gradient_step features labels predictions numFeatures)
                idx acc in
    length (fst acc') = numFeatures /\ Forall finite (fst acc') /\
    finite (snd acc').
Proof.
  intros Hrows Hlabels Hlen Hpred Hplen.
  induction idx as [|i idx IH]; intros acc Hidx Hacc; cbn [fold_left];
    [exact Hacc|].
  apply IH; [intros j Hj; apply Hidx; now right|].
  specialize (Hidx i (or_introl eq_refl)).
  destruct acc as [wg bg]. destruct Hacc as (Hwl & Hwg & Hbg).
  cbn [fst snd] in *. unfold LR_gradient_step. cbn [fst snd].
  assert (Herr : finite (at_ predictions i - at_ labels i)%num).
  { apply finite_sub; apply at_finite; auto; lia. }
  split; [now rewrite length_map, length_seq|]. split.
  - apply Forall_forall. intros v Hv. apply in_map_iff in Hv.
    destruct Hv as (j & <- & Hj). apply in_seq in Hj.
    apply finite_add; [apply at_finite; auto; lia|].
    apply finite_mul; [exact Herr|].
    rewrite Forall_forall in Hrows.
    destruct (Hrows (nth i features [])) as [Hrl Hrf];
      [apply nth_In; exact Hidx|].
    apply at_finite; [exact Hrf|lia].
  - now apply finite_add.
Qed.

Lemma LR_iteration_finite features labels numFeatures lr :
  features <> [] ->
  Forall (fun f => length f = numFeatures /\ Forall finite f) features ->
  Forall finite labels -> (length features <= length labels)%nat ->
  length (weights lr) = numFeatures /\ Forall finite (weights lr) /\
  finite (bias lr) /\ finite (learningRate lr) ->
  let lr' := LR_iteration features labels numFeatures lr in
  (length (weights lr') = numFeatures /\ Forall finite (weights lr') /\
   finite (bias lr') /\ finite (learningRate lr')) /\
  learningRate lr' = learningRate lr /\ iterations lr' = iterations lr.
Proof.
  intros Hne Hrows Hlabels Hlen (Hwl & Hw & Hb & Hrate).
  unfold LR_iteration.
  assert (Hpred : Forall finite (map (LR_predict lr) features)).
  { apply Forall_forall. intros v Hv. apply in_map_iff in Hv.
    destruct Hv as (f & <- & Hf). rewrite Forall_forall in Hrows.
    destruct (Hrows f Hf) as [Hfl Hff].
    apply in_unit_finite, LR_predict_finite_model; auto. lia. }
  pose proof (gradient_fold_finite features labels
                (map (LR_predict lr) features) numFeatures
                Hrows Hlabels Hlen Hpred (length_map _ _)
                (seq 0 (length features))
                (repeat (#0)%num numFeatures, (#0)%num)) as Hfold.
  cbv zeta in Hfold.
  destruct (fold_left _ _ _) as [wg bg].
  destruct Hfold as (Hgl & Hg & Hbg).
  { intros i Hi. apply in_seq in Hi. lia. }
  { cbn [fst snd]. split; [apply repeat_length|]. split.
    - apply Forall_forall. intros v Hv. apply repeat_spec in Hv.
      subst v. eexists; reflexivity.
    - eexists; reflexivity. }
  cbn [fst snd] in *.
  cbn [weights bias learningRate iterations].
  assert (Hn : (0 < length features)%nat)
    by (destruct features; [congruence|cbn [length]; lia]).
  repeat split; auto.
  - now rewrite length_map, length_seq.
  - apply Forall_forall. intros v Hv. apply in_map_iff in Hv.
    destruct Hv as (j & <- & Hj). apply in_seq in Hj.
    apply finite_sub; [apply at_finite; auto; lia|].
    apply finite_div_nat; [|exact Hn].
    apply finite_mul; [exact Hrate|]. apply at_finite; auto; lia.
  - apply finite_sub; [exact Hb|].
    apply finite_div_nat; [|exact Hn]. now apply finite_mul.
Qed.

Lemma LR_iterate_finite features labels numFeatures lr n :
  features <> [] ->
  Forall (fun f => length f = numFeatures /\ Forall finite f) features ->
  Forall finite labels -> (length features <= length labels)%nat ->
  length (weights lr) = numFeatures /\ Forall finite (weights lr) /\
  finite (bias lr) /\ finite (learningRate lr) ->
  let lr' := Nat.iter n (LR_iteration features labels numFeatures) lr in
  (length (weights lr') = numFeatures /\ Forall finite (weights lr') /\
   finite (bias lr') /\ finite (learningRate lr')) /\
  learningRate lr' = learningRate lr /\ iterations lr' = iterations lr.
Proof.
  intros Hne Hrows Hlabels Hlen Hlr.
  induction n as [|n IH]; cbn [Nat.iter]; [auto|].
  cbv zeta in IH. destruct IH as (Hok & Hrate & Hiter).
  destruct (LR_iteration_finite features labels numFeatures _
              Hne Hrows Hlabels Hlen Hok) as (Hok' & Hrate' & Hiter').
  split; [exact Hok'|].
  split; [etransitivity; [exact Hrate'|exact Hrate]
        |etransitivity; [exact Hiter'|exact Hiter]].
Qed.

(** Training the logistic regression on rows of finite numbers of one
    length, each with a finite label, gives one finite weight per feature
    and a finite bias, and keeps the learning rate and the number of
    iterations: the trained model then predicts a probability in [0, 1]
    for every finite feature vector it has weights for. *)
Theorem LR_train_finite_data :
  forall (lr : LogisticRegression) (first : list JS.num)
         (rest : list (list JS.num)) (labels : list JS.num),
    finite (learningRate lr) ->
    Forall (fun f => length f = length first /\ Forall finite f)
           (first :: rest) ->
    Forall finite labels ->
    (length (first :: rest) <= length labels)%nat ->
    let trained := LR_train lr (first :: rest) labels in
    length (weights trained) = length first /\
    Forall finite (weights trained) /\ finite (bias trained) /\
    learningRate trained = learningRate lr /\
    iterations trained = iterations lr /\
    forall x, Forall finite x -> (length x <= length first)%nat ->
              in_unit (LR_predict trained x).
Proof.
  intros lr first rest labels Hrate Hrows Hlabels Hlen trained.
  subst trained. unfold LR_train.
  set (lr0 := {| weights := repeat (#0)%num (length first);
                 bias := (#0)%num; learningRate := learningRate lr;
                 iterations := iterations lr |}).
  destruct (LR_iterate_finite (first :: rest) labels (length first) lr0
              (iterations lr)) as ((Hwl & Hw & Hb & _) & Hr & Hi); auto.
  { discriminate. }
  { subst lr0. cbn [weights bias learningRate].
    split; [apply repeat_length|]. split; [|split; auto].
    - apply Forall_forall. intros v Hv. apply repeat_spec in Hv.
      subst v. eexists; reflexivity.
    - eexists; reflexivity. }
  cbv zeta in *.
  repeat split; auto.
  intros x Hx Hxl. apply LR_predict_finite_model; auto. lia.
Qed.

Lemma LR_train_finite_data_witness :
  let lr := LR_new (#0.01)%num 2 in
  let trained := LR_train lr [[#1; #0]; [#0; #1]]%num [#1; #0]%num in
  length (weights trained) = 2%nat /\
  finite (bias trained) /\
  in_unit (LR_predict trained [#1; #1]%num).
Proof.
  intros lr trained.
  destruct (LR_train_finite_data lr [#1; #0]%num [[#0; #1]]%num
              [#1; #0]%num)
    as (Hl & _ & Hb & _ & _ & Hp).
  - eexists; reflexivity.
  - repeat constructor; eexists; reflexivity.
  - repeat constructor; eexists; reflexivity.
  - cbn [length]. lia.
  - split; [exact Hl|]. split; [exact Hb|].
    apply Hp; [repeat constructor; eexists; reflexivity|cbn [length]; lia].
Defined.

(** ** Decision tree *)

Lemma findBestSplit_step_separates features labels numFeatures k values
      best i :
  (k < numFeatures)%nat ->
  separates features numFeatures best ->
  separates features numFeatures
    (findBestSplit_step features labels k values best i).
Proof.
  intros Hk Hbest. unfold findBestSplit_step.
  destruct (splitIndices features k _) as [L R] eqn:Hsplit.
  destruct ((length L =? 0)%nat || (length R =? 0)%nat) eqn:Hempty;
    [exact Hbest|].
  destruct (_ <? bestGini best)%num; [|exact Hbest].
  right. exists k. cbn [bestFeatureIndex bestThreshold].
  rewrite Hsplit. cbn [fst snd].
  apply orb_false_elim in Hempty. destruct Hempty as [HL HR].
  apply Nat.eqb_neq in HL, HR.
  repeat split; auto; intros ->; cbn [length] in *; congruence.
Qed.

Lemma fold_left_invariant {A B} (P : A -> Prop) (f : A -> B -> A) l :
  (forall a b, In b l -> P a -> P (f a b)) ->
  forall a, P a -> P (fold_left f l a).
Proof.
  induction l as [|b l IH]; intros Hf a Ha; cbn [fold_left]; [exact Ha|].
  apply IH; [intros a' b' Hb'; apply Hf; now right|].
  apply Hf; [now left|exact Ha].
Qed.

Lemma findBestSplit_sound features labels k threshold gini :
  findBestSplit features labels = Some (k, threshold, gini) ->
  (k < match features with f :: _ => length f | [] => 0 end)%nat /\
  fst (splitIndices features k threshold) <> [] /\
  snd (splitIndices features k threshold) <> [].
Proof.
  unfold findBestSplit.
  set (numFeatures := match features with f :: _ => length f | [] => 0 end).
  set (best := fold_left _ (seq 0 numFeatures) _).
  assert (Hbest : separates features numFeatures best).
  { subst best. apply fold_left_invariant.
    - intros b k' Hk' Hb. apply in_seq in Hk'.
      apply fold_left_invariant; [|exact Hb].
      intros b' i _ Hb'. apply findBestSplit_step_separates; [lia|exact Hb'].
    - left. reflexivity. }
  destruct (bestFeatureIndex best >=? 0)%Z eqn:Hge; [|discriminate].
  intros H. injection H as <- <- <-.
  destruct Hbest as [Hnone|(k & Hk & Hlt & HL & HR)].
  - rewrite Hnone in Hge. discriminate.
  - rewrite Hk, Nat2Z.id. auto.
Qed.

Lemma splitIndices_lengths features k threshold :
  (length (fst (splitIndices features k threshold))
   + length (snd (splitIndices features k threshold))
   = length features)%nat /\
  (forall i, In i (fst (splitIndices features k threshold)) ->
             (i < length features)%nat) /\
  (forall i, In i (snd (splitIndices features k threshold)) ->
             (i < length features)%nat).
Proof.
  unfold splitIndices.
  destruct (partition _ (seq 0 (length features))) as [L R] eqn:Hp.
  cbn [fst snd]. split; [|split].
  - apply partition_length in Hp. rewrite length_seq in Hp. lia.
  - intros i Hi.
    assert (In i (seq 0 (length features))) as Hin.
    { eapply elements_in_partition; [exact Hp|]. now left. }
    apply in_seq in Hin. lia.
  - intros i Hi.
    assert (In i (seq 0 (length features))) as Hin.
    { eapply elements_in_partition; [exact Hp|]. now right. }
    apply in_seq in Hin. lia.
Qed.

Lemma rows_of_indices (features : list (list JS.num)) n idx :
  Forall (fun f => length f = n) features ->
  (forall i, In i idx -> (i < length features)%nat) ->
  Forall (fun f => length f = n) (map (fun i => nth i features []) idx).
Proof.
  intros Hrows Hidx. apply Forall_forall. intros f Hf.
  apply in_map_iff in Hf. destruct Hf as (i & <- & Hi).
  rewrite Forall_forall in Hrows. apply Hrows, nth_In, Hidx, Hi.
Qed.

(** The tree that [buildTree] grows from the depth [depth] has at most
    [maxDepth - depth] levels of splits and no more leaves than there are
    samples: every split sends at least one sample each way. When the rows
    all have [n] features, every split tests one of them. *)
Theorem buildTree_shape :
  forall (dt : DecisionTree) (features : list (list JS.num))
         (labels : list JS.num) (depth : nat),
    let tree := buildTree dt features labels depth in
    (treeDepth tree <= maxDepth dt - depth)%nat /\
    (leaves tree <= Nat.max 1 (length features))%nat /\
    (forall n, Forall (fun f => length f = n) features ->
               splitsWithin n tree).
Proof.
  intros dt features labels depth. unfold buildTree.
  generalize (maxDepth dt - depth)%nat as levels.
  generalize (minSamples dt) as minSamples.
  intros minSamples levels. revert features labels.
  induction levels as [|levels IH]; intros features labels;
    cbn [buildTree_levels].
  - cbn [treeDepth leaves splitsWithin]; split; [lia|split; [lia|intros; exact I]].
  - destruct (_ || _);
      [cbn [treeDepth leaves splitsWithin]; split; [lia|split; [lia|intros; exact I]]|].
    destruct (findBestSplit features labels) as [[[k threshold] gini]|] eqn:Hb;
      [|cbn [treeDepth leaves splitsWithin]; split; [lia|split; [lia|intros; exact I]]].
    apply findBestSplit_sound in Hb. destruct Hb as (Hk & HL & HR).
    destruct (splitIndices_lengths features k threshold)
      as (Hlen & HinL & HinR).
    destruct (splitIndices features k threshold) as [L R].
    cbn [fst snd] in *.
    destruct (IH (map (fun i => nth i features []) L) (map (at_ labels) L))
      as (HdL & HlL & HsL).
    destruct (IH (map (fun i => nth i features []) R) (map (at_ labels) R))
      as (HdR & HlR & HsR).
    cbv zeta in *. rewrite length_map in HlL, HlR.
    assert (1 <= length L)%nat by (destruct L; [congruence|cbn; lia]).
    assert (1 <= length R)%nat by (destruct R; [congruence|cbn; lia]).
    cbn [treeDepth leaves splitsWithin].
    split; [lia|]. split; [lia|].
    intros n Hrows. split; [|split].
    + destruct features as [|f fs]; [cbn in Hk; lia|].
      apply Forall_inv in Hrows. now rewrite <- Hrows.
    + apply HsL, rows_of_indices; assumption.
    + apply HsR, rows_of_indices; assumption.
Qed.

Lemma fold_add_NaN l : fold_left JS.add l JS.NaN = JS.NaN.
Proof. induction l as [|x l IH]; cbn [fold_left]; auto. Qed.

Lemma sum_unit_or_NaN labels :
  Forall (fun x => x = JS.NaN \/ in_unit x) labels ->
  forall a : R,
    fold_left JS.add labels (JS.Fin a) = JS.NaN \/
    exists s, fold_left JS.add labels (JS.Fin a) = JS.Fin s /\
              (a <= s <= a + INR (length labels))%R.
Proof.
  induction 1 as [|x labels Hx _ IH]; intros a.
  - right. exists a. cbn [fold_left length INR]. split; [reflexivity|lra].
  - cbn [fold_left]. destruct Hx as [->|(r & -> & Hr)].
    + left. apply fold_add_NaN.
    + cbn [JS.add]. destruct (IH (a + r)%R) as [->|(s & -> & Hs)];
        [now left|].
      right. exists s. split; [reflexivity|].
      change (length (JS.Fin r :: labels)) with (S (length labels)).
      rewrite S_INR. lra.
Qed.

Lemma mean_unit_or_NaN labels :
  Forall (fun x => x = JS.NaN \/ in_unit x) labels ->
  (sum labels / JS.of_nat (length labels))%num = JS.NaN \/
  in_unit (sum labels / JS.of_nat (length labels))%num.
Proof.
  intros Hl. unfold sum.
  destruct (sum_unit_or_NaN labels Hl 0) as [->|(s & -> & Hs)];
    [now left|].
  unfold JS.of_nat. cbn [JS.div].
  destruct (Nat.eq_dec (length labels) 0) as [Hz|Hnz].
  - rewrite Hz in *. cbn [INR] in *.
    rewrite Reqb_true by reflexivity.
    rewrite Reqb_true by lra. now left.
  - assert (0 < INR (length labels))%R by (apply lt_0_INR; lia).
    rewrite Reqb_false by lra. right.
    eexists. split; [reflexivity|]. split.
    + apply Rmult_le_pos; [lra|]. left. now apply Rinv_0_lt_compat.
    + apply (Rmult_le_reg_r (INR (length labels))); [assumption|].
      unfold Rdiv. rewrite Rmult_assoc, Rinv_l by lra. lra.
Qed.

Lemma at_unit_or_NaN labels idx :
  Forall (fun x => x = JS.NaN \/ in_unit x) labels ->
  Forall (fun x => x = JS.NaN \/ in_unit x) (map (at_ labels) idx).
Proof.
  intros Hl. apply Forall_forall. intros v Hv.
  apply in_map_iff in Hv. destruct Hv as (i & <- & _). unfold at_.
  destruct (nth_in_or_default i labels JS.NaN) as [Hin| ->]; [|now left].
  rewrite Forall_forall in Hl. now apply Hl.
Qed.

Lemma reach_unit_or_NaN levels minSamples x :
  forall features labels,
    Forall (fun v => v = JS.NaN \/ in_unit v) labels ->
    let v := reach (buildTree_levels levels minSamples features labels) x in
    v = JS.NaN \/ in_unit v.
Proof.
  induction levels as [|levels IH]; intros features labels Hl;
    cbn [buildTree_levels].
  - cbn [reach]. now apply mean_unit_or_NaN.
  - destruct (_ || _); [cbn [reach]; now apply mean_unit_or_NaN|].
    destruct (findBestSplit features labels) as [[[k threshold] gini]|];
      [|cbn [reach]; now apply mean_unit_or_NaN].
    destruct (splitIndices features k threshold) as [L R].
    cbn [reach]. destruct (_ <=? _)%num; apply IH; now apply at_unit_or_NaN.
Qed.

Lemma or_else_half_unit v :
  v = JS.NaN \/ in_unit v ->
  exists r, (v || #0.5)%num = JS.Fin r /\ (0 < r <= 1)%R.
Proof.
  intros [->|(r & -> & Hr)].
  - exists 0.5%R. split; [reflexivity|lra].
  - unfold JS.or_else. cbn [JS.truthy].
    destruct (Req_dec_T r 0) as [->|Hnz].
    + rewrite Reqb_true by reflexivity. cbn [negb].
      exists 0.5%R. split; [reflexivity|lra].
    + rewrite Reqb_false by exact Hnz. cbn [negb].
      exists r. split; [reflexivity|lra].
Qed.

(** A decision tree trained on labels in [0, 1] (class labels are) predicts
    a probability that is above 0 and at most 1, for every feature vector:
    a leaf holds the mean of the labels that reached it. *)
Theorem DT_predict_probability :
  forall (dt : DecisionTree) (features : list (list JS.num))
         (labels x : list JS.num),
    root dt = None \/ features <> [] ->
    Forall in_unit labels ->
    exists p,
      DT_predict (DT_train dt features labels) x = JS.Fin p /\
      (0 < p <= 1)%R.
Proof.
  intros dt features labels x Hfresh Hl. unfold DT_train.
  destruct (length features =? 0)%nat eqn:Hn.
  - apply Nat.eqb_eq in Hn.
    destruct Hfresh as [Hroot|Hne];
      [|destruct features; [congruence|discriminate]].
    unfold DT_predict. rewrite Hroot.
    exists 0.5%R. split; [reflexivity|lra].
  - unfold DT_predict. cbn [root]. apply or_else_half_unit.
    unfold buildTree. apply reach_unit_or_NaN.
    eapply Forall_impl; [|exact Hl]. intros v Hv. now right.
Qed.

Lemma DT_predict_probability_witness :
  exists p,
    DT_predict (DT_train DT_default [[#0]; [#1]]%num [#0; #1]%num)
               [#1]%num
    = JS.Fin p /\ (0 < p <= 1)%R.
Proof.
  apply DT_predict_probability.
  - right. discriminate.
  - repeat constructor; eexists; (split; [reflexivity|lra]).
Defined.

(** ** Features and training data *)

Lemma in_unit_1 : in_unit (#1)%num.
Proof. exists 1%R. split; [reflexivity|lra]. Qed.

Lemma in_unit_min_1 q : (0 <= q)%R -> in_unit (JS.min (JS.Fin q) (#1)%num).
Proof.
  intros Hq. cbn [JS.min JS.ltb]. unfold JS.Rltb.
  destruct (Rlt_dec 1 q).
  - apply in_unit_1.
  - exists q. split; [reflexivity|lra].
Qed.

Lemma in_unit_of_bool b : in_unit (JS.of_bool b).
Proof. destruct b; [apply in_unit_1|apply in_unit_0]. Qed.

Lemma encodeFeatures_head features :
  at_ (encodeFeatures features) 0 = (JS.of_Z (f_dayOfWeek features) / #6)%num /\
  [at_ (encodeFeatures features) 1; at_ (encodeFeatures features) 2;
   at_ (encodeFeatures features) 3; at_ (encodeFeatures features) 4]
  = timeEncoding (f_timeOfDay features).
Proof.
  unfold encodeFeatures.
  destruct (f_timeOfDay features), (f_weather features) as [[]|];
    split; reflexivity.
Qed.

Lemma encodeFeatures_tail features :
  at_ (encodeFeatures features) 16
  = (JS.of_Z (categoryHash (f_category features) mod 100) / #100)%num /\
  at_ (encodeFeatures features) 18 = JS.of_bool (f_isWeekend features).
Proof.
  unfold encodeFeatures.
  destruct (f_timeOfDay features), (f_weather features) as [[]|];
    split; reflexivity.
Qed.

Lemma in_unit_Z_ratio (z d : Z) :
  (0 <= z <= d)%Z -> (0 < d)%Z -> in_unit (JS.of_Z z / JS.of_Z d)%num.
Proof.
  intros Hz Hd. unfold JS.of_Z. cbn [JS.div].
  assert (0 < IZR d)%R by (apply IZR_lt; lia).
  assert (0 <= IZR z)%R by (apply IZR_le; lia).
  assert (IZR z <= IZR d)%R by (apply IZR_le; lia).
  rewrite Reqb_false by lra.
  eexists. split; [reflexivity|]. split.
  - apply Rmult_le_pos; [lra|]. left. now apply Rinv_0_lt_compat.
  - apply (Rmult_le_reg_r (IZR d)); [assumption|].
    unfold Rdiv. rewrite Rmult_assoc, Rinv_l by lra. lra.
Qed.

Lemma streak_slot_in_unit n :
  in_unit (JS.min (JS.log1p (JS.of_nat n) / JS.log1p #30)%num (#1)%num).
Proof.
  pose proof ln_31_pos as H31. pose proof (pos_INR n) as Hn.
  unfold JS.of_nat. cbn [JS.log1p].
  rewrite (Rltb_false (INR n) (-1)), (Reqb_false (INR n) (-1)) by lra.
  rewrite (Rltb_false 30 (-1)), (Reqb_false 30 (-1)) by lra.
  cbn [JS.div]. rewrite Reqb_false by lra.
  apply in_unit_min_1.
  apply Rmult_le_pos; [|left; now apply Rinv_0_lt_compat].
  rewrite <- ln_1.
  destruct (Req_dec (INR n) 0) as [->|Hnz];
    [rewrite Rplus_0_r; lra|].
  left. apply ln_increasing; lra.
Qed.

Lemma in_list_cases (P : nat -> Prop) (l : list nat) :
  Forall P l -> forall i, In i l -> P i.
Proof. intros H i Hi. rewrite Forall_forall in H. now apply H. Qed.

(** Of the 19 encoded features of a habit, those of the day of the week,
    the preferred time, the mood, the weather, the streak, the success
    rate, the category and the weekend (slots 0 to 5, 9 to 13, 15, 16 and
    18) lie in [0, 1] whatever the habit and the logs are. *)
Theorem encodeFeatures_normalised_slots :
  forall (env : Env) (habit : Habit) (logs : list HabitLog)
         (targetDate : option Z),
    let encoded := encodeFeatures (extractFeatures env habit logs targetDate) in
    length encoded = 19%nat /\
    forall slot,
      In slot [0; 1; 2; 3; 4; 5; 9; 10; 11; 12; 13; 15; 16; 18]%nat ->
      in_unit (at_ encoded slot).
Proof.
  intros env habit logs targetDate encoded. subst encoded.
  split; [apply encodeFeatures_length|].
  set (features := extractFeatures env habit logs targetDate).
  destruct (encodeFeatures_head features) as (H0 & Htime).
  destruct (encodeFeatures_context features) as (H5 & _ & _ & _ & Hweather).
  destruct (encodeFeatures_tail features) as (H16 & H18).
  assert (Htimes : Forall in_unit (timeEncoding (f_timeOfDay features))).
  { destruct (f_timeOfDay features); cbn [timeEncoding];
      repeat constructor; try apply in_unit_0; apply in_unit_1. }
  assert (Hweathers : Forall in_unit (weatherEncoding (f_weather features))).
  { destruct (f_weather features) as [[]|]; cbn [weatherEncoding];
      repeat constructor; try apply in_unit_0; apply in_unit_1. }
  rewrite <- Htime in Htimes. rewrite <- Hweather in Hweathers.
  apply in_list_cases.
  repeat match goal with
         | H : Forall _ (_ :: _) |- _ =>
             apply Forall_cons_iff in H; destruct H as [? H]
         end.
  repeat constructor; try assumption.
  - rewrite H0. apply (in_unit_Z_ratio _ 6); [|lia].
    subst features. unfold extractFeatures. cbn [f_dayOfWeek].
    unfold getDay.
    match goal with |- context [(?a mod 7)%Z] =>
      pose proof (Z.mod_pos_bound a 7) end. lia.
  - rewrite H5. destruct (f_mood features) as [[]|]; cbn [moodValue];
      eexists; (split; [reflexivity|lra]).
  - rewrite encodeFeatures_streak. apply streak_slot_in_unit.
  - rewrite encodeFeatures_successRate. subst features.
    unfold extractFeatures. cbn [f_successRate].
    apply successRate_in_unit.
  - rewrite H16. apply (in_unit_Z_ratio _ 100); [|lia].
    match goal with |- context [(?a mod 100)%Z] =>
      pose proof (Z.mod_pos_bound a 100) end. lia.
  - rewrite H18. apply in_unit_of_bool.
Qed.

Lemma flat_map_length_sum {A B} (f : A -> list B) l :
  length (flat_map f l)
  = fold_right Nat.add 0%nat (map (fun a => length (f a)) l).
Proof.
  induction l as [|a l IH]; cbn [flat_map map fold_right]; [reflexivity|].
  now rewrite length_app, IH.
Qed.

Lemma trainingSamples_labels env habits logs :
  map (fun s => snd (fst s)) (trainingSamples env habits logs)
  = flat_map (fun habit =>
                map (fun log => JS.of_bool (completed log))
                    (logsOf habit logs)) habits.
Proof.
  unfold trainingSamples. induction habits as [|habit habits IH];
    cbn [flat_map map]; [reflexivity|].
  rewrite map_app, IH, map_map. reflexivity.
Qed.

Lemma trainingSamples_metadata env habits logs :
  map snd (trainingSamples env habits logs)
  = flat_map (fun habit =>
                map (fun log => (id habit, date log)) (logsOf habit logs))
             habits.
Proof.
  unfold trainingSamples. induction habits as [|habit habits IH];
    cbn [flat_map map]; [reflexivity|].
  rewrite map_app, IH, map_map. reflexivity.
Qed.

(** The training data hold one sample for each log of each habit of the
    list, active or not, in the order of the habits and of the logs: a
    vector of 19 features, the label 1 for a completed log and 0
    otherwise, and the habit and the date in the metadata. A log of no
    listed habit gives no sample. *)
Theorem createTrainingData_shape :
  forall (env : Env) (habits : list Habit) (logs : list HabitLog),
    let td := createTrainingData env habits logs in
    length (td_features td) = length (td_labels td) /\
    length (td_metadata td) = length (td_labels td) /\
    length (td_labels td)
    = fold_right Nat.add 0%nat
        (map (fun habit => length (logsOf habit logs)) habits) /\
    Forall (fun f => length f = 19%nat) (td_features td) /\
    Forall binary (td_labels td) /\
    td_labels td
    = flat_map (fun habit =>
                  map (fun log => JS.of_bool (completed log))
                      (logsOf habit logs)) habits /\
    td_metadata td
    = flat_map (fun habit =>
                  map (fun log => (id habit, date log)) (logsOf habit logs))
               habits.
Proof.
  intros env habits logs td. subst td.
  pose proof (trainingSamples_labels env habits logs) as Hlabels.
  pose proof (trainingSamples_metadata env habits logs) as Hmeta.
  split; [|split; [|split; [|split; [|split; [|split]]]]].
  - unfold createTrainingData. cbn [td_features td_labels].
    now rewrite !length_map.
  - unfold createTrainingData. cbn [td_metadata td_labels].
    now rewrite !length_map.
  - unfold createTrainingData. cbn [td_labels]. rewrite length_map.
    unfold trainingSamples. rewrite flat_map_length_sum.
    f_equal. apply map_ext. intros habit. apply length_map.
  - apply Forall_forall. intros f Hf.
    destruct (td_features_encoded env habits logs f Hf) as [features ->].
    apply encodeFeatures_length.
  - unfold createTrainingData. cbn [td_labels]. rewrite Hlabels.
    apply Forall_forall. intros v Hv.
    apply in_flat_map in Hv. destruct Hv as (habit & _ & Hv).
    apply in_map_iff in Hv. destruct Hv as (log & <- & _).
    destruct (completed log); [now right|now left].
  - exact Hlabels.
  - exact Hmeta.
Qed.

(** ** Predictions *)

Lemma clamp_between (lo hi : R) p :
  (lo <= hi)%R -> finite p ->
  exists r, JS.max (JS.Fin lo) (JS.min (JS.Fin hi) p) = JS.Fin r /\
            (lo <= r <= hi)%R.
Proof.
  intros Hle [a ->]. cbn [JS.min JS.ltb]. unfold JS.Rltb at 1.
  destruct (Rlt_dec a hi); cbn [JS.max JS.ltb]; unfold JS.Rltb;
    match goal with |- context [Rlt_dec ?x ?y] => destruct (Rlt_dec x y) end;
    eexists; (split; [reflexivity|lra]).
Qed.

(** The probability of a heuristic prediction is always a number within
    the bounds of its engine, never NaN: between 0 and 1 for the engine of
    [lib/prediction-engine.ts], between 0.1 and 0.9 for the earlier one. *)
Theorem generateHeuristicPrediction_bounds :
  forall (env : Env) (habit : Habit) (logs : list HabitLog),
    (exists p,
       probability (generateHeuristicPrediction env habit logs) = JS.Fin p /\
       (0 <= p <= 1)%R) /\
    (exists p,
       probability (Simple.generateHeuristicPrediction env habit logs)
       = JS.Fin p /\ (0.1 <= p <= 0.9)%R).
Proof.
  intros env habit logs. split.
  - unfold generateHeuristicPrediction. cbn [probability].
    apply clamp_between; [lra|]. apply heuristic_raw_finite.
  - unfold Simple.generateHeuristicPrediction. cbn [probability].
    apply clamp_between; [lra|]. apply heuristic_raw_finite.
Qed.

Lemma calculateHabitStats_no_logs env habit logs :
  logsOf habit logs = [] ->
  calculateHabitStats env habit logs
  = {| s_habitId := id habit; totalLogs := 0; completedLogs := 0;
       successRate := (#0)%num; currentStreak := 0; longestStreak := 0;
       daysSinceLastLog := 999 |}.
Proof.
  intros Hnone. unfold calculateHabitStats.
  fold (logsOf habit logs). rewrite Hnone. reflexivity.
Qed.

Lemma new_habit_raw :
  (#0.5 + (#0 - #0.5) * #0.4 + JS.min (JS.of_nat 0 / #7) #1 * #0.3
   - JS.min (JS.of_Z 999 / #7) #1 * #0.3)%num = JS.Fin 0.
Proof.
  unfold JS.of_nat, JS.of_Z. cbn [INR JS.div JS.sub JS.neg JS.add JS.mul].
  rewrite Reqb_false by lra.
  cbn [JS.min JS.ltb].
  rewrite (Rltb_false 1 (0 / 7)) by lra.
  rewrite (Rltb_true 1 (999 / 7)) by lra.
  unfold JS.sub. cbn [JS.mul JS.add JS.neg]. f_equal. lra.
Qed.

Lemma round_zero_percent :
  string_of_round (#0 * #100)%num = "0"%string.
Proof.
  cbn [JS.mul string_of_round].
  rewrite <- (Int_part_spec (0 * 100 + 0.5) 0) by lra.
  reflexivity.
Qed.

(** A habit without any log is given the lowest probability of its
    engine, with low confidence, and the placeholder of 999 days since the
    last log shows in the explanation: probability 0 and "Haven't logged
    recently." in [lib/prediction-engine.ts]; probability 0.1, a low
    success rate of 0% and 999 days since the last completion in the
    earlier engine. *)
Theorem new_habit_prediction :
  forall (env : Env) (habit : Habit) (logs : list HabitLog),
    logsOf habit logs = [] ->
    let lib := generateHeuristicPrediction env habit logs in
    let earlier := Simple.generateHeuristicPrediction env habit logs in
    probability lib = (#0)%num /\ confidence lib = low /\
    explanation lib
    = "Heuristic prediction: Haven't logged recently. "%string /\
    probability earlier = (#0.1)%num /\ confidence earlier = low /\
    explanation earlier
    = ("Based on your habit history: "
       ++ "low success rate (0%), 999 days since last completion")%string.
Proof.
  intros env habit logs Hnone lib earlier. subst lib earlier.
  unfold generateHeuristicPrediction, Simple.generateHeuristicPrediction.
  rewrite (calculateHabitStats_no_logs env habit logs Hnone).
  cbn [probability confidence explanation successRate currentStreak
       daysSinceLastLog totalLogs].
  rewrite new_habit_raw, round_zero_percent.
  assert (Hlib : JS.max (#0)%num (JS.min (#1)%num (JS.Fin 0)) = (#0)%num).
  { cbn [JS.min JS.max JS.ltb]. Rdecide. reflexivity. }
  assert (Hearlier :
            JS.max (#0.1)%num (JS.min (#0.9)%num (JS.Fin 0)) = (#0.1)%num).
  { cbn [JS.min JS.max JS.ltb]. Rdecide. reflexivity. }
  rewrite Hlib, Hearlier.
  unfold JS.gtb. cbn [JS.ltb]. Rdecide.
  repeat split; reflexivity.
Qed.

Lemma new_habit_prediction_witness :
  probability (generateHeuristicPrediction day9 journal meditationLogs)
  = (#0)%num /\
  probability (Simple.generateHeuristicPrediction day9 journal meditationLogs)
  = (#0.1)%num.
Proof.
  destruct (new_habit_prediction day9 journal meditationLogs)
    as (Hlib & _ & _ & Hearlier & _).
  - reflexivity.
  - split; [exact Hlib|exact Hearlier].
Defined.

(** The top predictions of [lib/prediction-engine.ts] are the same for
    tomorrow as for today, since the target date is not used: the first
    [count] predictions of the ranking of the active habits (all of them
    when there are fewer), in non-increasing order of probability, and no
    prediction that is left out has a higher probability than one that is
    shown. *)
Theorem getTopPredictions_top :
  forall (env : Env) (habits : list Habit) (logs : list HabitLog)
         (count : nat),
    let top := getTopPredictions env habits logs count in
    snd top = fst top /\
    length (fst top) = Nat.min count (length (filter isActive habits)) /\
    nonIncreasing (fst top) /\
    exists rest,
      Permutation (fst top ++ rest)
        (map (fun habit => generateHeuristicPrediction env habit logs)
             (filter isActive habits)) /\
      forall shown hidden,
        In shown (fst top) -> In hidden rest ->
        (probability shown >=? probability hidden)%num = true.
Proof.
  intros env habits logs count top. subst top.
  unfold getTopPredictions, predictForDate. cbn [fst snd].
  split; [reflexivity|].
  set (predictions := map _ (filter isActive habits)).
  destruct (sort_predictions predictions) as (Hperm & _ & Hsorted).
  assert (Hs : nonIncreasing (Array_sort byProbabilityDesc predictions)).
  { apply Hsorted. subst predictions. apply Forall_forall. intros p Hp.
    apply in_map_iff in Hp. destruct Hp as (h & <- & _).
    apply generateHeuristicPrediction_finite. }
  set (ranked := Array_sort byProbabilityDesc predictions) in *.
  unfold slice. cbn [skipn]. rewrite Nat.sub_0_r.
  unfold nonIncreasing in Hs. rewrite <- (firstn_skipn count ranked) in Hs.
  apply StronglySorted_app in Hs. destruct Hs as [Hs Hcross].
  split; [|split].
  - rewrite length_firstn, (Permutation_length Hperm).
    subst predictions. now rewrite length_map.
  - exact Hs.
  - exists (skipn count ranked). split; [|exact Hcross].
    rewrite firstn_skipn. exact Hperm.
Qed.

(** ** Gini impurity *)

Lemma list_sum_cons a l : list_sum (a :: l) = (a + list_sum l)%nat.
Proof. reflexivity. Qed.

Lemma bump_total label counts :
  list_sum (map snd (bump label counts)) = S (list_sum (map snd counts)).
Proof.
  induction counts as [|[k c] counts IH]; cbn [bump map snd];
    [reflexivity|].
  destruct (JS.same k label); cbn [map snd]; rewrite !list_sum_cons; [lia|].
  rewrite IH. lia.
Qed.

Lemma bump_positive label counts :
  Forall (fun kc => (1 <= snd kc)%nat) counts ->
  Forall (fun kc => (1 <= snd kc)%nat) (bump label counts).
Proof.
  induction 1 as [|[k c] counts Hc Hrest IH]; cbn [bump].
  - repeat constructor.
  - cbn [snd] in Hc.
    destruct (JS.same k label); constructor; cbn [snd]; auto.
Qed.

Lemma counts_of_labels labels : forall counts,
  Forall (fun kc => (1 <= snd kc)%nat) counts ->
  let counts' := fold_left (fun acc label => bump label acc) labels counts in
  Forall (fun kc => (1 <= snd kc)%nat) counts' /\
  list_sum (map snd counts')
  = (list_sum (map snd counts) + length labels)%nat.
Proof.
  induction labels as [|label labels IH]; intros counts Hc;
    cbn [fold_left length].
  - split; [exact Hc|lia].
  - destruct (IH (bump label counts) (bump_positive label counts Hc))
      as [Hpos Hsum].
    cbv zeta in *. split; [exact Hpos|].
    rewrite Hsum, bump_total. lia.
Qed.

Lemma gini_step (n g : R) (c : nat) :
  (0 < n)%R ->
  (JS.Fin g - JS.of_nat c / JS.Fin n * (JS.of_nat c / JS.Fin n))%num
  = JS.Fin (g - INR c / n * (INR c / n)).
Proof.
  intros Hn. unfold JS.of_nat. cbn [JS.div]. rewrite Reqb_false by lra.
  reflexivity.
Qed.

Lemma gini_fold (n : R) (counts : list (JS.num * nat)) :
  (0 < n)%R ->
  forall g0 : R,
    fold_left
      (fun gini (kc : JS.num * nat) =>
         let probability := (JS.of_nat (snd kc) / JS.Fin n)%num in
         (gini - probability * probability)%num)
      counts (JS.Fin g0)
    = JS.Fin (g0 - fold_right
                     (fun kc acc => (INR (snd kc) / n * (INR (snd kc) / n)
                                     + acc)%R)
                     0%R counts).
Proof.
  intros Hn. induction counts as [|kc counts IH]; intros g0;
    cbn [fold_left fold_right].
  - f_equal. lra.
  - cbv zeta. rewrite (gini_step n g0 (snd kc) Hn), IH. f_equal. lra.
Qed.

Lemma squares_le_total (n : R) (counts : list (JS.num * nat)) :
  (0 < n)%R ->
  (INR (list_sum (map snd counts)) <= n)%R ->
  (0 <= fold_right
          (fun kc acc => (INR (snd kc) / n * (INR (snd kc) / n) + acc)%R)
          0%R counts
   <= INR (list_sum (map snd counts)) / n)%R.
Proof.
  intros Hn. induction counts as [|kc counts IH];
    cbn [map fold_right]; rewrite ?list_sum_cons; intros Hle.
  - change (INR (list_sum [])) with 0%R. lra.
  - rewrite plus_INR in Hle |- *.
    pose proof (pos_INR (snd kc)) as Hc.
    pose proof (pos_INR (list_sum (map snd counts))) as Hrest.
    destruct IH as [IH0 IH1]; [lra|].
    assert (Hx0 : (0 <= INR (snd kc) / n)%R).
    { apply Rmult_le_pos; [lra|]. left. now apply Rinv_0_lt_compat. }
    assert (Hx1 : (INR (snd kc) / n <= 1)%R).
    { apply (Rmult_le_reg_r n); [assumption|].
      unfold Rdiv. rewrite Rmult_assoc, Rinv_l by lra. lra. }
    split; [nra|].
    unfold Rdiv in *. rewrite Rmult_plus_distr_r. nra.
Qed.

(** The Gini impurity of any labels is a number from 0 up to, but not
    including, 1. *)
Theorem calculateGini_range :
  forall labels : list JS.num,
    exists g, calculateGini labels = JS.Fin g /\ (0 <= g < 1)%R.
Proof.
  intros labels. unfold calculateGini.
  destruct (length labels =? 0)%nat eqn:Hn.
  - exists 0%R. split; [reflexivity|lra].
  - apply Nat.eqb_neq in Hn.
    destruct (counts_of_labels labels [] (Forall_nil _)) as [Hpos Hsum].
    cbv zeta in Hpos, Hsum. cbn [map list_sum fold_right Nat.add] in Hsum.
    set (counts := fold_left _ labels []) in *.
    assert (Hlen : (0 < INR (length labels))%R) by (apply lt_0_INR; lia).
    eexists. split;
      [exact (gini_fold (INR (length labels)) counts Hlen 1)|].
    destruct (squares_le_total (INR (length labels)) counts Hlen)
      as [H0 H1]; [rewrite Hsum; lra|].
    rewrite Hsum in H1.
    replace (INR (length labels) / INR (length labels))%R with 1%R in H1
      by (field; lra).
    split; [lra|].
    destruct counts as [|kc counts'];
      [cbn [map list_sum fold_right] in Hsum; lia|].
    cbn [fold_right].
    apply Forall_inv in Hpos.
    assert (1 <= INR (snd kc))%R by (change 1%R with (INR 1); apply le_INR, Hpos).
    assert (Hx : (0 < INR (snd kc) / INR (length labels))%R).
    { apply Rmult_lt_0_compat; [lra|]. now apply Rinv_0_lt_compat. }
    assert (Hrest : (0 <= fold_right
                      (fun kc acc =>
                         (INR (snd kc) / INR (length labels)
                          * (INR (snd kc) / INR (length labels)) + acc)%R)
                      0%R counts')%R).
    { clear. induction counts' as [|kc' cs IH]; cbn [fold_right]; [lra|].
      pose proof (Rle_0_sqr (INR (snd kc') / INR (length labels))) as Hsq.
      unfold Rsqr in Hsq. lra. }
    nra.
Qed.

(** ** Cross-validation and learning curve *)

Lemma count_le_length {A} (p : A -> bool) l : (count p l <= length l)%nat.
Proof. apply filter_length_le. Qed.

Lemma countCorrect_le prob features labels :
  (countCorrect prob features labels <= length features)%nat.
Proof.
  unfold countCorrect.
  etransitivity; [apply count_le_length|]. now rewrite length_seq.
Qed.

(** An accuracy: the share of correct predictions among [n] samples. *)
Lemma accuracy_score prob features labels :
  let score :=
    (JS.of_nat (countCorrect prob features labels)
     / JS.of_nat (length features))%num in
  (length features = 0%nat -> score = JS.NaN) /\
  ((0 < length features)%nat -> in_unit score).
Proof.
  intros score. subst score. split.
  - intros Hz. destruct features; [|discriminate]. unfold countCorrect.
    cbn [length seq count filter]. unfold JS.of_nat, count.
    cbn [filter length INR JS.div].
    now rewrite Reqb_true by reflexivity.
  - intros Hpos. apply ratio_in_unit; [apply countCorrect_le|exact Hpos].
Qed.

Lemma slice_length {A} (from to : nat) (l : list A) :
  length (slice from to l) = Nat.min (to - from) (length l - from).
Proof. unfold slice. now rewrite length_firstn, length_skipn. Qed.

Lemma crossValidationFold_scores features labels folds fold :
  let foldSize := (length features / folds)%nat in
  let scores := crossValidationFold features labels folds foldSize fold in
  (fold < folds)%nat ->
  ((1 <= folds <= length features)%nat ->
   in_unit (fst (fst scores)) /\ in_unit (snd (fst scores)) /\
   in_unit (snd scores)) /\
  ((length features < folds)%nat -> (fold < folds - 1)%nat ->
   fst (fst scores) = JS.NaN /\ snd (fst scores) = JS.NaN /\
   snd scores = JS.NaN).
Proof.
  intros foldSize scores Hfold. subst scores.
  unfold crossValidationFold. cbn [fst snd].
  set (testEnd := if (fold =? folds - 1)%nat then length features
                  else (fold * foldSize + foldSize)%nat).
  set (test := slice (fold * foldSize) testEnd features).
  split.
  - intros [H1 Hn].
    assert (Hsize : (1 <= foldSize)%nat).
    { subst foldSize. apply Nat.div_le_lower_bound; lia. }
    assert (Htotal : (folds * foldSize <= length features)%nat).
    { subst foldSize. apply Nat.Div0.mul_div_le. }
    assert (Htest : (0 < length test)%nat).
    { subst test. rewrite slice_length. subst testEnd.
      destruct (fold =? folds - 1)%nat eqn:Hlast.
      - apply Nat.eqb_eq in Hlast. subst fold.
        assert ((folds - 1) * foldSize + foldSize = folds * foldSize)%nat
          by nia.
        lia.
      - apply Nat.eqb_neq in Hlast.
        assert ((fold + 2) * foldSize <= folds * foldSize)%nat
          by (apply Nat.mul_le_mono_r; lia).
        nia. }
    repeat split; now apply accuracy_score.
  - intros Hfew Hnotlast.
    assert (Hsize : foldSize = 0%nat).
    { subst foldSize. apply Nat.div_small. lia. }
    assert (Htest : length test = 0%nat).
    { subst test. rewrite slice_length. subst testEnd.
      replace (fold =? folds - 1)%nat with false
        by (symmetry; apply Nat.eqb_neq; lia).
      rewrite Hsize. lia. }
    repeat split; now apply accuracy_score.
Qed.

Lemma at_map_seq (f : nat -> JS.num) n i :
  (i < n)%nat -> at_ (map f (seq 0 n)) i = f i.
Proof.
  intros Hi. unfold at_.
  rewrite (nth_indep _ JS.NaN (f 0%nat)) by now rewrite length_map, length_seq.
  rewrite map_nth, seq_nth by exact Hi. reflexivity.
Qed.

(** Cross-validation returns [folds] accuracies for each of the three
    models. With at least one fold and no more folds than samples every
    accuracy lies in [0, 1]; with more folds than samples the test slice
    of every fold but the last is empty and its accuracies are NaN. *)
Theorem performCrossValidation_scores :
  forall (features : list (list JS.num)) (labels : list JS.num)
         (folds : nat),
    let cv := performCrossValidation features labels folds in
    (length (cv_logistic cv) = folds /\ length (cv_tree cv) = folds /\
     length (cv_ensemble cv) = folds) /\
    ((1 <= folds <= length features)%nat ->
     Forall in_unit (cv_logistic cv) /\ Forall in_unit (cv_tree cv) /\
     Forall in_unit (cv_ensemble cv)) /\
    ((length features < folds)%nat ->
     forall fold, (fold < folds - 1)%nat ->
       at_ (cv_logistic cv) fold = JS.NaN /\
       at_ (cv_tree cv) fold = JS.NaN /\
       at_ (cv_ensemble cv) fold = JS.NaN).
Proof.
  intros features labels folds cv. subst cv.
  unfold performCrossValidation.
  cbn [cv_logistic cv_tree cv_ensemble].
  split; [|split].
  - rewrite !length_map, length_seq. auto.
  - intros Hfolds.
    repeat split; apply Forall_forall; intros v Hv;
      apply in_map_iff in Hv; destruct Hv as (s & <- & Hs);
      apply in_map_iff in Hs; destruct Hs as (fold & <- & Hfold);
      apply in_seq in Hfold;
      destruct (crossValidationFold_scores features labels folds fold)
        as [Hin _]; try lia;
      destruct (Hin Hfolds) as (Hl & Ht & He); assumption.
  - intros Hfew fold Hfold. rewrite !map_map.
    rewrite !at_map_seq by lia.
    destruct (crossValidationFold_scores features labels folds fold)
      as [_ Hnan]; [lia|].
    now apply Hnan.
Qed.

(** Every point of the learning curve was measured on at least 10
    samples, and its training and validation scores lie in [0, 1]; there
    is at most one point for each size, and no point at all for the
    default sizes when there are fewer than 10 samples. *)
Theorem generateLearningCurve_points :
  forall (features : list (list JS.num)) (labels : list JS.num)
         (trainSizes : list (nat * nat)),
    let curve := generateLearningCurve features labels trainSizes in
    (length curve <= length trainSizes)%nat /\
    Forall (fun point =>
              (10 <= trainSize point)%nat /\
              in_unit (trainScore point) /\ in_unit (valScore point)) curve /\
    ((length features < 10)%nat ->
     generateLearningCurve features labels defaultTrainSizes = []).
Proof.
  intros features labels trainSizes curve. subst curve.
  unfold generateLearningCurve. split; [|split].
  - induction trainSizes as [|size sizes IH]; cbn [flat_map length]; [lia|].
    rewrite length_app.
    destruct (learningCurvePoint features labels size); cbn [length]; lia.
  - apply Forall_forall. intros point Hpoint.
    apply in_flat_map in Hpoint. destruct Hpoint as (size & _ & Hpoint).
    destruct (learningCurvePoint features labels size) as [p|] eqn:Hp;
      [|contradiction].
    destruct Hpoint as [<-|[]].
    unfold learningCurvePoint in Hp.
    destruct (_ <? 10)%nat eqn:Hsize; [discriminate|].
    apply Nat.ltb_ge in Hsize.
    destruct (_ || _) eqn:Hempty; [discriminate|].
    apply orb_false_elim in Hempty. destruct Hempty as [Htrain Hval].
    apply Nat.eqb_neq in Htrain, Hval.
    injection Hp as <-. cbn [trainSize trainScore valScore].
    split; [exact Hsize|].
    split; apply accuracy_score; lia.
  - intros Hfew.
    assert (Hnone : forall size,
               In size defaultTrainSizes ->
               learningCurvePoint features labels size = None).
    { intros size Hin. unfold learningCurvePoint.
      replace (floorTimes (length features) size <? 10)%nat with true;
        [reflexivity|].
      symmetry. apply Nat.ltb_lt. unfold floorTimes.
      unfold defaultTrainSizes in Hin. cbn [In] in Hin.
      repeat (destruct Hin as [<-|Hin]; [cbn [fst snd];
        apply Nat.Div0.div_lt_upper_bound; lia|]).
      contradiction. }
    unfold defaultTrainSizes in *. cbn [flat_map].
    rewrite !Hnone by (cbn [In]; tauto). reflexivity.
Qed.

(** ** Training the engine *)

Lemma mapM_returns {S A B} (f : A -> M S B) (g : A -> B) l s :
  (forall a s', f a s' = (s', Returned (g a))) ->
  mapM f l s = (s, Returned (map g l)).
Proof.
  intros Hf. induction l as [|a l IH]; cbn [mapM map]; [reflexivity|].
  unfold bind at 1. rewrite Hf. unfold bind at 1. rewrite IH. reflexivity.
Qed.

Lemma td_features_length env habits logs :
  length (td_features (createTrainingData env habits logs))
  = fold_right Nat.add 0%nat
      (map (fun habit => length (logsOf habit logs)) habits).
Proof.
  unfold createTrainingData. cbn [td_features]. rewrite length_map.
  unfold trainingSamples. rewrite flat_map_length_sum.
  f_equal. apply map_ext. intros habit. apply length_map.
Qed.

(** With the callees of the source, the [try] block of [train] runs to its
    end: the two models are fitted on the first 80% of the samples and the
    report is stored. *)
Lemma train_try_source env habits logs features labels this :
  let splitIndex := floorTimes (length features) (8, 10) in
  exists this1,
    train_try (callees := source_callees) env habits logs features labels this
    = (this1, Returned tt) /\
    logisticRegression this1
    = LR_train (logisticRegression this) (slice 0 splitIndex features)
               (slice 0 splitIndex labels) /\
    decisionTree this1
    = DT_train (decisionTree this) (slice 0 splitIndex features)
               (slice 0 splitIndex labels) /\
    featureImportance this1 = calculateFeatureImportance features labels /\
    ms_featureImportance (modelState this1)
    = Some (calculateFeatureImportance features labels) /\
    minLogsForML this1 = minLogsForML this /\
    exists report,
      performanceReport this1 = Some report /\
      ms_accuracy (modelState this1) = Some (accuracy (r_ensemble report)) /\
      dataQuality report = assessDataQuality env habits logs /\
      crossValidationScores report
      = cv_ensemble (performCrossValidation features labels 5) /\
      learningCurve report
      = generateLearningCurve features labels defaultTrainSizes.
Proof.
  intros splitIndex. unfold train_try. fold splitIndex.
  unfold bind at 1. unfold get at 1.
  unfold bind at 1. unfold call at 1.
  cbn [lr_train source_callees].
  unfold bind at 1. unfold modify at 1.
  unfold bind at 1. unfold call at 1.
  cbn [dt_train source_callees].
  unfold bind at 1. unfold modify at 1.
  unfold bind at 1.
  rewrite (mapM_returns _
             (fun x =>
                (LR_predict
                   (LR_train (logisticRegression this)
                      (slice 0 splitIndex features)
                      (slice 0 splitIndex labels)) x,
                 DT_predict
                   (DT_train (decisionTree this)
                      (slice 0 splitIndex features)
                      (slice 0 splitIndex labels)) x,
                 ((LR_predict
                     (LR_train (logisticRegression this)
                        (slice 0 splitIndex features)
                        (slice 0 splitIndex labels)) x
                   + DT_predict
                       (DT_train (decisionTree this)
                          (slice 0 splitIndex features)
                          (slice 0 splitIndex labels)) x) / #2)%num)))
    by reflexivity.
  eexists. split; [reflexivity|].
  cbn [logisticRegression decisionTree featureImportance modelState
       minLogsForML performanceReport set_modelState set_performanceReport
       set_featureImportance set_decisionTree set_logisticRegression
       ms_featureImportance ms_accuracy].
  repeat (split; [reflexivity|]).
  eexists. split; [reflexivity|]. repeat split.
Qed.

(** With enough logs and a training set that is not empty, [train] marks
    the engine as trained on all the samples at the current time, while
    the two models are fitted on the first 80% of the samples only (on
    none when there is a single sample); the feature importance and the
    performance report are stored, and the accuracy of the state is that
    of the ensemble in the report. *)
Theorem train_fits_models :
  forall (env : Env) (this : PredictionEngine) (habits : list Habit)
         (logs : list HabitLog),
    (minLogsForML this <= length logs)%nat ->
    td_features (createTrainingData env habits logs) <> [] ->
    let td := createTrainingData env habits logs in
    let splitIndex := floorTimes (length (td_features td)) (8, 10) in
    let trainFeatures := slice 0 splitIndex (td_features td) in
    let trainLabels := slice 0 splitIndex (td_labels td) in
    exists this',
      train (callees := source_callees) env habits logs this
      = (this', Returned (modelState this')) /\
      isTrained (modelState this') = true /\
      totalSamples (modelState this') = length (td_features td) /\
      trainingDate (modelState this') = Some (clock env) /\
      logisticRegression this'
      = LR_train (logisticRegression this) trainFeatures trainLabels /\
      decisionTree this'
      = DT_train (decisionTree this) trainFeatures trainLabels /\
      featureImportance this'
      = calculateFeatureImportance (td_features td) (td_labels td) /\
      ms_featureImportance (modelState this')
      = Some (featureImportance this') /\
      minLogsForML this' = minLogsForML this /\
      exists report,
        performanceReport this' = Some report /\
        ms_accuracy (modelState this')
        = Some (accuracy (r_ensemble report)) /\
        dataQuality report = assessDataQuality env habits logs /\
        length (crossValidationScores report) = 5%nat.
Proof.
  intros env this habits logs Hlogs Hne td splitIndex trainFeatures
         trainLabels.
  destruct (train_try_source env habits logs (td_features td) (td_labels td)
              this)
    as (this1 & Htry & Hlr & Hdt & Hfi & Hmfi & Hmin & report & Hrep & Hacc
        & Hdq & Hcv & _).
  destruct (train_try_returned env habits logs (td_features td)
              (td_labels td) this this1 Htry) as (Htrained & Htotal & Hdate).
  exists this1. split.
  - unfold train. unfold bind at 1. unfold get at 1.
    replace (length logs <? minLogsForML this)%nat with false
      by (symmetry; apply Nat.ltb_ge; exact Hlogs).
    fold td.
    replace (length (td_features td) =? 0)%nat with false
      by (symmetry; apply Nat.eqb_neq; intros Hz;
          apply Hne; fold td; now destruct (td_features td)).
    unfold bind at 1. unfold try_catch. rewrite Htry.
    reflexivity.
  - repeat (split; [assumption|]).
    split; [congruence|]. split; [exact Hmin|].
    exists report. repeat (split; [assumption|]).
    rewrite Hcv. unfold performCrossValidation. cbn [cv_ensemble].
    now rewrite !length_map, length_seq.
Qed.

Lemma train_fits_models_witness :
  exists this',
    train (callees := source_callees) day9 [exercise] exerciseLogs
          PredictionEngine_new
    = (this', Returned (modelState this')) /\
    isTrained (modelState this') = true /\
    totalSamples (modelState this') = 10%nat.
Proof.
  destruct (train_fits_models day9 PredictionEngine_new [exercise]
              exerciseLogs) as (this' & Htrain & Htrained & Htotal & _).
  - cbn. lia.
  - intros Hnil. apply (f_equal (@length _)) in Hnil.
    rewrite td_features_length in Hnil. discriminate.
  - exists this'. split; [exact Htrain|]. split; [exact Htrained|].
    rewrite Htotal. rewrite td_features_length. reflexivity.
Defined.

Lemma sigmoid_NaN_or_unit z : sigmoid z = JS.NaN \/ in_unit (sigmoid z).
Proof.
  destruct (JS.num_eq_dec z JS.NaN) as [->|Hz].
  - left. apply sigmoid_NaN.
  - right. now apply sigmoid_in_unit.
Qed.

Lemma weighted_average_unit lr dt :
  lr = JS.NaN \/ in_unit lr ->
  (exists p, dt = JS.Fin p /\ (0 < p <= 1)%R) ->
  (lr * #0.6 + dt * #0.4)%num = JS.NaN \/
  in_unit (lr * #0.6 + dt * #0.4)%num.
Proof.
  intros [->|(a & -> & Ha)] (p & -> & Hp); [now left|].
  right. cbn [JS.mul JS.add]. eexists. split; [reflexivity|]. nra.
Qed.

Lemma td_labels_binary env habits logs :
  Forall in_unit (td_labels (createTrainingData env habits logs)).
Proof.
  unfold createTrainingData. cbn [td_labels].
  rewrite trainingSamples_labels. apply Forall_forall. intros v Hv.
  apply in_flat_map in Hv. destruct Hv as (habit & _ & Hv).
  apply in_map_iff in Hv. destruct Hv as (log & <- & _).
  apply in_unit_of_bool.
Qed.

(** The earlier engine, trained from new: it is trained exactly when there
    are at least 8 logs and the training set is not empty, and then both
    models are fitted on all the samples. Whatever the outcome, the
    probability of a model-based prediction of that engine is a number in
    [0, 1], or NaN. *)
Theorem Simple_train_then_predict :
  forall (env : Env) (habits : list Habit) (logs : list HabitLog),
    let engine :=
      fst (Simple.train (callees := source_callees) env habits logs
             Simple.PredictionEngine_new) in
    let td := createTrainingData env habits logs in
    Simple.isTrained engine
    = (8 <=? length logs)%nat && negb (length (td_features td) =? 0)%nat /\
    (Simple.isTrained engine = true ->
     Simple.logisticRegression engine
     = LR_train (LR_new (#0.01)%num 500) (td_features td) (td_labels td) /\
     Simple.decisionTree engine
     = DT_train (DT_new 4 3) (td_features td) (td_labels td)) /\
    forall (habit : Habit) (logs' : list HabitLog) (targetDate : Z),
      let p :=
        probability
          (Simple.generateMLPrediction engine env habit logs' targetDate) in
      p = JS.NaN \/ in_unit p.
Proof.
  intros env habits logs engine td.
  assert (Hengine :
            (engine = Simple.set_isTrained false Simple.PredictionEngine_new /\
             (8 <=? length logs)%nat
             && negb (length (td_features td) =? 0)%nat = false) \/
            (engine
             = {| Simple.logisticRegression :=
                    LR_train (LR_new (#0.01)%num 500) (td_features td)
                             (td_labels td);
                  Simple.decisionTree :=
                    DT_train (DT_new 4 3) (td_features td) (td_labels td);
                  Simple.isTrained := true;
                  Simple.minLogsForML := 8 |} /\
             (8 <=? length logs)%nat
             && negb (length (td_features td) =? 0)%nat = true)).
  { subst engine. unfold Simple.train, bind, get.
    cbn [Simple.minLogsForML Simple.PredictionEngine_new].
    destruct (length logs <? 8)%nat eqn:Hlogs.
    - left. split; [reflexivity|].
      apply Nat.ltb_lt in Hlogs.
      replace (8 <=? length logs)%nat with false
        by (symmetry; apply Nat.leb_gt; exact Hlogs).
      reflexivity.
    - apply Nat.ltb_ge in Hlogs.
      replace (8 <=? length logs)%nat with true
        by (symmetry; apply Nat.leb_le; exact Hlogs).
      fold td. destruct (length (td_features td) =? 0)%nat.
      + left. split; reflexivity.
      + right. split; [|reflexivity].
        unfold try_catch, call, modify.
        cbn [lr_train dt_train source_callees]. reflexivity. }
  destruct Hengine as [[-> Hcond]|[-> Hcond]]; rewrite Hcond;
    cbn [Simple.isTrained Simple.set_isTrained Simple.logisticRegression
         Simple.decisionTree Simple.PredictionEngine_new].
  - split; [reflexivity|]. split; [discriminate|].
    intros habit logs' targetDate.
    unfold Simple.generateMLPrediction.
    cbn [probability Simple.logisticRegression Simple.decisionTree
         Simple.set_isTrained Simple.PredictionEngine_new].
    apply weighted_average_unit; [apply sigmoid_NaN_or_unit|].
    exists 0.5%R. split; [reflexivity|lra].
  - split; [reflexivity|]. split; [auto|].
    intros habit logs' targetDate.
    unfold Simple.generateMLPrediction.
    cbn [probability Simple.logisticRegression Simple.decisionTree].
    apply weighted_average_unit; [apply sigmoid_NaN_or_unit|].
    apply andb_prop in Hcond. destruct Hcond as [_ Hne].
    unfold DT_train. apply negb_true_iff in Hne. rewrite Hne.
    unfold DT_predict. cbn [root]. apply or_else_half_unit.
    unfold buildTree. apply reach_unit_or_NaN.
    eapply Forall_impl; [|apply td_labels_binary]. intros v Hv. now right.
Qed.

(** ** Data quality *)

Lemma list_sum_le_each (l : list nat) (k : nat) :
  Forall (fun c => (c <= k)%nat) l -> (list_sum l <= length l * k)%nat.
Proof.
  induction 1 as [|c l Hc _ IH]; [cbn; lia|].
  rewrite list_sum_cons. cbn [length]. lia.
Qed.

Lemma iqrOutlierRate_in_unit column :
  column <> [] -> in_unit (iqrOutlierRate column).
Proof.
  intros Hne. unfold iqrOutlierRate.
  set (sorted := Array_sort _ column).
  assert (Hlen : length sorted = length column)
    by (apply Permutation_length, Array_sort_perm).
  apply ratio_in_unit; [apply count_le_length|].
  rewrite Hlen. destruct column; [congruence|cbn [length]; lia].
Qed.

Lemma positives_are_completed env habits logs :
  count (fun l => (l === #1)%num)
        (td_labels (createTrainingData env habits logs))
  = length (filter completed
              (flat_map (fun habit => logsOf habit logs) habits)).
Proof.
  unfold createTrainingData. cbn [td_labels].
  rewrite trainingSamples_labels. unfold count.
  induction habits as [|habit habits IH]; cbn [flat_map]; [reflexivity|].
  rewrite !filter_app, !length_app, IH. f_equal.
  induction (logsOf habit logs) as [|log rest IHl]; cbn [map filter];
    [reflexivity|].
  destruct (completed log); cbn [JS.of_bool JS.eqb].
  - rewrite Reqb_true by reflexivity. cbn [length]. now rewrite IHl.
  - rewrite Reqb_false by lra. exact IHl.
Qed.

(** The data quality report counts every training sample once in the
    class balance, and its rate of missing values and its outlier rate lie
    in [0, 1]; with no sample every figure is 0. *)
Theorem assessDataQuality_consistent :
  forall (env : Env) (habits : list Habit) (logs : list HabitLog),
    let quality := assessDataQuality env habits logs in
    let td := createTrainingData env habits logs in
    dq_totalSamples quality = length (td_features td) /\
    (fst (classBalance quality) + snd (classBalance quality)
     = dq_totalSamples quality)%nat /\
    fst (classBalance quality)
    = length (filter completed
                (flat_map (fun habit => logsOf habit logs) habits)) /\
    in_unit (missingValueRate quality) /\
    in_unit (outlierRate quality).
Proof.
  intros env habits logs quality td. subst quality.
  unfold assessDataQuality. fold td.
  assert (Hlabels : length (td_labels td) = length (td_features td)).
  { subst td. unfold createTrainingData. cbn [td_labels td_features].
    now rewrite !length_map. }
  pose proof (positives_are_completed env habits logs) as Hpositive.
  fold td in Hpositive.
  destruct (length (td_features td) =? 0)%nat eqn:Hn.
  - apply Nat.eqb_eq in Hn.
    cbn [dq_totalSamples classBalance missingValueRate outlierRate fst snd].
    split; [now rewrite Hn|]. split; [reflexivity|].
    split; [|split; apply in_unit_0].
    rewrite <- Hpositive.
    assert (Hnil : td_labels td = [])
      by (apply length_zero_iff_nil, Nat.eqb_eq; lia).
    now rewrite Hnil.
  - apply Nat.eqb_neq in Hn.
    cbn [dq_totalSamples classBalance missingValueRate outlierRate fst snd].
    split; [reflexivity|].
    pose proof (count_le_length (fun l => (l === #1)%num) (td_labels td))
      as Hle.
    split; [lia|]. split; [exact Hpositive|]. split.
    + replace (0 <? length (td_features td) * 8)%nat with true
        by (symmetry; apply Nat.ltb_lt; lia).
      apply ratio_in_unit; [|lia].
      rewrite <- (length_map
                    (fun feature =>
                       count (fun i => (at_ feature i === #0.5)%num)
                             (seq 5 8)) (td_features td)).
      apply list_sum_le_each. apply Forall_forall. intros c Hc.
      apply in_map_iff in Hc. destruct Hc as (feature & <- & _).
      etransitivity; [apply count_le_length|]. now rewrite length_seq.
    + apply iqrOutlierRate_in_unit. intros Hnil.
      apply (f_equal (@length _)) in Hnil.
      rewrite length_map in Hnil. cbn [length] in Hnil. lia.
Qed.

(** ** Retraining *)

Lemma LR_iteration_hyperparameters features labels numFeatures lr :
  learningRate (LR_iteration features labels numFeatures lr)
  = learningRate lr /\
  iterations (LR_iteration features labels numFeatures lr) = iterations lr.
Proof.
  unfold LR_iteration. destruct (fold_left _ _ _) as [wg bg].
  split; reflexivity.
Qed.

Lemma LR_iterate_hyperparameters features labels numFeatures lr n :
  learningRate (Nat.iter n (LR_iteration features labels numFeatures) lr)
  = learningRate lr /\
  iterations (Nat.iter n (LR_iteration features labels numFeatures) lr)
  = iterations lr.
Proof.
  induction n as [|n [IHr IHi]]; cbn [Nat.iter]; [auto|].
  destruct (LR_iteration_hyperparameters features labels numFeatures
              (Nat.iter n (LR_iteration features labels numFeatures) lr))
    as [Hr Hi].
  split; [etransitivity; [exact Hr|exact IHr]
        |etransitivity; [exact Hi|exact IHi]].
Qed.

Lemma LR_train_hyperparameters lr features labels :
  learningRate (LR_train lr features labels) = learningRate lr /\
  iterations (LR_train lr features labels) = iterations lr.
Proof.
  unfold LR_train. destruct features as [|first rest]; [auto|].
  cbv zeta.
  match goal with
  | |- context [Nat.iter ?n ?f ?lr0] =>
      destruct (LR_iterate_hyperparameters (first :: rest) labels
                  (length first) lr0 n) as [Hr Hi]
  end.
  split; [exact Hr|exact Hi].
Qed.

Lemma DT_train_hyperparameters dt features labels :
  maxDepth (DT_train dt features labels) = maxDepth dt /\
  minSamples (DT_train dt features labels) = minSamples dt.
Proof.
  unfold DT_train. destruct (length features =? 0)%nat; auto.
Qed.

(** Training a model again on samples starts afresh: what the model had
    learnt before has no effect on the result, only its learning rate and
    number of iterations, or its depth and sample limits, are kept. *)
Theorem retraining_starts_afresh :
  forall (lr : LogisticRegression) (dt : DecisionTree)
         (features1 features2 : list (list JS.num))
         (labels1 labels2 : list JS.num),
    features2 <> [] ->
    LR_train (LR_train lr features1 labels1) features2 labels2
    = LR_train lr features2 labels2 /\
    DT_train (DT_train dt features1 labels1) features2 labels2
    = DT_train dt features2 labels2.
Proof.
  intros lr dt features1 features2 labels1 labels2 Hne.
  destruct (LR_train_hyperparameters lr features1 labels1) as [Hr Hi].
  destruct (DT_train_hyperparameters dt features1 labels1) as [Hd Hm].
  split.
  - unfold LR_train at 1 3.
    destruct features2 as [|first rest]; [congruence|].
    now rewrite Hr, Hi.
  - unfold DT_train at 1 3.
    destruct (length features2 =? 0)%nat eqn:Hn;
      [apply length_zero_iff_nil in Hn; congruence|].
    unfold buildTree. now rewrite Hd, Hm.
Qed.

Lemma retraining_starts_afresh_witness :
  LR_train (LR_train LR_default [[#1]; [#0]]%num [#1; #0]%num)
           [[#0]; [#1]]%num [#1; #0]%num
  = LR_train LR_default [[#0]; [#1]]%num [#1; #0]%num /\
  DT_train (DT_train DT_default [[#1]; [#0]]%num [#1; #0]%num)
           [[#0]; [#1]]%num [#1; #0]%num
  = DT_train DT_default [[#0]; [#1]]%num [#1; #0]%num.
Proof.
  apply retraining_starts_afresh. discriminate.
Defined.

(** ** Area under the ROC curve *)

Lemma map_at_seq (l : list JS.num) : map (at_ l) (seq 0 (length l)) = l.
Proof.
  induction l as [|a l IH]; [reflexivity|].
  cbn [length seq map]. rewrite <- seq_shift, map_map.
  unfold at_ at 1. cbn [nth]. f_equal. exact IH.
Qed.

Lemma Rdiv_unit (x y : R) :
  (0 <= x <= y)%R -> (0 < y)%R ->
  (0 <= x / y <= 1)%R /\ (x / y * y = x)%R.
Proof.
  intros Hx Hy. split; [split|].
  - apply Rmult_le_pos; [lra|]. left. now apply Rinv_0_lt_compat.
  - apply (Rmult_le_reg_r y); [assumption|].
    unfold Rdiv. rewrite Rmult_assoc, Rinv_l by lra. lra.
  - field. lra.
Qed.

Lemma filter_map_length {A B} (f : A -> B) (p : B -> bool) l :
  length (filter p (map f l)) = length (filter (fun x => p (f x)) l).
Proof.
  induction l as [|a l IH]; cbn [map filter]; [reflexivity|].
  destruct (p (f a)); cbn [length]; now rewrite IH.
Qed.

(** The loop of [calculateROCAUC] keeps the area between 0 and the false
    positive rate, as long as the list holds no more positives and
    negatives than were counted. *)
Lemma roc_loop_bounds (P N : nat) :
  (0 < P)%nat -> (0 < N)%nat ->
  forall sorted st a b c,
    roc_tpr st = JS.Fin a -> roc_fpr st = JS.Fin b ->
    roc_auc st = JS.Fin c ->
    (0 <= a)%R -> (a * INR P <= INR (roc_tp st))%R ->
    (0 <= b)%R -> (b * INR N <= INR (roc_fp st))%R ->
    (0 <= c <= b)%R ->
    (roc_tp st
     + length (filter (fun p => (fst p === #1)%num) sorted) <= P)%nat ->
    (roc_fp st
     + length (filter (fun p => negb (fst p === #1)%num) sorted) <= N)%nat ->
    exists c', roc_auc (roc_loop P N sorted st) = JS.Fin c' /\
               (0 <= c' <= 1)%R.
Proof.
  intros HP HN.
  assert (Hp : (0 < INR P)%R) by (apply lt_0_INR; lia).
  assert (Hn : (0 < INR N)%R) by (apply lt_0_INR; lia).
  induction sorted as [|[actual prob] rest IH];
    intros st a b c Ha Hb Hc Ha0 Ha1 Hb0 Hb1 Hc01 Htp Hfp.
  - cbn [roc_loop]. exists c. split; [exact Hc|].
    cbn [filter length] in Hfp.
    assert (INR (roc_fp st) <= INR N)%R by (apply le_INR; lia).
    assert (b <= 1)%R by nra. lra.
  - cbn [roc_loop]. cbn [filter fst] in Htp, Hfp.
    set (tp := if (actual === #1)%num then S (roc_tp st) else roc_tp st).
    set (fp := if (actual === #1)%num then roc_fp st else S (roc_fp st)).
    assert (Htp' : (roc_tp st <= tp)%nat /\
                   (tp + length (filter (fun p => (fst p === #1)%num) rest)
                    <= P)%nat).
    { subst tp. destruct (actual === #1)%num; cbn [negb length] in *; lia. }
    assert (Hfp' : (roc_fp st <= fp)%nat /\
                   (fp + length (filter (fun p => negb (fst p === #1)%num)
                                        rest) <= N)%nat).
    { subst fp. destruct (actual === #1)%num; cbn [negb length] in *; lia. }
    destruct Htp' as [Htp1 Htp2]. destruct Hfp' as [Hfp1 Hfp2].
    assert (Htpr : (INR (roc_tp st) <= INR tp <= INR P)%R)
      by (split; apply le_INR; lia).
    assert (Hfpr : (INR (roc_fp st) <= INR fp <= INR N)%R)
      by (split; apply le_INR; lia).
    pose proof (pos_INR tp) as Htp0. pose proof (pos_INR fp) as Hfp0.
    destruct (match rest with
              | [] => true
              | (_, prob') :: _ => JS.neqb prob prob'
              end).
    + destruct (Rdiv_unit (INR tp) (INR P)) as [Hta Htm]; [lra|lra|].
      destruct (Rdiv_unit (INR fp) (INR N)) as [Hfa Hfm]; [lra|lra|].
      assert (Ha' : (a <= 1)%R) by nra.
      assert (Hbb : (b <= INR fp / INR N)%R) by nra.
      eapply IH; cbn [roc_tpr roc_fpr roc_auc roc_tp roc_fp].
      * unfold JS.of_nat. cbn [JS.div]. rewrite Reqb_false by lra.
        reflexivity.
      * unfold JS.of_nat. cbn [JS.div]. rewrite Reqb_false by lra.
        reflexivity.
      * rewrite Ha, Hb, Hc. unfold JS.of_nat. cbn [JS.div].
        rewrite !(Reqb_false (INR P)), !(Reqb_false (INR N)) by lra.
        unfold JS.sub. cbn [JS.neg JS.add JS.mul JS.div].
        rewrite Reqb_false by lra. reflexivity.
      * lra.
      * lra.
      * lra.
      * lra.
      * split; [|nra].
        assert (0 <= (INR fp / INR N + - b) * (a + INR tp / INR P) / 2)%R
          by nra.
        lra.
      * exact Htp2.
      * exact Hfp2.
    + eapply IH; cbn [roc_tpr roc_fpr roc_auc roc_tp roc_fp];
        try eassumption; lra.
Qed.

(** The area under the ROC curve is a number in [0, 1] for any actuals
    and probabilities, in exact arithmetic. *)
Theorem calculateROCAUC_range :
  forall actuals probabilities : list JS.num,
    in_unit (calculateROCAUC actuals probabilities).
Proof.
  intros actuals probabilities. unfold calculateROCAUC.
  set (pairs := map (fun i => (at_ actuals i, at_ probabilities i))
                    (seq 0 (length actuals))).
  set (sorted := Array_sort _ pairs).
  set (positives := count (fun a => (a === #1)%num) actuals).
  destruct ((positives =? 0)%nat || (length actuals - positives =? 0)%nat)
    eqn:Hguard.
  - exists 0.5%R. split; [reflexivity|lra].
  - apply orb_false_elim in Hguard. destruct Hguard as [HP HN].
    apply Nat.eqb_neq in HP, HN.
    assert (Hperm : Permutation sorted pairs) by apply Array_sort_perm.
    assert (Hfst : map fst pairs = actuals).
    { subst pairs. rewrite map_map. cbn [fst]. apply map_at_seq. }
    assert (Hpos : length (filter (fun p => (fst p === #1)%num) sorted)
                   = positives).
    { rewrite (filter_length_perm _ _ _ Hperm).
      subst positives. unfold count. rewrite <- Hfst.
      symmetry. apply filter_map_length. }
    assert (Hneg : length (filter (fun p => negb (fst p === #1)%num) sorted)
                   = (length actuals - positives)%nat).
    { assert (Hall : (length (filter (fun p => (fst p === #1)%num) sorted)
                      + length (filter (fun p => negb (fst p === #1)%num)
                                       sorted)
                      = length sorted)%nat).
      { clear. induction sorted as [|p ps IH]; cbn [filter length];
          [reflexivity|].
        destruct (fst p === #1)%num; cbn [negb length]; lia. }
      rewrite (Permutation_length Hperm) in Hall.
      assert (length pairs = length actuals)
        by (subst pairs; now rewrite length_map, length_seq).
      lia. }
    destruct (roc_loop_bounds positives (length actuals - positives))
      with (sorted := sorted)
           (st := {| roc_tpr := (#0)%num; roc_fpr := (#0)%num;
                     roc_auc := (#0)%num; roc_tp := 0; roc_fp := 0 |})
           (a := 0%R) (b := 0%R) (c := 0%R)
      as (c' & Hc' & Hrange);
      cbn [roc_tpr roc_fpr roc_auc roc_tp roc_fp INR]; try reflexivity;
      try lra; try lia.
    exists c'. split; assumption.
Qed.
